(** * Student course management: persistence, validation and referential integrity

    A shallow embedding of the Python package [student_management]
    (models, file handler and the three services) together with the
    properties its specification states about them.

    Conventions of the embedding.
    - A Python [str] is a [string]; each character is a code point below
      256 (the Latin-1 range of Python's Unicode strings).
    - A Python [int] is a [Z]; a numeric grade (annotated [float], given as
      an int or a float) is a finite number, held as its exact value, a
      rational [Q]; comparisons are exact and an arithmetic operation on
      floats is the exact operation followed by the rounding of IEEE 754
      binary64 (module [Float]). Infinities and NaN are outside the model.
    - Objects held in a service's list are mutated in place; a reference to
      an object of the list is its position in the list.
    - The data directory is its path and a finite map from the names of its
      files to their contents;
      [json.dumps] followed by [json.loads] is taken to be the identity on
      JSON values, so a file holds either a JSON value or malformed text. *)

From Stdlib Require Import Ascii String NArith ZArith QArith Qround Qabs Qpower Lqa.
From Stdlib Require SpecFloat.
From stdpp Require Import gmap strings list fin_maps.

Local Open Scope string_scope.
Local Open Scope list_scope.
Local Open Scope stdpp_scope.

(** ** Python strings *)

Module Str.

Definition ord (c : ascii) : N := N_of_ascii c.

Definition in_range (lo hi : N) (c : ascii) : bool :=
  ((lo <=? ord c) && (ord c <=? hi))%N.

(** [str.isspace] on one character: TAB..CR, FS..US, SPACE, NEL, NBSP. *)
Definition isspace (c : ascii) : bool :=
  in_range 9 13 c || in_range 28 32 c || (ord c =? 133)%N || (ord c =? 160)%N.

Definition isupper_ascii (c : ascii) : bool := in_range 65 90 c.
Definition islower_ascii (c : ascii) : bool := in_range 97 122 c.
Definition isalpha_ascii (c : ascii) : bool := isupper_ascii c || islower_ascii c.
Definition isdigit (c : ascii) : bool := in_range 48 57 c.

(** [bool(s)]: a string is truthy when it is not empty. *)
Definition truthy (s : string) : bool :=
  match s with EmptyString => false | String _ _ => true end.

Fixpoint lstrip (s : string) : string :=
  match s with
  | EmptyString => EmptyString
  | String c s' => if isspace c then lstrip s' else s
  end.

Fixpoint rstrip (s : string) : string :=
  match s with
  | EmptyString => EmptyString
  | String c s' =>
      let r := rstrip s' in
      if isspace c && negb (truthy r) then EmptyString else String c r
  end.

(** [s.strip()] with no argument. *)
Definition strip (s : string) : string := rstrip (lstrip s).

(** [c.lower()] on the Latin-1 range: A..Z and the accented capitals
    U+00C0..U+00DE (the multiplication sign U+00D7 apart) move up by 32. *)
Definition lower_char (c : ascii) : ascii :=
  if isupper_ascii c || (in_range 192 222 c && negb (ord c =? 215)%N)
  then ascii_of_N (ord c + 32)
  else c.

Fixpoint lower (s : string) : string :=
  match s with
  | EmptyString => EmptyString
  | String c s' => String (lower_char c) (lower s')
  end.

(** [needle in hay]. *)
Fixpoint contains (needle hay : string) : bool :=
  String.prefix needle hay ||
  match hay with
  | EmptyString => false
  | String _ hay' => contains needle hay'
  end.

(** [sep.join(parts)]. *)
Definition join (sep : string) (parts : list string) : string :=
  String.concat sep parts.

(** Spec-side reading of "blank after trimming": nothing but white space. *)
Fixpoint all_space (s : string) : bool :=
  match s with
  | EmptyString => true
  | String c s' => isspace c && all_space s'
  end.

End Str.

(** The test [not s or not s.strip()] shared by the three [validate] methods. *)
Definition missing (s : string) : bool :=
  negb (Str.truthy s) || negb (Str.truthy (Str.strip s)).

(** ** Regular expressions ([re.match] on the two patterns of the models) *)

Module Re.

Inductive regex : Type :=
  | Void : regex
  | Eps : regex
  | Class : (ascii → bool) → regex
  | Seq : regex → regex → regex
  | Alt : regex → regex → regex
  | Star : regex → regex.

Fixpoint nullable (r : regex) : bool :=
  match r with
  | Void => false
  | Eps => true
  | Class _ => false
  | Seq r1 r2 => nullable r1 && nullable r2
  | Alt r1 r2 => nullable r1 || nullable r2
  | Star _ => true
  end.

(** Brzozowski derivative. *)
Fixpoint deriv (c : ascii) (r : regex) : regex :=
  match r with
  | Void => Void
  | Eps => Void
  | Class p => if p c then Eps else Void
  | Seq r1 r2 =>
      if nullable r1 then Alt (Seq (deriv c r1) r2) (deriv c r2)
      else Seq (deriv c r1) r2
  | Alt r1 r2 => Alt (deriv c r1) (deriv c r2)
  | Star r1 => Seq (deriv c r1) (Star r1)
  end.

(** The whole string belongs to the language of [r]. *)
Fixpoint fullmatch (r : regex) (s : string) : bool :=
  match s with
  | EmptyString => nullable r
  | String c s' => fullmatch (deriv c r) s'
  end.

(** [r{n}] and [r{n,}]. *)
Fixpoint rep (n : nat) (r : regex) : regex :=
  match n with
  | O => Eps
  | S n' => Seq r (rep n' r)
  end.

Definition at_least (n : nat) (r : regex) : regex := Seq (rep n r) (Star r).

Definition plus (r : regex) : regex := at_least 1 r.

Definition lit (c : ascii) : regex := Class (λ x, Ascii.eqb x c).

Definition newline : ascii := ascii_of_N 10.

(** [re.match("^" r "$", s)] without flags: [^] anchors at the start, and [$]
    holds at the end of the string or just before a newline that ends it. *)
Definition match_anchored (r : regex) (s : string) : bool :=
  fullmatch (Seq r (Alt Eps (lit newline))) s.

(** Denotation of a regular expression, for the correctness of [fullmatch]. *)
Inductive lang : regex → string → Prop :=
  | lang_eps : lang Eps EmptyString
  | lang_class p c : p c = true → lang (Class p) (String c EmptyString)
  | lang_seq r1 r2 s1 s2 : lang r1 s1 → lang r2 s2 → lang (Seq r1 r2) (s1 +:+ s2)
  | lang_alt_l r1 r2 s : lang r1 s → lang (Alt r1 r2) s
  | lang_alt_r r1 r2 s : lang r2 s → lang (Alt r1 r2) s
  | lang_star_nil r : lang (Star r) EmptyString
  | lang_star_cons r s1 s2 :
      lang r s1 → lang (Star r) s2 → lang (Star r) (s1 +:+ s2).

End Re.

(** ** Naive datetimes and their ISO-8601 form *)

Module Datetime.

Record t : Type := mk {
  year : N; month : N; day : N;
  hour : N; minute : N; second : N; microsecond : N
}.

Definition is_leap (y : N) : bool :=
  (((y mod 4 =? 0) && negb (y mod 100 =? 0)) || (y mod 400 =? 0))%N.

Definition days_in_month (y m : N) : N :=
  if (m =? 2)%N then (if is_leap y then 29 else 28)%N
  else if ((m =? 4) || (m =? 6) || (m =? 9) || (m =? 11))%N then 30%N
  else 31%N.

(** The ranges the [datetime] constructor enforces. *)
Definition valid (d : t) : bool :=
  ((1 <=? year d) && (year d <=? 9999) &&
   (1 <=? month d) && (month d <=? 12) &&
   (1 <=? day d) && (day d <=? days_in_month (year d) (month d)) &&
   (hour d <? 24) && (minute d <? 60) && (second d <? 60) &&
   (microsecond d <? 1000000))%N.

Definition digit_char (k : N) : ascii := ascii_of_N (48 + k).

Definition digit_value (c : ascii) : option N :=
  if Str.isdigit c then Some (Str.ord c - 48)%N else None.

(** The [w] low decimal digits of [n], most significant first ([%0wd] for
    [n < 10^w]). *)
Fixpoint zfill (w : nat) (n : N) (acc : string) : string :=
  match w with
  | O => acc
  | S w' => zfill w' (n / 10)%N (String (digit_char (n mod 10)%N) acc)
  end.

(** Read [w] decimal digits off the front of [s]. *)
Fixpoint take_digits (w : nat) (s : string) (acc : N) : option (N * string) :=
  match w with
  | O => Some (acc, s)
  | S w' =>
      match s with
      | String c s' =>
          match digit_value c with
          | Some k => take_digits w' s' (10 * acc + k)%N
          | None => None
          end
      | EmptyString => None
      end
  end.

(** Read the character [c] off the front of [s]. *)
Definition expect (c : ascii) (s : string) : option string :=
  match s with
  | String x s' => if Ascii.eqb x c then Some s' else None
  | EmptyString => None
  end.

(** [d.isoformat()]: [YYYY-MM-DDTHH:MM:SS], followed by [.ffffff] when the
    microsecond is not zero. *)
Definition isoformat (d : t) : string :=
  zfill 4 (year d) "" +:+ "-" +:+ zfill 2 (month d) "" +:+ "-" +:+
  zfill 2 (day d) "" +:+ "T" +:+ zfill 2 (hour d) "" +:+ ":" +:+
  zfill 2 (minute d) "" +:+ ":" +:+ zfill 2 (second d) "" +:+
  (if (microsecond d =? 0)%N then "" else "." +:+ zfill 6 (microsecond d) "").

(** [datetime.fromisoformat(s)] on the two forms [isoformat] emits for a naive
    datetime. [None] says that the text is not of these forms: what the
    library does then (it reads further ISO-8601 forms, such as a date alone,
    a reduced time, another separator than [T] or a UTC offset, and raises
    [ValueError] on the rest) is not modelled. *)
Definition fromisoformat (s : string) : option t :=
  '(y, s) ← take_digits 4 s 0;
  s ← expect "-" s;
  '(mo, s) ← take_digits 2 s 0;
  s ← expect "-" s;
  '(dd, s) ← take_digits 2 s 0;
  s ← expect "T" s;
  '(h, s) ← take_digits 2 s 0;
  s ← expect ":" s;
  '(mi, s) ← take_digits 2 s 0;
  s ← expect ":" s;
  '(se, s) ← take_digits 2 s 0;
  '(us, s) ← (if Str.truthy s
              then s ← expect "." s; take_digits 6 s 0
              else Some (0%N, s));
  if Str.truthy s then None
  else
    let d := mk y mo dd h mi se us in
    if valid d then Some d else None.

End Datetime.

(** ** Python's [float] *)

Module Float.

(** A finite [float] is an IEEE 754 binary64 number: zero, or plus or minus
    [m * 2^(e - 52)] with [m < 2^53] and [-1022 <= e <= 1023].  It is held as
    its exact value; [+], [-] and [/] give the exact result rounded to the
    nearest such number, ties going to the even significand.  A result beyond
    the largest float, which Python gives as [inf], is not modelled: [round]
    keeps rounding to 53 bits there, and [is_float] tells the two apart. *)

(** The binary exponent of a positive number: [2^e <= q < 2^(e+1)]. *)
Definition ilog2 (q : Q) : Z :=
  let e := (Z.log2 (Qnum q) - Z.log2 (Zpos (Qden q)))%Z in
  if Qle_bool (2 ^ e)%Q q then e else (e - 1)%Z.

(** The nearest integer, a tie going to the even one. *)
Definition nearest_even (q : Q) : Z :=
  let f := Qfloor q in
  match Qcompare (q - inject_Z f) (1 # 2) with
  | Lt => f
  | Gt => (f + 1)%Z
  | Eq => if Z.even f then f else (f + 1)%Z
  end.

(** The spacing of the floats around a positive number (the spacing of the
    subnormal numbers below [2^-1022]). *)
Definition ulp (q : Q) : Q := (2 ^ (Z.max (ilog2 q) (-1022) - 52))%Q.

Definition round_pos (q : Q) : Q :=
  (inject_Z (nearest_even (q / ulp q)) * ulp q)%Q.

Definition round (q : Q) : Q :=
  let q := Qred q in
  match Qnum q with
  | Z0 => 0%Q
  | Zpos _ => round_pos q
  | Zneg _ => (- round_pos (- q))%Q
  end.



(** [x + y] and [x / y] on numbers of which one at least is a float; an int
    operand is converted first, exactly when it is below 2^53 in magnitude.
    ([int / int] is the correctly rounded quotient as well.) *)
Definition add (x y : Q) : Q := round (x + y).
Definition truediv (x y : Q) : Q := round (x / y).

End Float.

(** ** JSON values, exceptions and effects *)

#[warnings="-register-all"]
Inductive json : Type :=
  | JNull : json
  | JBool : bool → json
  | JInt : Z → json
  | JNum : Q → json
  | JStr : string → json
  | JArr : list json → json
  | JObj : gmap string json → json.

(** The exceptions the package raises or lets through. [IllTyped] is not a
    Python exception: it marks a document that this embedding does not
    cover, because a field holds a value of another JSON type than the
    annotated one (Python then raises [TypeError] or [AttributeError], or
    builds an object that the typed records here cannot hold) or a date in
    another form than [isoformat] writes. Nothing is stated about the program
    where the embedding gives [IllTyped]. *)
Inductive exn : Type :=
  | ValueError (msg : string)
  | KeyError (key : string)
  | Exception (msg : string)
  | IllTyped (field : string).

Inductive outcome (A : Type) : Type :=
  | Return (a : A)
  | Raise (e : exn).
Arguments Return {A} a.
Arguments Raise {A} e.

(** Computations that read and write a state [S] and may raise: the state
    reached when an exception is raised is kept, as in Python. *)
Definition Eff (S A : Type) : Type := S → outcome A * S.

Definition eff_ret {S A} (a : A) : Eff S A := λ s, (Return a, s).

Definition eff_bind {S A B} (f : A → Eff S B) (m : Eff S A) : Eff S B :=
  λ s, match m s with
       | (Return a, s') => f a s'
       | (Raise e, s') => (Raise e, s')
       end.

Global Instance Eff_ret {S} : MRet (Eff S) := λ A, eff_ret.
Global Instance Eff_bind {S} : MBind (Eff S) := λ A B, eff_bind.

Definition raise {S A} (e : exn) : Eff S A := λ s, (Raise e, s).
Definition get {S} : Eff S S := λ s, (Return s, s).
Definition modify {S} (f : S → S) : Eff S () := λ s, (Return (), f s).
Definition lift {S A} (o : outcome A) : Eff S A := λ s, (o, s).

(** [[f(x) for x in xs]]: left to right, stopping at the first exception. *)
Fixpoint for_each {S A B} (f : A → Eff S B) (xs : list A) : Eff S (list B) :=
  match xs with
  | [] => mret []
  | x :: xs' => y ← f x; ys ← for_each f xs'; mret (y :: ys)
  end.

(** The system clock: [datetime.now()] returns the next reading. *)
Module Clock.

Record t : Type := mk { readings : nat → Datetime.t; ticks : nat }.

Definition now : Eff t Datetime.t :=
  λ c, (Return (readings c (ticks c)), mk (readings c) (S (ticks c))).

End Clock.

(** Dictionary access on a parsed document. *)
Definition getitem (data : json) (key : string) : outcome json :=
  match data with
  | JObj m =>
      match m !! key with
      | Some v => Return v
      | None => Raise (KeyError key)
      end
  | _ => Raise (IllTyped key)
  end.

(** [data.get(key)]: [None] (JSON null) when the key is missing. *)
Definition dict_get (data : json) (key : string) : outcome json :=
  match data with
  | JObj m => Return (default JNull (m !! key))
  | _ => Raise (IllTyped key)
  end.

Definition as_str (field : string) (v : json) : outcome string :=
  match v with
  | JStr s => Return s
  | _ => Raise (IllTyped field)
  end.

Definition as_int (field : string) (v : json) : outcome Z :=
  match v with
  | JInt z => Return z
  | _ => Raise (IllTyped field)
  end.

Definition outcome_bind {A B} (f : A → outcome B) (o : outcome A) : outcome B :=
  match o with
  | Return a => f a
  | Raise e => Raise e
  end.

Global Instance outcome_ret : MRet outcome := λ A, Return.
Global Instance outcome_mbind : MBind outcome := λ A B, outcome_bind.

(** ** models/student.py *)

Module Student.

Record t : Type := mk {
  student_id : string;
  name : string;
  email : string;
  program : string
}.

(** Attribute assignments [self.name = v], [self.email = v], [self.program = v]. *)
Definition set_name (self : t) (v : string) : t :=
  mk (student_id self) v (email self) (program self).
Definition set_email (self : t) (v : string) : t :=
  mk (student_id self) (name self) v (program self).
Definition set_program (self : t) (v : string) : t :=
  mk (student_id self) (name self) (email self) v.

Definition local_char (c : ascii) : bool :=
  Str.isalpha_ascii c || Str.isdigit c ||
  Ascii.eqb c "." || Ascii.eqb c "_" || Ascii.eqb c "%" ||
  Ascii.eqb c "+" || Ascii.eqb c "-".

Definition domain_char (c : ascii) : bool :=
  Str.isalpha_ascii c || Str.isdigit c || Ascii.eqb c "." || Ascii.eqb c "-".

(** [[a-zA-Z0-9._%+-]+@[a-zA-Z0-9.-]+\.[a-zA-Z]{2,}] *)
Definition email_pattern : Re.regex :=
  Re.Seq (Re.plus (Re.Class local_char))
    (Re.Seq (Re.lit "@")
       (Re.Seq (Re.plus (Re.Class domain_char))
          (Re.Seq (Re.lit ".") (Re.at_least 2 (Re.Class Str.isalpha_ascii))))).

Definition _is_valid_email (email : string) : bool :=
  Re.match_anchored email_pattern email.

Definition validate (self : t) : list string :=
  let errors := [] in
  let errors :=
    if missing (student_id self)
    then errors ++ ["Student ID is required and cannot be empty"] else errors in
  let errors :=
    if missing (name self)
    then errors ++ ["Name is required and cannot be empty"] else errors in
  let errors :=
    if missing (email self)
    then errors ++ ["Email is required and cannot be empty"]
    else if negb (_is_valid_email (email self))
    then errors ++ ["Email format is invalid"] else errors in
  let errors :=
    if missing (program self)
    then errors ++ ["Program is required and cannot be empty"] else errors in
  errors.

Definition to_dict (self : t) : json :=
  JObj {[ "student_id" := JStr (student_id self);
          "name" := JStr (name self);
          "email" := JStr (email self);
          "program" := JStr (program self) ]}.

Definition from_dict (data : json) : outcome t :=
  v1 ← getitem data "student_id";
  v2 ← getitem data "name";
  v3 ← getitem data "email";
  v4 ← getitem data "program";
  student_id ← as_str "student_id" v1;
  name ← as_str "name" v2;
  email ← as_str "email" v3;
  program ← as_str "program" v4;
  mret (mk student_id name email program).

Definition __str__ (self : t) : string :=
  "Student(" +:+ student_id self +:+ ": " +:+ name self +:+ " - "
  +:+ program self +:+ ")".

End Student.

(** ** models/course.py *)

Module Course.

Record t : Type := mk {
  course_code : string;
  name : string;
  credits : Z;
  instructor : string
}.

Definition set_name (self : t) (v : string) : t :=
  mk (course_code self) v (credits self) (instructor self).
Definition set_credits (self : t) (v : Z) : t :=
  mk (course_code self) (name self) v (instructor self).
Definition set_instructor (self : t) (v : string) : t :=
  mk (course_code self) (name self) (credits self) v.

(** [[A-Z]{3}\d{4}]. Among the characters of this embedding (code points
    below 256) [\d] matches the digits 0 to 9; in Python it matches the
    decimal digits of the other scripts too, which the strings here do not
    hold. *)
Definition code_pattern : Re.regex :=
  Re.Seq (Re.rep 3 (Re.Class Str.isupper_ascii)) (Re.rep 4 (Re.Class Str.isdigit)).

Definition _is_valid_course_code (code : string) : bool :=
  Re.match_anchored code_pattern code.

(** [isinstance(self.credits, int)]: the field is typed [int]. *)
Definition isinstance_int (_ : Z) : bool := true.

Definition validate (self : t) : list string :=
  let errors := [] in
  let errors :=
    if missing (course_code self)
    then errors ++ ["Course code is required and cannot be empty"]
    else if negb (_is_valid_course_code (course_code self))
    then errors ++ ["Course code must be in format XXX1234 (three uppercase letters followed by four digits)"]
    else errors in
  let errors :=
    if missing (name self)
    then errors ++ ["Course name is required and cannot be empty"] else errors in
  let errors :=
    if negb (isinstance_int (credits self))
    then errors ++ ["Credits must be an integer"]
    else if negb ((1 <=? credits self)%Z && (credits self <=? 6)%Z)
    then errors ++ ["Credits must be between 1 and 6"] else errors in
  let errors :=
    if missing (instructor self)
    then errors ++ ["Instructor name is required and cannot be empty"] else errors in
  errors.

Definition to_dict (self : t) : json :=
  JObj {[ "course_code" := JStr (course_code self);
          "name" := JStr (name self);
          "credits" := JInt (credits self);
          "instructor" := JStr (instructor self) ]}.

Definition from_dict (data : json) : outcome t :=
  v1 ← getitem data "course_code";
  v2 ← getitem data "name";
  v3 ← getitem data "credits";
  v4 ← getitem data "instructor";
  course_code ← as_str "course_code" v1;
  name ← as_str "name" v2;
  credits ← as_int "credits" v3;
  instructor ← as_str "instructor" v4;
  mret (mk course_code name credits instructor).

End Course.

(** ** models/enrollment.py *)

Module Enrollment.

Record t : Type := mk {
  student_id : string;
  course_code : string;
  grade : option Q;
  enrollment_date : Datetime.t
}.

(** Attribute assignment [self.grade = v]. *)
Definition set_grade (self : t) (v : option Q) : t :=
  mk (student_id self) (course_code self) v (enrollment_date self).

(** [__init__]: [enrollment_date or datetime.now()] reads the clock only when
    no date is given (a [datetime] object is always truthy). *)
Definition init (student_id course_code : string) (grade : option Q)
    (enrollment_date : option Datetime.t) : Eff Clock.t t :=
  d ← match enrollment_date with
      | Some d => mret d
      | None => Clock.now
      end;
  mret (mk student_id course_code grade d).

(** [isinstance(self.grade, (int, float))]: the field is typed numeric. *)
Definition isinstance_number (_ : Q) : bool := true.

Definition validate (self : t) : list string :=
  let errors := [] in
  let errors :=
    if missing (student_id self)
    then errors ++ ["Student ID is required and cannot be empty"] else errors in
  let errors :=
    if missing (course_code self)
    then errors ++ ["Course code is required and cannot be empty"] else errors in
  let errors :=
    match grade self with
    | Some g =>
        if negb (isinstance_number g)
        then errors ++ ["Grade must be a number"]
        else if negb (Qle_bool 0 g && Qle_bool g 100)
        then errors ++ ["Grade must be between 0 and 100"] else errors
    | None => errors
    end in
  errors.

Definition calculate_letter_grade (self : t) : string :=
  match grade self with
  | None => "N/A"
  | Some g =>
      if Qle_bool 90 g then "A+"
      else if Qle_bool 85 g then "A"
      else if Qle_bool 80 g then "B+"
      else if Qle_bool 75 g then "B"
      else if Qle_bool 70 g then "C+"
      else if Qle_bool 65 g then "C"
      else if Qle_bool 60 g then "D+"
      else if Qle_bool 55 g then "D"
      else "F"
  end.

Definition to_dict (self : t) : json :=
  JObj {[ "student_id" := JStr (student_id self);
          "course_code" := JStr (course_code self);
          "grade" := match grade self with Some g => JNum g | None => JNull end;
          "enrollment_date" := JStr (Datetime.isoformat (enrollment_date self)) ]}.

(** [bool(v)] of a parsed JSON value. *)
Definition json_truthy (v : json) : bool :=
  match v with
  | JNull => false
  | JBool b => b
  | JInt z => negb (z =? 0)%Z
  | JNum q => negb (Qeq_bool q 0)
  | JStr s => Str.truthy s
  | JArr l => match l with [] => false | _ => true end
  | JObj m => negb (bool_decide (m = ∅))
  end.

Definition as_grade (v : json) : outcome (option Q) :=
  match v with
  | JNull => Return None
  | JInt z => Return (Some (inject_Z z))
  | JNum q => Return (Some q)
  | _ => Raise (IllTyped "grade")
  end.

Definition from_dict (data : json) : Eff Clock.t t :=
  enrollment_date ←
    match data with
    | JObj m =>
        match m !! "enrollment_date" with
        | None => mret None
        | Some (JStr s) =>
            match Datetime.fromisoformat s with
            | Some d => mret (Some d)
            | None => raise (IllTyped "enrollment_date")
            end
        | Some v =>
            if json_truthy v then raise (IllTyped "enrollment_date")
            else mret None
        end
    | _ => raise (IllTyped "enrollment_date")
    end;
  v1 ← lift (getitem data "student_id");
  v2 ← lift (getitem data "course_code");
  v3 ← lift (dict_get data "grade");
  student_id ← lift (as_str "student_id" v1);
  course_code ← lift (as_str "course_code" v2);
  grade ← lift (as_grade v3);
  init student_id course_code grade enrollment_date.

End Enrollment.

(** ** The running program: clock, data directory and the three services' lists *)

Inductive file : Type :=
  | Malformed (err : string)
  | Json (data : json).

Record world : Type := mkWorld {
  data_dir : string;
  clock : Clock.t;
  disk : gmap string file;
  writes : list string;
  students : list Student.t;
  courses : list Course.t;
  enrollments : list Enrollment.t
}.

Definition M : Type → Type := Eff world.

Definition set_clock (w : world) (c : Clock.t) : world :=
  mkWorld (data_dir w) c (disk w) (writes w) (students w) (courses w) (enrollments w).
Definition set_students (l : list Student.t) (w : world) : world :=
  mkWorld (data_dir w) (clock w) (disk w) (writes w) l (courses w) (enrollments w).
Definition set_courses (l : list Course.t) (w : world) : world :=
  mkWorld (data_dir w) (clock w) (disk w) (writes w) (students w) l (enrollments w).
Definition set_enrollments (l : list Enrollment.t) (w : world) : world :=
  mkWorld (data_dir w) (clock w) (disk w) (writes w) (students w) (courses w) l.

(** Run a computation on the clock inside the world. *)
Definition with_clock {A} (m : Eff Clock.t A) : M A :=
  λ w, let '(o, c) := m (clock w) in (o, set_clock w c).

(** [bool(xs)] of a list. *)
Definition nonempty {A} (xs : list A) : bool :=
  match xs with [] => false | _ => true end.

(** ** data/file_handler.py *)

Module FileHandler.

(** [file_path.write_text(json.dumps(data, ...))]: the file is overwritten
    and the write is recorded. *)
Definition write_text (file_name : string) (data : json) : M () :=
  modify (λ w, mkWorld (data_dir w) (clock w) (<[file_name := Json data]> (disk w))
                 (writes w ++ [file_name])
                 (students w) (courses w) (enrollments w)).

(** [str(self.data_dir / name)] on a POSIX system, [data_dir] being
    [str(self.data_dir)]: a path in normal form, "." for the current
    directory and without a final slash but for the root. *)
Definition file_path (data_dir name : string) : string :=
  if String.eqb data_dir "." then name
  else if String.eqb data_dir "/" || String.eqb data_dir "//" then data_dir +:+ name
  else data_dir +:+ "/" +:+ name.

(** [data.get(key, [])] followed by the iteration over it: the items of a
    list, the keys of a dict (in the order of the map here, of insertion in
    Python), the characters of a str, so nothing when one of these is empty;
    a number, a boolean or null cannot be iterated. *)
Definition get_list (data : json) (key : string) : outcome (list json) :=
  match data with
  | JObj m =>
      match m !! key with
      | None => Return []
      | Some (JArr l) => Return l
      | Some (JObj m') => Return (JStr <$> (map_to_list m').*1)
      | Some (JStr s) =>
          Return ((λ c, JStr (String c "")) <$> list_ascii_of_string s)
      | Some _ => Raise (IllTyped key)
      end
  | _ => Raise (IllTyped key)
  end.

Definition metadata (now : Datetime.t) (count : nat) : json :=
  JObj {[ "version" := JStr "1.0";
          "last_updated" := JStr (Datetime.isoformat now);
          "count" := JInt (Z.of_nat count) ]}.

(** The body shared by [load_students], [load_courses] and
    [load_enrollments]: no file, an empty list; text that does not parse, the
    exception (its message gives the path of the file and the decoder's
    message); else the entities of the named array, built one by one. *)
Definition load {A} (file_name key : string) (from_dict : json → M A) : M (list A) :=
  w ← get;
  match disk w !! file_name with
  | None => mret []
  | Some (Malformed err) =>
      raise (Exception ("Invalid JSON in " +:+ file_path (data_dir w) file_name
                        +:+ ": " +:+ err))
  | Some (Json data) =>
      items ← lift (get_list data key);
      for_each from_dict items
  end.

(** The body shared by [save_students], [save_courses] and
    [save_enrollments]: the envelope with the array and the metadata block,
    written over the file. *)
Definition save (file_name key : string) (dicts : list json) : M () :=
  now ← with_clock Clock.now;
  let data := JObj {[ key := JArr dicts;
                      "metadata" := metadata now (length dicts) ]} in
  write_text file_name data.

Definition load_students : M (list Student.t) :=
  load "students.json" "students" (λ s, lift (Student.from_dict s)).

Definition save_students (students : list Student.t) : M () :=
  save "students.json" "students" (Student.to_dict <$> students).

Definition load_courses : M (list Course.t) :=
  load "courses.json" "courses" (λ c, lift (Course.from_dict c)).

Definition save_courses (courses : list Course.t) : M () :=
  save "courses.json" "courses" (Course.to_dict <$> courses).

Definition load_enrollments : M (list Enrollment.t) :=
  load "enrollments.json" "enrollments" (λ e, with_clock (Enrollment.from_dict e)).

Definition save_enrollments (enrollments : list Enrollment.t) : M () :=
  save "enrollments.json" "enrollments" (Enrollment.to_dict <$> enrollments).

(** [%Y] as the C library of Linux prints the year of a [datetime] (1 to
    9999): in decimal, without padding. Other C libraries pad the years below
    1000 with zeros. *)
Definition year_digits (y : N) : string :=
  if (y <? 10)%N then Datetime.zfill 1 y ""
  else if (y <? 100)%N then Datetime.zfill 2 y ""
  else if (y <? 1000)%N then Datetime.zfill 3 y ""
  else Datetime.zfill 4 y "".

(** [now.strftime("%Y%m%d_%H%M%S")]. *)
Definition strftime_stamp (d : Datetime.t) : string :=
  year_digits (Datetime.year d) +:+ Datetime.zfill 2 (Datetime.month d) ""
  +:+ Datetime.zfill 2 (Datetime.day d) "" +:+ "_"
  +:+ Datetime.zfill 2 (Datetime.hour d) "" +:+ Datetime.zfill 2 (Datetime.minute d) ""
  +:+ Datetime.zfill 2 (Datetime.second d) "".

Definition file_map : gmap string string :=
  {[ "students" := "students.json";
     "courses" := "courses.json";
     "enrollments" := "enrollments.json" ]}.

(** [shutil.copy2(source, target)]: the target file gets the content of the
    source, and the write is recorded. *)
Definition copy2 (content : file) (target : string) : M () :=
  modify (λ w, mkWorld (data_dir w) (clock w) (<[target := content]> (disk w))
                 (writes w ++ [target])
                 (students w) (courses w) (enrollments w)).

(** The files of the data directory are held by name; the value returned is
    the path of the backup, [self.data_dir / backup_name]. *)
Definition create_backup (file_type : string) : M (option string) :=
  match file_map !! file_type with
  | None => raise (ValueError ("Invalid file type: " +:+ file_type))
  | Some source_file =>
      w ← get;
      match disk w !! source_file with
      | None => mret None
      | Some content =>
          now ← with_clock Clock.now;
          let timestamp := strftime_stamp now in
          let backup_name := file_type +:+ "_" +:+ timestamp +:+ ".bak" in
          copy2 content backup_name;;
          mret (Some (file_path (data_dir w) backup_name))
      end
  end.

End FileHandler.

(** ** services/student_service.py *)

Module StudentService.

Definition init : M () :=
  l ← FileHandler.load_students; modify (set_students l).

Definition _save : M () :=
  w ← get; FileHandler.save_students (students w).

(** The linear scan of [get_student]: the first student with the given ID,
    as a reference (its position in [self.students]) and its current value. *)
Definition get_student (student_id : string) : M (option (nat * Student.t)) :=
  w ← get;
  mret (list_find (λ s, Student.student_id s = student_id) (students w)).

(** An attribute assignment through a reference into [self.students]: the
    object at position [i] becomes [student]. *)
Definition setattr (i : nat) (student : Student.t) : M Student.t :=
  modify (λ w, set_students (<[i := student]> (students w)) w);; mret student.

Definition create_student (student_id name email program : string) : M Student.t :=
  found ← get_student student_id;
  if found is Some _ then
    raise (ValueError ("Student with ID " +:+ student_id +:+ " already exists."))
  else
    let student := Student.mk student_id name email program in
    let errors := Student.validate student in
    if nonempty errors then
      raise (ValueError ("Invalid student data: " +:+ Str.join "; " errors))
    else
      modify (λ w, set_students (students w ++ [student]) w);;
      _save;;
      mret student.

Definition list_students : M (list Student.t) :=
  w ← get; mret (students w).

Definition update_student (student_id : string)
    (name email program : option string) : M Student.t :=
  found ← get_student student_id;
  match found with
  | None =>
      raise (ValueError ("Student with ID " +:+ student_id +:+ " not found."))
  | Some (i, student) =>
      let original_name := Student.name student in
      let original_email := Student.email student in
      let original_program := Student.program student in
      student ← (if name is Some v
                 then setattr i (Student.set_name student v) else mret student);
      student ← (if email is Some v
                 then setattr i (Student.set_email student v) else mret student);
      student ← (if program is Some v
                 then setattr i (Student.set_program student v) else mret student);
      let errors := Student.validate student in
      if nonempty errors then
        student ← setattr i (Student.set_name student original_name);
        student ← setattr i (Student.set_email student original_email);
        student ← setattr i (Student.set_program student original_program);
        raise (ValueError ("Invalid update data: " +:+ Str.join "; " errors))
      else
        _save;;
        mret student
  end.

Definition delete_student (student_id : string) : M bool :=
  found ← get_student student_id;
  match found with
  | Some (i, _) =>
      modify (λ w, set_students (delete i (students w)) w);;
      _save;;
      mret true
  | None => mret false
  end.

Definition search_students (name program : option string) : M (list Student.t) :=
  w ← get;
  let results := students w in
  let results :=
    match name with
    | Some name =>
        if Str.truthy name then
          let name_lower := Str.lower name in
          List.filter
            (λ s, Str.contains name_lower (Str.lower (Student.name s))) results
        else results
    | None => results
    end in
  let results :=
    match program with
    | Some program =>
        if Str.truthy program then
          List.filter (λ s, bool_decide (Student.program s = program)) results
        else results
    | None => results
    end in
  mret results.

End StudentService.

(** ** services/course_service.py *)

Module CourseService.

Definition init : M () :=
  l ← FileHandler.load_courses; modify (set_courses l).

Definition _save : M () :=
  w ← get; FileHandler.save_courses (courses w).

Definition get_course (course_code : string) : M (option (nat * Course.t)) :=
  w ← get;
  mret (list_find (λ c, Course.course_code c = course_code) (courses w)).

Definition setattr (i : nat) (course : Course.t) : M Course.t :=
  modify (λ w, set_courses (<[i := course]> (courses w)) w);; mret course.

Definition create_course (course_code name : string) (credits : Z)
    (instructor : string) : M Course.t :=
  found ← get_course course_code;
  if found is Some _ then
    raise (ValueError ("Course with code " +:+ course_code +:+ " already exists."))
  else
    let course := Course.mk course_code name credits instructor in
    let errors := Course.validate course in
    if nonempty errors then
      raise (ValueError ("Invalid course data: " +:+ Str.join "; " errors))
    else
      modify (λ w, set_courses (courses w ++ [course]) w);;
      _save;;
      mret course.

Definition list_courses : M (list Course.t) :=
  w ← get; mret (courses w).

Definition update_course (course_code : string) (name : option string)
    (credits : option Z) (instructor : option string) : M Course.t :=
  found ← get_course course_code;
  match found with
  | None =>
      raise (ValueError ("Course with code " +:+ course_code +:+ " not found."))
  | Some (i, course) =>
      let original_name := Course.name course in
      let original_credits := Course.credits course in
      let original_instructor := Course.instructor course in
      course ← (if name is Some v
                then setattr i (Course.set_name course v) else mret course);
      course ← (if credits is Some v
                then setattr i (Course.set_credits course v) else mret course);
      course ← (if instructor is Some v
                then setattr i (Course.set_instructor course v) else mret course);
      let errors := Course.validate course in
      if nonempty errors then
        course ← setattr i (Course.set_name course original_name);
        course ← setattr i (Course.set_credits course original_credits);
        course ← setattr i (Course.set_instructor course original_instructor);
        raise (ValueError ("Invalid update data: " +:+ Str.join "; " errors))
      else
        _save;;
        mret course
  end.

Definition delete_course (course_code : string) : M bool :=
  found ← get_course course_code;
  match found with
  | Some (i, _) =>
      modify (λ w, set_courses (delete i (courses w)) w);;
      _save;;
      mret true
  | None => mret false
  end.

(** One step of [search_courses]: [if text: results = [c for c in results if
    text.lower() in field(c).lower()]]. *)
Definition narrow (text : option string) (field : Course.t → string)
    (results : list Course.t) : list Course.t :=
  match text with
  | Some text =>
      if Str.truthy text then
        let text_lower := Str.lower text in
        List.filter (λ c, Str.contains text_lower (Str.lower (field c))) results
      else results
  | None => results
  end.

Definition search_courses (course_code name instructor : option string)
    : M (list Course.t) :=
  w ← get;
  let results := courses w in
  let results := narrow course_code Course.course_code results in
  let results := narrow name Course.name results in
  let results := narrow instructor Course.instructor results in
  mret results.

End CourseService.

(** ** services/enrollment_service.py *)

Module EnrollmentService.

Definition init : M () :=
  l ← FileHandler.load_enrollments; modify (set_enrollments l).

Definition _save : M () :=
  w ← get; FileHandler.save_enrollments (enrollments w).

Definition _get_enrollment (student_id course_code : string)
    : M (option (nat * Enrollment.t)) :=
  w ← get;
  mret (list_find
          (λ e, Enrollment.student_id e = student_id
                ∧ Enrollment.course_code e = course_code)
          (enrollments w)).

Definition setattr (i : nat) (enrollment : Enrollment.t) : M Enrollment.t :=
  modify (λ w, set_enrollments (<[i := enrollment]> (enrollments w)) w);;
  mret enrollment.

Definition enroll_student (student_id course_code : string) : M Enrollment.t :=
  student ← StudentService.get_student student_id;
  if student is None then
    raise (ValueError ("Student with ID " +:+ student_id +:+ " not found."))
  else
  course ← CourseService.get_course course_code;
  if course is None then
    raise (ValueError ("Course with code " +:+ course_code +:+ " not found."))
  else
  duplicate ← _get_enrollment student_id course_code;
  if duplicate is Some _ then
    raise (ValueError ("Student " +:+ student_id +:+ " is already enrolled in "
                       +:+ course_code +:+ "."))
  else
  enrollment ← with_clock (Enrollment.init student_id course_code None None);
  let errors := Enrollment.validate enrollment in
  if nonempty errors then
    raise (ValueError ("Invalid enrollment data: " +:+ Str.join "; " errors))
  else
    modify (λ w, set_enrollments (enrollments w ++ [enrollment]) w);;
    _save;;
    mret enrollment.

Definition assign_grade (student_id course_code : string) (grade : Q)
    : M Enrollment.t :=
  found ← _get_enrollment student_id course_code;
  match found with
  | None =>
      raise (ValueError ("Student " +:+ student_id +:+ " is not enrolled in course "
                         +:+ course_code +:+ "."))
  | Some (i, enrollment) =>
      let original_grade := Enrollment.grade enrollment in
      enrollment ← setattr i (Enrollment.set_grade enrollment (Some grade));
      let errors := Enrollment.validate enrollment in
      if nonempty errors then
        enrollment ← setattr i (Enrollment.set_grade enrollment original_grade);
        raise (ValueError ("Invalid grade: " +:+ Str.join "; " errors))
      else
        _save;;
        mret enrollment
  end.

Definition unenroll_student (student_id course_code : string) : M bool :=
  found ← _get_enrollment student_id course_code;
  match found with
  | Some (i, _) =>
      modify (λ w, set_enrollments (delete i (enrollments w)) w);;
      _save;;
      mret true
  | None => mret false
  end.

Definition get_student_enrollments (student_id : string) : M (list Enrollment.t) :=
  w ← get;
  mret (List.filter (λ e, bool_decide (Enrollment.student_id e = student_id))
          (enrollments w)).

Definition get_course_enrollments (course_code : string) : M (list Enrollment.t) :=
  w ← get;
  mret (List.filter (λ e, bool_decide (Enrollment.course_code e = course_code))
          (enrollments w)).

(** [sum(xs)]: the items are added left to right, from 0, each addition
    rounding to a float.  (An addition of two ints is exact in Python; it is
    exact here too as long as the running sum is below 2^53.  From CPython
    3.12 on, [sum] carries a compensation term for float items, which is zero
    as long as the running sums are exact.) *)
Definition py_sum (xs : list Q) : Q := fold_left Float.add xs 0%Q.

(** [e.grade] of a graded enrollment. *)
Definition the_grade (e : Enrollment.t) : Q := default 0%Q (Enrollment.grade e).

(** [x is not None]. *)
Definition is_not_none {A} (x : option A) : bool :=
  match x with Some _ => true | None => false end.

Definition average (enrollments : list Enrollment.t) : Q :=
  let graded_enrollments :=
    List.filter (λ e, is_not_none (Enrollment.grade e)) enrollments in
  if negb (nonempty graded_enrollments) then 0%Q
  else
    let total := py_sum (the_grade <$> graded_enrollments) in
    Float.truediv total (inject_Z (Z.of_nat (length graded_enrollments))).

Definition get_student_gpa (student_id : string) : M Q :=
  enrollments ← get_student_enrollments student_id;
  mret (average enrollments).

Definition get_course_average (course_code : string) : M Q :=
  enrollments ← get_course_enrollments course_code;
  mret (average enrollments).

End EnrollmentService.

(** ** ui/cli.py (the handlers that read and print text only) *)

Module CLI.

(** What the terminal shows: a line written by [print], or the prompt of an
    [input] call. *)
Inductive io_event : Type :=
  | Printed (line : string)
  | Prompted (prompt : string).

Record state : Type := mk { sys : world; screen : list io_event }.

Definition print (line : string) : Eff state () :=
  modify (λ s, mk (sys s) (screen s ++ [Printed line])).

(** [input(prompt)], where [typed] is the line the user types (without its
    newline). *)
Definition input (prompt typed : string) : Eff state string :=
  modify (λ s, mk (sys s) (screen s ++ [Prompted prompt]));; mret typed.

(** A call into a service. *)
Definition call {A} (m : M A) : Eff state A :=
  λ s, let '(o, w) := m (sys s) in (o, mk w (screen s)).

(** [try: body  except ValueError as e: handler(str(e))]. *)
Definition try_except_ValueError {A} (body : Eff state A)
    (handler : string → Eff state A) : Eff state A :=
  λ s, match body s with
       | (Raise (ValueError msg), s') => handler msg s'
       | r => r
       end.

(** [x or None] on a string. *)
Definition or_None (x : string) : option string :=
  if Str.truthy x then Some x else None.

(** A line that starts with a newline character, as in [print("\n...")]. *)
Definition nl (text : string) : string := String Re.newline text.

Definition _add_student (typed_id typed_name typed_email typed_program : string)
    : Eff state () :=
  print (nl "Adding New Student");;
  line ← input "Enter Student ID: " typed_id;
  let student_id := Str.strip line in
  line ← input "Enter Name: " typed_name;
  let name := Str.strip line in
  line ← input "Enter Email: " typed_email;
  let email := Str.strip line in
  line ← input "Enter Program: " typed_program;
  let program := Str.strip line in
  try_except_ValueError
    (call (StudentService.create_student student_id name email program);;
     print "Student added successfully!")
    (λ e, print ("Error: " +:+ e)).

(** [for x in xs: print(x)]. *)
Fixpoint print_each (lines : list string) : Eff state () :=
  match lines with
  | [] => mret ()
  | line :: rest => print line;; print_each rest
  end.

Definition _list_students : Eff state () :=
  print (nl "List of Students:");;
  students ← call StudentService.list_students;
  if negb (nonempty students) then print "No students found."
  else print_each (Student.__str__ <$> students).

Definition _search_students (typed_name typed_program : string) : Eff state () :=
  print (nl "Search Students");;
  line ← input "Enter Name (leave empty to skip): " typed_name;
  let name := or_None (Str.strip line) in
  line ← input "Enter Program (leave empty to skip): " typed_program;
  let program := or_None (Str.strip line) in
  results ← call (StudentService.search_students name program);
  if negb (nonempty results) then print "No matching students found."
  else print_each (Student.__str__ <$> results).

Definition _enroll_student (typed_id typed_code : string) : Eff state () :=
  print (nl "Enroll Student");;
  line ← input "Enter Student ID: " typed_id;
  let student_id := Str.strip line in
  line ← input "Enter Course Code: " typed_code;
  let course_code := Str.strip line in
  try_except_ValueError
    (call (EnrollmentService.enroll_student student_id course_code);;
     print "Student enrolled successfully!")
    (λ e, print ("Error: " +:+ e)).

End CLI.

(** * Specification-side definitions *)

(** The band table of the grading scale: lower bound (inclusive) and letter,
    from the highest band down. *)
Definition grade_bands : list (Q * string) :=
  [(90, "A+"); (85, "A"); (80, "B+"); (75, "B");
   (70, "C+"); (65, "C"); (60, "D+"); (55, "D")]%Q.

(** The letter of the highest band whose lower bound the score reaches, "F"
    below every band, "N/A" without a score. *)
Definition band_letter (score : option Q) : string :=
  match score with
  | None => "N/A"
  | Some g =>
      match List.find (λ b, Qle_bool (fst b) g) grade_bands with
      | Some b => snd b
      | None => "F"
      end
  end.





(** The value of a finite float of the Standard Library's specification of
    IEEE 754 arithmetic, and the float with a given significand and exponent. *)
Definition SF2Q (x : SpecFloat.spec_float) : Q :=
  match x with
  | SpecFloat.S754_finite s m e =>
      ((if s then -1 else 1) * inject_Z (Zpos m) * 2 ^ e)%Q
  | _ => 0%Q
  end.

Definition binary64 (m : positive) (e : Z) : SpecFloat.spec_float :=
  SpecFloat.S754_finite false m e.

(** The link records of a person, and of an offering. *)
Definition links_of_person (student_id : string) (w : world) : list Enrollment.t :=
  List.filter (λ e, bool_decide (Enrollment.student_id e = student_id)) (enrollments w).
Definition links_of_offering (course_code : string) (w : world) : list Enrollment.t :=
  List.filter (λ e, bool_decide (Enrollment.course_code e = course_code)) (enrollments w).

(** The entity an update stages: the supplied fields replace the old ones,
    the others are kept. *)
Definition staged_student (s : Student.t) (name email program : option string)
    : Student.t :=
  Student.mk (Student.student_id s) (default (Student.name s) name)
    (default (Student.email s) email) (default (Student.program s) program).

Definition staged_course (c : Course.t) (name : option string)
    (credits : option Z) (instructor : option string) : Course.t :=
  Course.mk (Course.course_code c) (default (Course.name c) name)
    (default (Course.credits c) credits)
    (default (Course.instructor c) instructor).

(** The state after one full-collection write: the clock has been read once
    for the metadata, the named file holds the envelope, and the write is
    recorded; the three lists are untouched. *)
Definition persisted (file_name key : string) (dicts : list json) (w : world)
    : world :=
  let now := Clock.readings (clock w) (Clock.ticks (clock w)) in
  mkWorld (data_dir w)
    (Clock.mk (Clock.readings (clock w)) (S (Clock.ticks (clock w))))
    (<[file_name := Json (JObj {[ key := JArr dicts;
                                  "metadata" := FileHandler.metadata now (length dicts) ]})]>
       (disk w))
    (writes w ++ [file_name])
    (students w) (courses w) (enrollments w).

Definition persisted_students (w : world) : world :=
  persisted "students.json" "students" (Student.to_dict <$> students w) w.
Definition persisted_courses (w : world) : world :=
  persisted "courses.json" "courses" (Course.to_dict <$> courses w) w.
Definition persisted_enrollments (w : world) : world :=
  persisted "enrollments.json" "enrollments" (Enrollment.to_dict <$> enrollments w) w.

(** The operations of the person store and of the offering store. *)
Inductive store_op : Type :=
  | CreateStudent (student_id name email program : string)
  | GetStudent (student_id : string)
  | ListStudents
  | UpdateStudent (student_id : string) (name email program : option string)
  | DeleteStudent (student_id : string)
  | SearchStudents (name program : option string)
  | CreateCourse (course_code name : string) (credits : Z) (instructor : string)
  | GetCourse (course_code : string)
  | ListCourses
  | UpdateCourse (course_code : string) (name : option string)
      (credits : option Z) (instructor : option string)
  | DeleteCourse (course_code : string)
  | SearchCourses (course_code name instructor : option string).

(** The state an operation leaves, whether it returns or raises (the caller
    reports the exception and goes on). *)
Definition perform (w : world) (op : store_op) : world :=
  match op with
  | CreateStudent i n e p => snd (StudentService.create_student i n e p w)
  | GetStudent i => snd (StudentService.get_student i w)
  | ListStudents => snd (StudentService.list_students w)
  | UpdateStudent i n e p => snd (StudentService.update_student i n e p w)
  | DeleteStudent i => snd (StudentService.delete_student i w)
  | SearchStudents n p => snd (StudentService.search_students n p w)
  | CreateCourse c n k i => snd (CourseService.create_course c n k i w)
  | GetCourse c => snd (CourseService.get_course c w)
  | ListCourses => snd (CourseService.list_courses w)
  | UpdateCourse c n k i => snd (CourseService.update_course c n k i w)
  | DeleteCourse c => snd (CourseService.delete_course c w)
  | SearchCourses c n i => snd (CourseService.search_courses c n i w)
  end.

Definition perform_all (ops : list store_op) (w : world) : world :=
  fold_left perform ops w.

(** The natural keys of the two stores, in collection order. *)
Definition student_keys (w : world) : list string :=
  Student.student_id <$> students w.
Definition course_keys (w : world) : list string :=
  Course.course_code <$> courses w.

Definition keys_distinct (w : world) : Prop :=
  NoDup (student_keys w) ∧ NoDup (course_keys w).

(** The link pairs of the link store, in collection order. *)
Definition link_pairs (w : world) : list (string * string) :=
  (λ e, (Enrollment.student_id e, Enrollment.course_code e)) <$> enrollments w.

(** The timestamp the next reading of the clock gives. *)
Definition current_time (w : world) : Datetime.t :=
  Clock.readings (clock w) (Clock.ticks (clock w)).

(** The clock after one reading. *)
Definition ticked (w : world) : world :=
  set_clock w (Clock.mk (Clock.readings (clock w)) (S (Clock.ticks (clock w)))).

(** The envelope [save] writes for a collection. *)
Definition envelope (key : string) (dicts : list json) (now : Datetime.t) : json :=
  JObj {[ key := JArr dicts;
          "metadata" := JObj {[ "version" := JStr "1.0";
                                "last_updated" := JStr (Datetime.isoformat now);
                                "count" := JInt (Z.of_nat (length dicts)) ]} ]}.

(** Case-insensitive substring match of a search text on a field. *)
Definition ci_contains (text field : string) : bool :=
  Str.contains (Str.lower text) (Str.lower field).

(** The criterion the code applies: one that is supplied and not empty. *)
Definition applied (criterion : option string) : option string :=
  match criterion with
  | Some text => if Str.truthy text then Some text else None
  | None => None
  end.

(** A person satisfies the criteria: the name contains the text whatever the
    case, the program is exactly the given one; a criterion that is not there
    is satisfied. *)
Definition student_matches (name program : option string) (s : Student.t) : bool :=
  (if name is Some text then ci_contains text (Student.name s) else true) &&
  (if program is Some p then bool_decide (Student.program s = p) else true).

Definition course_matches (course_code name instructor : option string)
    (c : Course.t) : bool :=
  (if course_code is Some text then ci_contains text (Course.course_code c) else true) &&
  (if name is Some text then ci_contains text (Course.name c) else true) &&
  (if instructor is Some text then ci_contains text (Course.instructor c) else true).

(** The per-field rules of the three entity types, as the specification
    words them: a required text is not blank, a course code is exactly three
    capital letters followed by four digits, an email has the shape
    local@domain.tld, credits lie in 1..6 and a score, when present, in
    0..100. *)
Definition blank (s : string) : bool := Str.all_space s.

Definition person_rules (s : Student.t) : Prop :=
  blank (Student.student_id s) = false ∧ blank (Student.name s) = false ∧
  Re.fullmatch Student.email_pattern (Student.email s) = true ∧
  blank (Student.program s) = false.

Definition offering_rules (c : Course.t) : Prop :=
  Re.fullmatch Course.code_pattern (Course.course_code c) = true ∧
  blank (Course.name c) = false ∧
  (1 ≤ Course.credits c ≤ 6)%Z ∧
  blank (Course.instructor c) = false.

Definition link_rules (e : Enrollment.t) : Prop :=
  blank (Enrollment.student_id e) = false ∧
  blank (Enrollment.course_code e) = false ∧
  (∀ g, Enrollment.grade e = Some g → (0 <= g)%Q ∧ (g <= 100)%Q).

(** * Sample states *)

Definition sample_date : Datetime.t := Datetime.mk 2024 1 15 10 30 0 0.

Definition sample_clock : Clock.t := Clock.mk (λ _, sample_date) 0.





(** One person, one offering and the link between them, not yet scored. *)
Definition campus : world :=
  mkWorld "data" sample_clock ∅ []
    [ Student.mk "P1" "Jane" "jane@x.com" "CS" ]
    [ Course.mk "ABC1234" "Intro" 3 "Dr. X" ]
    [ Enrollment.mk "P1" "ABC1234" None sample_date ].

(** A data directory whose people document holds a person with a blank
    identifier, next to a valid offering. *)
Definition blank_person_document : json :=
  JObj {[ "students" :=
            JArr [ JObj {[ "student_id" := JStr " "; "name" := JStr "Jane";
                           "email" := JStr "jane@x.com"; "program" := JStr "CS" ]} ] ]}.

Definition blank_person_boot : world :=
  mkWorld "data" sample_clock {[ "students.json" := Json blank_person_document ]} []
    [] [ Course.mk "ABC1234" "Intro" 3 "Dr. X" ] [].

(** The state once the person store has loaded that document. *)
Definition blank_person_world : world :=
  snd (StudentService.init blank_person_boot).

(** A course code with a newline after the seven characters. *)
Definition code_with_newline : string := "ABC1234" +:+ String Re.newline "".

Definition email_with_newline : string := "jane@x.com" +:+ String Re.newline "".

(** * Further specification-side definitions *)

(** The backing document of the store an operation belongs to. *)
Definition own_file (op : store_op) : string :=
  match op with
  | CreateStudent _ _ _ _ | GetStudent _ | ListStudents
  | UpdateStudent _ _ _ _ | DeleteStudent _ | SearchStudents _ _ => "students.json"
  | _ => "courses.json"
  end.

(** The operations of the link store. *)
Inductive link_op : Type :=
  | Enroll (student_id course_code : string)
  | AssignGrade (student_id course_code : string) (grade : Q)
  | Unenroll (student_id course_code : string)
  | StudentEnrollments (student_id : string)
  | CourseEnrollments (course_code : string)
  | StudentGpa (student_id : string)
  | CourseAverage (course_code : string).

Definition perform_link (w : world) (op : link_op) : world :=
  match op with
  | Enroll s c => snd (EnrollmentService.enroll_student s c w)
  | AssignGrade s c g => snd (EnrollmentService.assign_grade s c g w)
  | Unenroll s c => snd (EnrollmentService.unenroll_student s c w)
  | StudentEnrollments s => snd (EnrollmentService.get_student_enrollments s w)
  | CourseEnrollments c => snd (EnrollmentService.get_course_enrollments c w)
  | StudentGpa s => snd (EnrollmentService.get_student_gpa s w)
  | CourseAverage c => snd (EnrollmentService.get_course_average c w)
  end.

(** Every timestamp of the link store, and every reading the clock can give,
    is within the ranges of the [datetime] type. *)
Definition dates_valid (w : world) : Prop :=
  Forall (λ e, Datetime.valid (Enrollment.enrollment_date e) = true) (enrollments w)
  ∧ ∀ n, Datetime.valid (Clock.readings (clock w) n) = true.

(** Every character of [s] satisfies [p]. *)
Fixpoint all_chars (p : ascii → bool) (s : string) : bool :=
  match s with
  | EmptyString => true
  | String c s' => p c && all_chars p s'
  end.

(** Seven characters: three capital letters, then four of the digits 0 to 9. *)
Definition seven_char_code (s : string) : Prop :=
  ∃ a b c d e f g,
    s = String a (String b (String c (String d (String e (String f (String g ""))))))
    ∧ Str.isupper_ascii a = true ∧ Str.isupper_ascii b = true
    ∧ Str.isupper_ascii c = true ∧ Str.isdigit d = true ∧ Str.isdigit e = true
    ∧ Str.isdigit f = true ∧ Str.isdigit g = true.

(** Seven characters of which the first three are capital letters. *)
Definition three_capitals_then_four (s : string) : Prop :=
  ∃ a b c d e f g,
    s = String a (String b (String c (String d (String e (String f (String g ""))))))
    ∧ Str.isupper_ascii a = true ∧ Str.isupper_ascii b = true
    ∧ Str.isupper_ascii c = true.

(** local@domain.tld: a non-empty local part of letters, digits and [._%+-],
    a non-empty domain of letters, digits, dots and hyphens, a dot, and a last
    label of two letters or more. *)
Definition email_shape (s : string) : Prop :=
  ∃ loc dom tld,
    s = loc +:+ "@" +:+ dom +:+ "." +:+ tld
    ∧ loc ≠ "" ∧ all_chars Student.local_char loc = true
    ∧ dom ≠ "" ∧ all_chars Student.domain_char dom = true
    ∧ (2 ≤ String.length tld)%nat ∧ all_chars Str.isalpha_ascii tld = true.

(** The rank of a letter grade, from "F" (0) up to "A+" (8). *)
Definition letter_rank (letter : string) : nat :=
  if String.eqb letter "A+" then 8
  else if String.eqb letter "A" then 7
  else if String.eqb letter "B+" then 6
  else if String.eqb letter "B" then 5
  else if String.eqb letter "C+" then 4
  else if String.eqb letter "C" then 3
  else if String.eqb letter "D+" then 2
  else if String.eqb letter "D" then 1
  else 0.

(** The lines a handler prints, in order. *)
Definition printed (events : list CLI.io_event) : list string :=
  omap (λ ev, match ev with CLI.Printed l => Some l | CLI.Prompted _ => None end)
    events.

(** * Properties *)

(** ** Letter grades *)

Lemma Qle_bool_true (x y : Q) : (x <= y)%Q → Qle_bool x y = true.
Proof. apply Qle_bool_iff. Qed.

Lemma Qle_bool_false (x y : Q) : (y < x)%Q → Qle_bool x y = false.
Proof.
  intros H. destruct (Qle_bool x y) eqn:E; [|done].
  apply Qle_bool_iff in E. lra.
Qed.

Ltac band_test :=
  repeat first
    [ rewrite Qle_bool_true by lra
    | rewrite Qle_bool_false by lra ].

Lemma letter_of_score (s c : string) (d : Datetime.t) (g : Q) :
  let e := Enrollment.mk s c (Some g) d in
  ((90 <= g)%Q → Enrollment.calculate_letter_grade e = "A+") ∧
  ((85 <= g)%Q ∧ (g < 90)%Q → Enrollment.calculate_letter_grade e = "A") ∧
  ((80 <= g)%Q ∧ (g < 85)%Q → Enrollment.calculate_letter_grade e = "B+") ∧
  ((75 <= g)%Q ∧ (g < 80)%Q → Enrollment.calculate_letter_grade e = "B") ∧
  ((70 <= g)%Q ∧ (g < 75)%Q → Enrollment.calculate_letter_grade e = "C+") ∧
  ((65 <= g)%Q ∧ (g < 70)%Q → Enrollment.calculate_letter_grade e = "C") ∧
  ((60 <= g)%Q ∧ (g < 65)%Q → Enrollment.calculate_letter_grade e = "D+") ∧
  ((55 <= g)%Q ∧ (g < 60)%Q → Enrollment.calculate_letter_grade e = "D") ∧
  ((g < 55)%Q → Enrollment.calculate_letter_grade e = "F").
Proof.
  cbv zeta. unfold Enrollment.calculate_letter_grade. simpl.
  repeat split; intros; destruct_and?; band_test; reflexivity.
Qed.

Lemma letter_is_band_letter (e : Enrollment.t) :
  Enrollment.calculate_letter_grade e = band_letter (Enrollment.grade e).
Proof.
  unfold Enrollment.calculate_letter_grade, band_letter.
  destruct (Enrollment.grade e) as [g|]; [|done].
  unfold grade_bands. simpl.
  repeat (destruct (Qle_bool _ g); [done|]). done.
Qed.

(** C5. The numeric-to-letter mapping of a link record is the band table with
    inclusive lower bounds, the highest matching band winning: a score of at
    least 90 gives "A+", at least 85 "A", at least 80 "B+", at least 75 "B",
    at least 70 "C+", at least 65 "C", at least 60 "D+", at least 55 "D",
    anything lower "F", and an absent score "N/A"; at the boundaries, 90 gives
    "A+", 89 "A", 84 "B+", 79 "B", 74 "C+", 69 "C", 64 "D+", 59 "D", 54 "F". *)
Theorem letter_grade_band_table :
  ∀ (s c : string) (d : Datetime.t),
    let letter score := Enrollment.calculate_letter_grade (Enrollment.mk s c score d) in
    (∀ score, letter score = band_letter score) ∧
    letter None = "N/A" ∧
    (∀ g : Q,
       ((90 <= g)%Q → letter (Some g) = "A+") ∧
       ((85 <= g)%Q ∧ (g < 90)%Q → letter (Some g) = "A") ∧
       ((80 <= g)%Q ∧ (g < 85)%Q → letter (Some g) = "B+") ∧
       ((75 <= g)%Q ∧ (g < 80)%Q → letter (Some g) = "B") ∧
       ((70 <= g)%Q ∧ (g < 75)%Q → letter (Some g) = "C+") ∧
       ((65 <= g)%Q ∧ (g < 70)%Q → letter (Some g) = "C") ∧
       ((60 <= g)%Q ∧ (g < 65)%Q → letter (Some g) = "D+") ∧
       ((55 <= g)%Q ∧ (g < 60)%Q → letter (Some g) = "D") ∧
       ((g < 55)%Q → letter (Some g) = "F")) ∧
    letter (Some 90%Q) = "A+" ∧ letter (Some 89%Q) = "A" ∧
    letter (Some 84%Q) = "B+" ∧ letter (Some 79%Q) = "B" ∧
    letter (Some 74%Q) = "C+" ∧ letter (Some 69%Q) = "C" ∧
    letter (Some 64%Q) = "D+" ∧ letter (Some 59%Q) = "D" ∧
    letter (Some 54%Q) = "F".
Proof.
  intros s c d letter.
  split; [intros score; apply letter_is_band_letter|].
  split; [reflexivity|].
  split; [intros g; apply letter_of_score|].
  repeat split; reflexivity.
Qed.

Lemma letter_grade_band_table_witness :
  Enrollment.calculate_letter_grade
    (Enrollment.mk "S001" "CSC1234" (Some (171 # 2)) sample_date) = "A".
Proof.
  apply (proj1 (proj2 (proj1 (proj2 (proj2
           (letter_grade_band_table "S001" "CSC1234" sample_date))) (171 # 2)))).
  split; [apply Qle_bool_iff | apply Qlt_alt]; reflexivity.
Defined.

(** ** Averages *)









Lemma two_power_Z (k : Z) : (0 <= k)%Z → (2 ^ k == inject_Z (2 ^ k))%Q.
Proof.
  intros Hk. change 2%Q with (inject_Z 2). symmetry. by apply Zpower_Qpower.
Qed.

Lemma two_power_pos (k : Z) : (0 < 2 ^ k)%Q.
Proof. apply Qpower_0_lt. reflexivity. Qed.

Lemma two_power_plus (a b : Z) : (2 ^ (a + b) == 2 ^ a * 2 ^ b)%Q.
Proof. apply Qpower_plus. discriminate. Qed.

Lemma two_power_mono (a b : Z) : (a <= b)%Z → (2 ^ a <= 2 ^ b)%Q.
Proof.
  intros H. replace b with (a + (b - a))%Z by lia.
  rewrite two_power_plus, (two_power_Z (b - a)) by lia.
  assert (1 <= inject_Z (2 ^ (b - a)))%Q.
  { change 1%Q with (inject_Z 1). rewrite <- Zle_Qle.
    pose proof (Z.pow_pos_nonneg 2 (b - a)). lia. }
  pose proof (two_power_pos a). nra.
Qed.











(** [Float.round] against the Standard Library's specification of binary64
    arithmetic: 2/3, 0.1 + 0.2 and the tie 2^53 + 1. *)
Lemma round_agrees_with_library :
  (SF2Q (SpecFloat.SFdiv 53 1024 (binary64 (2 ^ 52) (-51)) (binary64 (3 * 2 ^ 51) (-51)))
   == Float.truediv 2 3)%Q ∧
  (SF2Q (binary64 7205759403792794 (-56)) == Float.round (1 # 10))%Q ∧
  (SF2Q (SpecFloat.SFadd 53 1024 (binary64 7205759403792794 (-56))
           (binary64 7205759403792794 (-55)))
   == Float.add (Float.round (1 # 10)) (Float.round (2 # 10)))%Q ∧
  (SF2Q (SpecFloat.SFadd 53 1024 (binary64 (2 ^ 52) 1) (binary64 (2 ^ 52) (-52)))
   == Float.add (inject_Z (2 ^ 53)) 1)%Q.
Proof. vm_compute. repeat split. Qed.






(** ** Failed updates change nothing *)

Ltac eff_unfold :=
  cbv [mbind mret Eff_bind Eff_ret eff_bind eff_ret get modify raise lift with_clock
       FileHandler.save_students FileHandler.save_courses
       FileHandler.save_enrollments FileHandler.save FileHandler.write_text
       Clock.now].

Ltac world_simpl :=
  cbn [students courses enrollments clock disk writes
       set_students set_courses set_enrollments set_clock fst snd].

Lemma set_students_same (w : world) : set_students (students w) w = w.
Proof. by destruct w. Qed.

Lemma set_students_twice (l1 l2 : list Student.t) (w : world) :
  set_students l2 (set_students l1 w) = set_students l2 w.
Proof. done. Qed.

Lemma set_courses_same (w : world) : set_courses (courses w) w = w.
Proof. by destruct w. Qed.

Lemma set_courses_twice (l1 l2 : list Course.t) (w : world) :
  set_courses l2 (set_courses l1 w) = set_courses l2 w.
Proof. done. Qed.

Lemma set_enrollments_same (w : world) : set_enrollments (enrollments w) w = w.
Proof. by destruct w. Qed.

Lemma set_enrollments_twice (l1 l2 : list Enrollment.t) (w : world) :
  set_enrollments l2 (set_enrollments l1 w) = set_enrollments l2 w.
Proof. done. Qed.

(** Assigning the three saved values back restores the object, whatever was
    assigned in between: the identifier is never assigned. *)
Lemma student_restore (s s' : Student.t) :
  Student.student_id s' = Student.student_id s →
  Student.set_program
    (Student.set_email (Student.set_name s' (Student.name s)) (Student.email s))
    (Student.program s) = s.
Proof. destruct s, s'; simpl; intros ->; done. Qed.

Lemma course_restore (c c' : Course.t) :
  Course.course_code c' = Course.course_code c →
  Course.set_instructor
    (Course.set_credits (Course.set_name c' (Course.name c)) (Course.credits c))
    (Course.instructor c) = c.
Proof. destruct c, c'; simpl; intros ->; done. Qed.

Lemma enrollment_restore (e : Enrollment.t) (g : option Q) :
  Enrollment.set_grade (Enrollment.set_grade e g) (Enrollment.grade e) = e.
Proof. by destruct e. Qed.

Lemma staged_student_eq (s : Student.t) (name email program : option string) :
  (let s1 := if name is Some v then Student.set_name s v else s in
   let s2 := if email is Some v then Student.set_email s1 v else s1 in
   if program is Some v then Student.set_program s2 v else s2)
  = staged_student s name email program.
Proof. destruct s, name, email, program; reflexivity. Qed.

Lemma staged_course_eq (c : Course.t) (name : option string)
    (credits : option Z) (instructor : option string) :
  (let c1 := if name is Some v then Course.set_name c v else c in
   let c2 := if credits is Some v then Course.set_credits c1 v else c1 in
   if instructor is Some v then Course.set_instructor c2 v else c2)
  = staged_course c name credits instructor.
Proof. destruct c, name, credits, instructor; reflexivity. Qed.

Lemma save_run (file_name key : string) (dicts : list json) (w : world) :
  FileHandler.save file_name key dicts w = (Return (), persisted file_name key dicts w).
Proof. reflexivity. Qed.

Lemma student_save_run (w : world) :
  StudentService._save w = (Return (), persisted_students w).
Proof. reflexivity. Qed.

Lemma course_save_run (w : world) :
  CourseService._save w = (Return (), persisted_courses w).
Proof. reflexivity. Qed.

Lemma enrollment_save_run (w : world) :
  EnrollmentService._save w = (Return (), persisted_enrollments w).
Proof. reflexivity. Qed.

Lemma update_student_run (w : world) (sid : string)
    (name email program : option string) :
  StudentService.update_student sid name email program w =
  match list_find (λ s, Student.student_id s = sid) (students w) with
  | None => (Raise (ValueError ("Student with ID " +:+ sid +:+ " not found.")), w)
  | Some (i, s) =>
      let s' := staged_student s name email program in
      if nonempty (Student.validate s')
      then (Raise (ValueError ("Invalid update data: "
                               +:+ Str.join "; " (Student.validate s'))), w)
      else (Return s', persisted_students (set_students (<[i := s']> (students w)) w))
  end.
Proof.
  unfold StudentService.update_student, StudentService.get_student,
    StudentService.setattr, StudentService._save.
  eff_unfold.
  destruct (list_find _ (students w)) as [[i s]|] eqn:Hf; [|done].
  apply list_find_Some in Hf as (Hi & _ & _).
  rewrite <- (staged_student_eq s name email program).
  destruct name, email, program; world_simpl; cbv zeta.
  all: match goal with |- context [nonempty ?x] => destruct (nonempty x) end.
  all: world_simpl; rewrite ?list_insert_insert_eq, ?set_students_twice.
  all: try (rewrite student_restore by reflexivity).
  all: rewrite ?(list_insert_id _ _ _ Hi), ?set_students_same; try reflexivity.
Qed.

Lemma update_course_run (w : world) (code : string) (name : option string)
    (credits : option Z) (instructor : option string) :
  CourseService.update_course code name credits instructor w =
  match list_find (λ c, Course.course_code c = code) (courses w) with
  | None => (Raise (ValueError ("Course with code " +:+ code +:+ " not found.")), w)
  | Some (i, c) =>
      let c' := staged_course c name credits instructor in
      if nonempty (Course.validate c')
      then (Raise (ValueError ("Invalid update data: "
                               +:+ Str.join "; " (Course.validate c'))), w)
      else (Return c', persisted_courses (set_courses (<[i := c']> (courses w)) w))
  end.
Proof.
  unfold CourseService.update_course, CourseService.get_course,
    CourseService.setattr, CourseService._save.
  eff_unfold.
  destruct (list_find _ (courses w)) as [[i c]|] eqn:Hf; [|done].
  apply list_find_Some in Hf as (Hi & _ & _).
  rewrite <- (staged_course_eq c name credits instructor).
  destruct name, credits, instructor; world_simpl; cbv zeta.
  all: match goal with |- context [nonempty ?x] => destruct (nonempty x) end.
  all: world_simpl; rewrite ?list_insert_insert_eq, ?set_courses_twice.
  all: try (rewrite course_restore by reflexivity).
  all: rewrite ?(list_insert_id _ _ _ Hi), ?set_courses_same; try reflexivity.
Qed.

Lemma assign_grade_run (w : world) (sid code : string) (g : Q) :
  EnrollmentService.assign_grade sid code g w =
  match list_find (λ e, Enrollment.student_id e = sid
                        ∧ Enrollment.course_code e = code) (enrollments w) with
  | None => (Raise (ValueError ("Student " +:+ sid +:+ " is not enrolled in course "
                                +:+ code +:+ ".")), w)
  | Some (i, e) =>
      let e' := Enrollment.set_grade e (Some g) in
      if nonempty (Enrollment.validate e')
      then (Raise (ValueError ("Invalid grade: "
                               +:+ Str.join "; " (Enrollment.validate e'))), w)
      else (Return e',
            persisted_enrollments (set_enrollments (<[i := e']> (enrollments w)) w))
  end.
Proof.
  unfold EnrollmentService.assign_grade, EnrollmentService._get_enrollment,
    EnrollmentService.setattr, EnrollmentService._save.
  eff_unfold.
  destruct (list_find _ (enrollments w)) as [[i e]|] eqn:Hf; [|done].
  apply list_find_Some in Hf as (Hi & _ & _).
  world_simpl; cbv zeta.
  destruct (nonempty _); world_simpl; [|reflexivity].
  rewrite list_insert_insert_eq, set_enrollments_twice, enrollment_restore.
  by rewrite (list_insert_id _ _ _ Hi), set_enrollments_same.
Qed.

Lemma create_student_run (w : world) (sid name email program : string) :
  StudentService.create_student sid name email program w =
  match list_find (λ s, Student.student_id s = sid) (students w) with
  | Some _ =>
      (Raise (ValueError ("Student with ID " +:+ sid +:+ " already exists.")), w)
  | None =>
      let student := Student.mk sid name email program in
      if nonempty (Student.validate student)
      then (Raise (ValueError ("Invalid student data: "
                               +:+ Str.join "; " (Student.validate student))), w)
      else (Return student,
            persisted_students (set_students (students w ++ [student]) w))
  end.
Proof.
  unfold StudentService.create_student, StudentService.get_student,
    StudentService._save.
  eff_unfold.
  destruct (list_find _ (students w)) as [[i s]|]; [done|].
  cbv zeta. by destruct (nonempty _).
Qed.

Lemma create_course_run (w : world) (code name : string) (credits : Z)
    (instructor : string) :
  CourseService.create_course code name credits instructor w =
  match list_find (λ c, Course.course_code c = code) (courses w) with
  | Some _ =>
      (Raise (ValueError ("Course with code " +:+ code +:+ " already exists.")), w)
  | None =>
      let course := Course.mk code name credits instructor in
      if nonempty (Course.validate course)
      then (Raise (ValueError ("Invalid course data: "
                               +:+ Str.join "; " (Course.validate course))), w)
      else (Return course,
            persisted_courses (set_courses (courses w ++ [course]) w))
  end.
Proof.
  unfold CourseService.create_course, CourseService.get_course,
    CourseService._save.
  eff_unfold.
  destruct (list_find _ (courses w)) as [[i s]|]; [done|].
  cbv zeta. by destruct (nonempty _).
Qed.

Lemma delete_student_run (w : world) (sid : string) :
  StudentService.delete_student sid w =
  match list_find (λ s, Student.student_id s = sid) (students w) with
  | Some (i, _) =>
      (Return true, persisted_students (set_students (delete i (students w)) w))
  | None => (Return false, w)
  end.
Proof.
  unfold StudentService.delete_student, StudentService.get_student,
    StudentService._save.
  eff_unfold. by destruct (list_find _ (students w)) as [[i s]|].
Qed.

Lemma delete_course_run (w : world) (code : string) :
  CourseService.delete_course code w =
  match list_find (λ c, Course.course_code c = code) (courses w) with
  | Some (i, _) =>
      (Return true, persisted_courses (set_courses (delete i (courses w)) w))
  | None => (Return false, w)
  end.
Proof.
  unfold CourseService.delete_course, CourseService.get_course,
    CourseService._save.
  eff_unfold. by destruct (list_find _ (courses w)) as [[i s]|].
Qed.

(** C1. Whenever an update of a person, an update of an offering or the
    assignment of a score fails (with the validation error, which is raised
    exactly when the staged entity does not validate, or with not-found), the
    state afterwards is the state before: every field of the target entity has
    its old value, the three in-memory collections are the same lists, the
    data directory is the same and no write has been recorded.  This holds in
    every state and for every combination of supplied values. *)
Theorem failed_update_changes_nothing :
  (∀ w sid name email program,
     (∀ e w', StudentService.update_student sid name email program w = (Raise e, w')
              → w' = w) ∧
     (∀ i s, list_find (λ s, Student.student_id s = sid) (students w) = Some (i, s) →
             Student.validate (staged_student s name email program) ≠ [] →
             StudentService.update_student sid name email program w =
             (Raise (ValueError
                       ("Invalid update data: " +:+
                        Str.join "; "
                          (Student.validate (staged_student s name email program)))),
              w))) ∧
  (∀ w code name credits instructor,
     (∀ e w', CourseService.update_course code name credits instructor w = (Raise e, w')
              → w' = w) ∧
     (∀ i c, list_find (λ c, Course.course_code c = code) (courses w) = Some (i, c) →
             Course.validate (staged_course c name credits instructor) ≠ [] →
             CourseService.update_course code name credits instructor w =
             (Raise (ValueError
                       ("Invalid update data: " +:+
                        Str.join "; "
                          (Course.validate (staged_course c name credits instructor)))),
              w))) ∧
  (∀ w sid code grade,
     (∀ e w', EnrollmentService.assign_grade sid code grade w = (Raise e, w')
              → w' = w) ∧
     (∀ i e, list_find (λ e, Enrollment.student_id e = sid
                             ∧ Enrollment.course_code e = code) (enrollments w)
             = Some (i, e) →
             Enrollment.validate (Enrollment.set_grade e (Some grade)) ≠ [] →
             EnrollmentService.assign_grade sid code grade w =
             (Raise (ValueError
                       ("Invalid grade: " +:+
                        Str.join "; "
                          (Enrollment.validate (Enrollment.set_grade e (Some grade))))),
              w))).
Proof.
  split; [|split].
  - intros w sid name email program. rewrite update_student_run. split.
    + intros e w'. destruct (list_find _ _) as [[i s]|]; [|by intros [= _ <-]].
      cbv zeta. destruct (nonempty _); [by intros [= _ <-]|done].
    + intros i s -> Hv. cbv zeta.
      destruct (Student.validate _); [done|reflexivity].
  - intros w code name credits instructor. rewrite update_course_run. split.
    + intros e w'. destruct (list_find _ _) as [[i c]|]; [|by intros [= _ <-]].
      cbv zeta. destruct (nonempty _); [by intros [= _ <-]|done].
    + intros i c -> Hv. cbv zeta.
      destruct (Course.validate _); [done|reflexivity].
  - intros w sid code grade. rewrite assign_grade_run. split.
    + intros e w'. destruct (list_find _ _) as [[i c]|]; [|by intros [= _ <-]].
      cbv zeta. destruct (nonempty _); [by intros [= _ <-]|done].
    + intros i e -> Hv. cbv zeta.
      destruct (Enrollment.validate _); [done|reflexivity].
Qed.

Lemma failed_update_changes_nothing_witness :
  StudentService.update_student "P1" (Some "Janet") (Some "not-an-email") None campus
  = (Raise (ValueError "Invalid update data: Email format is invalid"), campus).
Proof.
  apply (proj2 (proj1 failed_update_changes_nothing
                  campus "P1" (Some "Janet") (Some "not-an-email") None)
           0%nat (Student.mk "P1" "Jane" "jane@x.com" "CS")).
  - reflexivity.
  - vm_compute. discriminate.
Defined.

(** ** Uniqueness of natural keys *)

Lemma find_student_present (w : world) (sid : string) :
  sid ∈ student_keys w →
  is_Some (list_find (λ s, Student.student_id s = sid) (students w)).
Proof.
  unfold student_keys. intros (s & -> & Hs)%list_elem_of_fmap.
  by apply (list_find_elem_of _ _ s).
Qed.

Lemma find_course_present (w : world) (code : string) :
  code ∈ course_keys w →
  is_Some (list_find (λ c, Course.course_code c = code) (courses w)).
Proof.
  unfold course_keys. intros (c & -> & Hc)%list_elem_of_fmap.
  by apply (list_find_elem_of _ _ c).
Qed.

Lemma find_student_absent (w : world) (sid : string) :
  list_find (λ s, Student.student_id s = sid) (students w) = None →
  sid ∉ student_keys w.
Proof.
  intros Hf (s & -> & Hs)%list_elem_of_fmap.
  apply list_find_None in Hf. rewrite Forall_forall in Hf.
  by apply (Hf s).
Qed.

Lemma find_course_absent (w : world) (code : string) :
  list_find (λ c, Course.course_code c = code) (courses w) = None →
  code ∉ course_keys w.
Proof.
  intros Hf (c & -> & Hc)%list_elem_of_fmap.
  apply list_find_None in Hf. rewrite Forall_forall in Hf.
  by apply (Hf c).
Qed.

(** C3. In every state of a person store or an offering store, creating an
    entity whose natural key is already in the collection fails with the
    duplicate error and leaves the state as it was (same collection, same
    data directory, no write recorded); this is so whatever the other fields
    are, valid or not: the duplicate check comes before validation. *)
Theorem duplicate_create_rejected :
  (∀ w sid name email program,
     sid ∈ student_keys w →
     StudentService.create_student sid name email program w =
     (Raise (ValueError ("Student with ID " +:+ sid +:+ " already exists.")), w)) ∧
  (∀ w code name credits instructor,
     code ∈ course_keys w →
     CourseService.create_course code name credits instructor w =
     (Raise (ValueError ("Course with code " +:+ code +:+ " already exists.")), w)).
Proof.
  split.
  - intros w sid name email program [[i s] Hf]%find_student_present.
    by rewrite create_student_run, Hf.
  - intros w code name credits instructor [[i c] Hf]%find_course_present.
    by rewrite create_course_run, Hf.
Qed.

(** Invalid fields next to a key that is taken: the error is the duplicate. *)
Lemma duplicate_create_rejected_witness :
  StudentService.create_student "P1" "" "not-an-email" "" campus =
  (Raise (ValueError "Student with ID P1 already exists."), campus) ∧
  CourseService.create_course "ABC1234" "" 0 "" campus =
  (Raise (ValueError "Course with code ABC1234 already exists."), campus).
Proof.
  split.
  - apply (proj1 duplicate_create_rejected campus "P1" "" "not-an-email" "").
    vm_compute. apply list_elem_of_here.
  - apply (proj2 duplicate_create_rejected campus "ABC1234" "" 0%Z "").
    vm_compute. apply list_elem_of_here.
Defined.

Lemma update_student_keys (w : world) (sid : string)
    (name email program : option string) :
  student_keys (snd (StudentService.update_student sid name email program w))
  = student_keys w ∧
  course_keys (snd (StudentService.update_student sid name email program w))
  = course_keys w.
Proof.
  rewrite update_student_run.
  destruct (list_find _ _) as [[i s]|] eqn:Hf; [|done].
  apply list_find_Some in Hf as (Hi & _ & _).
  cbv zeta. destruct (nonempty _); [done|]. split; [|done].
  unfold student_keys. cbn.
  rewrite list_fmap_insert. apply list_insert_id.
  by rewrite list_lookup_fmap, Hi.
Qed.

Lemma update_course_keys (w : world) (code : string) (name : option string)
    (credits : option Z) (instructor : option string) :
  student_keys (snd (CourseService.update_course code name credits instructor w))
  = student_keys w ∧
  course_keys (snd (CourseService.update_course code name credits instructor w))
  = course_keys w.
Proof.
  rewrite update_course_run.
  destruct (list_find _ _) as [[i c]|] eqn:Hf; [|done].
  apply list_find_Some in Hf as (Hi & _ & _).
  cbv zeta. destruct (nonempty _); [done|]. split; [done|].
  unfold course_keys. cbn.
  rewrite list_fmap_insert. apply list_insert_id.
  by rewrite list_lookup_fmap, Hi.
Qed.

Lemma NoDup_snoc_fresh (l : list string) (x : string) :
  NoDup l → x ∉ l → NoDup (l ++ [x]).
Proof.
  intros Hl Hx. apply NoDup_app. split; [done|]. split.
  - intros y Hy ->%list_elem_of_singleton. done.
  - apply NoDup_singleton.
Qed.

Lemma NoDup_delete_at (l : list string) (i : nat) : NoDup l → NoDup (delete i l).
Proof. intros Hl. eapply sublist_NoDup; eauto using sublist_delete. Qed.

Lemma perform_keys_distinct (w : world) (op : store_op) :
  keys_distinct w → keys_distinct (perform w op).
Proof.
  intros [Hs Hc]. destruct op; simpl; try done.
  - rewrite create_student_run.
    destruct (list_find _ _) as [[i s]|] eqn:Hf; [done|].
    apply find_student_absent in Hf.
    cbv zeta. destruct (nonempty _); [done|]. split; [|done].
    unfold student_keys in *. cbn. rewrite fmap_app. by apply NoDup_snoc_fresh.
  - destruct (update_student_keys w student_id name email program) as [E1 E2].
    unfold keys_distinct. by rewrite E1, E2.
  - rewrite delete_student_run.
    destruct (list_find _ _) as [[i s]|]; [|done]. split; [|done].
    unfold student_keys in *. cbn. rewrite list_fmap_delete.
    by apply NoDup_delete_at.
  - rewrite create_course_run.
    destruct (list_find _ _) as [[i s]|] eqn:Hf; [done|].
    apply find_course_absent in Hf.
    cbv zeta. destruct (nonempty _); [done|]. split; [done|].
    unfold course_keys in *. cbn. rewrite fmap_app. by apply NoDup_snoc_fresh.
  - destruct (update_course_keys w course_code name credits instructor) as [E1 E2].
    unfold keys_distinct. by rewrite E1, E2.
  - rewrite delete_course_run.
    destruct (list_find _ _) as [[i s]|]; [|done]. split; [done|].
    unfold course_keys in *. cbn. rewrite list_fmap_delete.
    by apply NoDup_delete_at.
Qed.

(** C10. No operation changes the natural key of an existing entity: an
    update leaves the sequence of keys of both stores as it was, and from a
    state whose keys are pairwise distinct, every sequence of create, get,
    list, update, delete and search operations on the two stores ends (and so
    passes only) in states whose keys are pairwise distinct. *)
Theorem keys_stay_distinct :
  ∀ (w : world),
    keys_distinct w →
    (∀ ops, keys_distinct (perform_all ops w)) ∧
    (∀ sid name email program,
       student_keys (perform w (UpdateStudent sid name email program))
       = student_keys w) ∧
    (∀ code name credits instructor,
       course_keys (perform w (UpdateCourse code name credits instructor))
       = course_keys w).
Proof.
  intros w Hw. split; [|split].
  - intros ops. revert w Hw. unfold perform_all.
    induction ops as [|op ops IH]; intros w Hw; [done|].
    simpl. apply IH. by apply perform_keys_distinct.
  - intros. apply update_student_keys.
  - intros. apply update_course_keys.
Qed.

Lemma keys_stay_distinct_witness :
  keys_distinct
    (perform_all
       [ CreateStudent "P2" "John" "john@x.com" "EE";
         CreateStudent "P1" "Jane" "jane@x.com" "CS";
         UpdateStudent "P1" (Some "Janet") None None;
         SearchStudents (Some "jan") None;
         DeleteCourse "ABC1234";
         CreateCourse "ABC1234" "Intro" 3 "Dr. Y" ]
       campus).
Proof.
  apply (proj1 (keys_stay_distinct campus
                  (conj (NoDup_singleton "P1") (NoDup_singleton "ABC1234")))).
Defined.

(** ** Linking a person and an offering *)

Lemma enroll_student_run (w : world) (sid code : string) :
  EnrollmentService.enroll_student sid code w =
  match list_find (λ s, Student.student_id s = sid) (students w) with
  | None => (Raise (ValueError ("Student with ID " +:+ sid +:+ " not found.")), w)
  | Some _ =>
  match list_find (λ c, Course.course_code c = code) (courses w) with
  | None => (Raise (ValueError ("Course with code " +:+ code +:+ " not found.")), w)
  | Some _ =>
  match list_find (λ e, Enrollment.student_id e = sid
                        ∧ Enrollment.course_code e = code) (enrollments w) with
  | Some _ =>
      (Raise (ValueError ("Student " +:+ sid +:+ " is already enrolled in "
                          +:+ code +:+ ".")), w)
  | None =>
      let e := Enrollment.mk sid code None (current_time w) in
      if nonempty (Enrollment.validate e)
      then (Raise (ValueError ("Invalid enrollment data: "
                               +:+ Str.join "; " (Enrollment.validate e))),
            ticked w)
      else (Return e,
            persisted_enrollments
              (set_enrollments (enrollments w ++ [e]) (ticked w)))
  end end end.
Proof.
  unfold EnrollmentService.enroll_student, StudentService.get_student,
    CourseService.get_course, EnrollmentService._get_enrollment,
    EnrollmentService._save, Enrollment.init.
  eff_unfold.
  destruct (list_find _ (students w)) as [[i s]|]; [|done].
  destruct (list_find _ (courses w)) as [[j c]|]; [|done].
  destruct (list_find _ (enrollments w)) as [[k e]|]; [done|].
  cbv zeta. by destruct (nonempty _).
Qed.

Lemma find_link_present (w : world) (sid code : string) :
  (sid, code) ∈ link_pairs w →
  is_Some (list_find (λ e, Enrollment.student_id e = sid
                           ∧ Enrollment.course_code e = code) (enrollments w)).
Proof.
  unfold link_pairs. intros (e & [= -> ->] & He)%list_elem_of_fmap.
  by apply (list_find_elem_of _ _ e).
Qed.

Lemma find_link_absent (w : world) (sid code : string) :
  (sid, code) ∉ link_pairs w →
  list_find (λ e, Enrollment.student_id e = sid
                  ∧ Enrollment.course_code e = code) (enrollments w) = None.
Proof.
  intros Hn. apply list_find_None, Forall_forall. intros e He [<- <-].
  apply Hn. unfold link_pairs. apply list_elem_of_fmap. by exists e.
Qed.

Lemma find_student_missing (w : world) (sid : string) :
  sid ∉ student_keys w →
  list_find (λ s, Student.student_id s = sid) (students w) = None.
Proof.
  intros Hn. apply list_find_None, Forall_forall. intros s Hs <-.
  apply Hn. unfold student_keys. apply list_elem_of_fmap. by exists s.
Qed.

Lemma find_course_missing (w : world) (code : string) :
  code ∉ course_keys w →
  list_find (λ c, Course.course_code c = code) (courses w) = None.
Proof.
  intros Hn. apply list_find_None, Forall_forall. intros c Hc <-.
  apply Hn. unfold course_keys. apply list_elem_of_fmap. by exists c.
Qed.

Lemma link_validate (sid code : string) (d : Datetime.t) :
  Enrollment.validate (Enrollment.mk sid code None d) = [] ↔
  missing sid = false ∧ missing code = false.
Proof.
  unfold Enrollment.validate. simpl.
  destruct (missing sid), (missing code); simpl; split; try done; by intros [??].
Qed.

(** The person store loads a blank identifier from its document as it is:
    nothing validates on the way in. *)
Lemma blank_person_loaded :
  StudentService.init blank_person_boot = (Return (), blank_person_world) ∧
  students blank_person_world = [ Student.mk " " "Jane" "jane@x.com" "CS" ].
Proof. split; (vm_compute; reflexivity). Qed.

(** C2, as stated, fails: the person " " is in the person store, the offering
    "ABC1234" is in the offering store and no link record exists for the
    pair, yet linking them appends nothing and raises the validation error. *)
Lemma link_of_blank_person_rejected :
  " " ∈ student_keys blank_person_world ∧
  "ABC1234" ∈ course_keys blank_person_world ∧
  ((" ", "ABC1234") ∉ link_pairs blank_person_world) ∧
  fst (EnrollmentService.enroll_student " " "ABC1234" blank_person_world)
  = Raise (ValueError
             "Invalid enrollment data: Student ID is required and cannot be empty") ∧
  enrollments (snd (EnrollmentService.enroll_student " " "ABC1234" blank_person_world))
  = [].
Proof.
  split; [vm_compute; apply list_elem_of_here|].
  split; [vm_compute; apply list_elem_of_here|].
  split; [vm_compute; apply not_elem_of_nil|].
  split; (vm_compute; reflexivity).
Qed.

(** C2, amended. In every state and for every pair: linking fails with a
    not-found error, changing nothing, when the person is absent from the
    person store or the offering from the offering store; it fails with the
    duplicate error, changing nothing, when both are present and a link record
    for the pair exists; otherwise, when neither key is blank, it appends a
    record with no score and the current timestamp, writes the whole
    collection to the links document and returns the record; and when one of
    the keys is blank it raises the validation error and appends and writes
    nothing. *)
Theorem link_outcomes :
  ∀ (w : world) (sid code : string),
    (sid ∉ student_keys w →
     EnrollmentService.enroll_student sid code w =
     (Raise (ValueError ("Student with ID " +:+ sid +:+ " not found.")), w)) ∧
    (sid ∈ student_keys w → code ∉ course_keys w →
     EnrollmentService.enroll_student sid code w =
     (Raise (ValueError ("Course with code " +:+ code +:+ " not found.")), w)) ∧
    (sid ∈ student_keys w → code ∈ course_keys w → (sid, code) ∈ link_pairs w →
     EnrollmentService.enroll_student sid code w =
     (Raise (ValueError ("Student " +:+ sid +:+ " is already enrolled in "
                         +:+ code +:+ ".")), w)) ∧
    (sid ∈ student_keys w → code ∈ course_keys w → (sid, code) ∉ link_pairs w →
     missing sid = false → missing code = false →
     let e := Enrollment.mk sid code None (current_time w) in
     let w' := snd (EnrollmentService.enroll_student sid code w) in
     fst (EnrollmentService.enroll_student sid code w) = Return e ∧
     enrollments w' = enrollments w ++ [e] ∧
     disk w' = <["enrollments.json" :=
                   Json (envelope "enrollments"
                           (Enrollment.to_dict <$> (enrollments w ++ [e]))
                           (current_time (ticked w)))]> (disk w) ∧
     writes w' = writes w ++ ["enrollments.json"] ∧
     students w' = students w ∧ courses w' = courses w) ∧
    (sid ∈ student_keys w → code ∈ course_keys w → (sid, code) ∉ link_pairs w →
     missing sid = true ∨ missing code = true →
     let e := Enrollment.mk sid code None (current_time w) in
     let w' := snd (EnrollmentService.enroll_student sid code w) in
     fst (EnrollmentService.enroll_student sid code w) =
     Raise (ValueError ("Invalid enrollment data: "
                        +:+ Str.join "; " (Enrollment.validate e))) ∧
     enrollments w' = enrollments w ∧ disk w' = disk w ∧ writes w' = writes w ∧
     students w' = students w ∧ courses w' = courses w).
Proof.
  intros w sid code. rewrite enroll_student_run.
  split; [|split; [|split; [|split]]].
  - intros Hs. by rewrite (find_student_missing _ _ Hs).
  - intros [[i s] ->]%find_student_present Hc.
    by rewrite (find_course_missing _ _ Hc).
  - intros [[i s] ->]%find_student_present [[j c] ->]%find_course_present
      [[k e] ->]%find_link_present. done.
  - intros [[i s] ->]%find_student_present [[j c] ->]%find_course_present
      Hl Hs Hc.
    rewrite (find_link_absent _ _ _ Hl). cbv zeta.
    rewrite (proj2 (link_validate sid code (current_time w)) (conj Hs Hc)).
    done.
  - intros [[i s] ->]%find_student_present [[j c] ->]%find_course_present
      Hl Hm.
    rewrite (find_link_absent _ _ _ Hl). cbv zeta.
    destruct (Enrollment.validate _) eqn:E; [|done].
    apply link_validate in E as [E1 E2]. destruct Hm; congruence.
Qed.

Lemma link_outcomes_witness :
  fst (EnrollmentService.enroll_student "P1" "ABC1234"
         (set_enrollments [] campus))
  = Return (Enrollment.mk "P1" "ABC1234" None sample_date) ∧
  EnrollmentService.enroll_student "P1" "ABC1234" campus =
  (Raise (ValueError "Student P1 is already enrolled in ABC1234."), campus) ∧
  EnrollmentService.enroll_student "P2" "ABC1234" campus =
  (Raise (ValueError "Student with ID P2 not found."), campus).
Proof.
  split; [|split].
  - apply (proj1 (proj2 (proj2 (proj2
             (link_outcomes (set_enrollments [] campus) "P1" "ABC1234"))))).
    + vm_compute. apply list_elem_of_here.
    + vm_compute. apply list_elem_of_here.
    + vm_compute. apply not_elem_of_nil.
    + reflexivity.
    + reflexivity.
  - apply (proj1 (proj2 (proj2 (link_outcomes campus "P1" "ABC1234")))).
    + vm_compute. apply list_elem_of_here.
    + vm_compute. apply list_elem_of_here.
    + vm_compute. apply list_elem_of_here.
  - apply (proj1 (link_outcomes campus "P2" "ABC1234")).
    vm_compute. intros H. apply list_elem_of_singleton in H. discriminate.
Defined.

(** ** Search *)

Lemma filter_filter {A} (p q : A → bool) (l : list A) :
  List.filter q (List.filter p l) = List.filter (λ x, p x && q x) l.
Proof.
  induction l as [|x l IH]; [done|].
  simpl. destruct (p x); simpl; [|done].
  destruct (q x); by rewrite IH.
Qed.

Lemma filter_true {A} (l : list A) : List.filter (λ _, true) l = l.
Proof. induction l as [|x l IH]; [done|]. simpl. by rewrite IH. Qed.

Lemma filter_ext_bool {A} (p q : A → bool) (l : list A) :
  (∀ x, p x = q x) → List.filter p l = List.filter q l.
Proof.
  intros H. induction l as [|x l IH]; [done|]. simpl. by rewrite H, IH.
Qed.

Lemma filter_sublist {A} (p : A → bool) (l : list A) :
  List.filter p l `sublist_of` l.
Proof.
  induction l as [|x l IH]; [constructor|].
  simpl. destruct (p x); by constructor.
Qed.

Lemma contains_empty (field : string) : Str.contains "" field = true.
Proof. by destruct field. Qed.

Lemma ci_contains_empty (field : string) : ci_contains "" field = true.
Proof. unfold ci_contains. simpl. apply contains_empty. Qed.

Lemma narrow_filter (text : option string) (field : Course.t → string)
    (l : list Course.t) :
  CourseService.narrow text field l =
  List.filter (λ c, if text is Some t then ci_contains t (field c) else true) l.
Proof.
  unfold CourseService.narrow. destruct text as [t|]; [|by rewrite filter_true].
  destruct t as [|a t]; [|done].
  simpl. rewrite <- (filter_true l) at 1.
  apply filter_ext_bool. intros c. by rewrite ci_contains_empty.
Qed.

Lemma search_students_run (w : world) (name program : option string) :
  StudentService.search_students name program w =
  (Return (List.filter (student_matches (applied name) (applied program))
             (students w)), w).
Proof.
  unfold StudentService.search_students. eff_unfold. cbv zeta. f_equal. f_equal.
  unfold student_matches, applied.
  destruct name as [[|a n]|], program as [[|b p]|]; simpl;
    rewrite ?filter_filter, ?filter_true; try done.
  all: apply filter_ext_bool; intros s; by rewrite ?andb_true_r.
Qed.

Lemma search_courses_run (w : world) (code name instructor : option string) :
  CourseService.search_courses code name instructor w =
  (Return (List.filter (course_matches code name instructor) (courses w)), w).
Proof.
  unfold CourseService.search_courses. eff_unfold. cbv zeta.
  rewrite !narrow_filter, !filter_filter. f_equal. f_equal.
  apply filter_ext_bool. intros c. unfold course_matches.
  by rewrite andb_assoc.
Qed.

(** C8, as stated, fails: with the program criterion supplied as the empty
    string, the search returns a person whose program is "CS", who does not
    satisfy an exact match on the empty string. *)
Lemma search_empty_program_not_exact :
  StudentService.search_students None (Some "") campus
  = (Return [ Student.mk "P1" "Jane" "jane@x.com" "CS" ], campus) ∧
  student_matches None (Some "") (Student.mk "P1" "Jane" "jane@x.com" "CS") = false ∧
  List.filter (student_matches None (Some "")) (students campus) = [].
Proof. repeat split. Qed.

(** C8, amended. In every state and for every combination of criteria, the
    search returns exactly the entities that satisfy every criterion that is
    supplied and not empty (the criteria are conjoined), each a
    case-insensitive substring match on its field, the program of a person
    apart, which is an exact match; the result keeps the order of the
    collection, and the state is unchanged.  For offerings, where every
    criterion is a substring match, this is the same as satisfying every
    supplied criterion. *)
Theorem search_returns_matches :
  ∀ (w : world),
    (∀ name program,
       ∃ r, StudentService.search_students name program w = (Return r, w) ∧
            r = List.filter (student_matches (applied name) (applied program))
                  (students w) ∧
            r `sublist_of` students w ∧
            (∀ s, s ∈ r ↔ s ∈ students w ∧
                          student_matches (applied name) (applied program) s = true)) ∧
    (∀ code name instructor,
       ∃ r, CourseService.search_courses code name instructor w = (Return r, w) ∧
            r = List.filter (course_matches code name instructor) (courses w) ∧
            r `sublist_of` courses w ∧
            (∀ c, c ∈ r ↔ c ∈ courses w ∧
                          course_matches code name instructor c = true)).
Proof.
  intros w. split.
  - intros name program. eexists. split; [apply search_students_run|].
    split; [done|]. split; [apply filter_sublist|].
    intros s. rewrite !list_elem_of_In, filter_In. done.
  - intros code name instructor. eexists. split; [apply search_courses_run|].
    split; [done|]. split; [apply filter_sublist|].
    intros c. rewrite !list_elem_of_In, filter_In. done.
Qed.

(** C9. A criterion supplied as the empty string is treated as one that is
    not supplied: in every state, the search with an empty name, program,
    code or instructor is the search without that criterion, and the search
    with only empty criteria returns the whole collection, in its order. *)
Theorem empty_criterion_is_no_criterion :
  ∀ (w : world),
    (∀ program, StudentService.search_students (Some "") program w
                = StudentService.search_students None program w) ∧
    (∀ name, StudentService.search_students name (Some "") w
             = StudentService.search_students name None w) ∧
    StudentService.search_students (Some "") (Some "") w = (Return (students w), w) ∧
    (∀ name instructor,
       CourseService.search_courses (Some "") name instructor w
       = CourseService.search_courses None name instructor w) ∧
    (∀ code instructor,
       CourseService.search_courses code (Some "") instructor w
       = CourseService.search_courses code None instructor w) ∧
    (∀ code name,
       CourseService.search_courses code name (Some "") w
       = CourseService.search_courses code name None w) ∧
    CourseService.search_courses (Some "") (Some "") (Some "") w
    = (Return (courses w), w).
Proof. intros w. repeat split. Qed.

(** ** Save and load *)

Lemma digit_value_char (k : N) :
  (k < 10)%N → Datetime.digit_value (Datetime.digit_char k) = Some k.
Proof.
  intros Hk. unfold Datetime.digit_value, Datetime.digit_char, Str.isdigit,
    Str.in_range, Str.ord.
  rewrite N_ascii_embedding by lia.
  replace (48 <=? 48 + k)%N with true by (symmetry; apply N.leb_le; lia).
  replace (48 + k <=? 57)%N with true by (symmetry; apply N.leb_le; lia).
  simpl. f_equal. lia.
Qed.

Lemma zfill_app (w : nat) (n : N) (a b : string) :
  Datetime.zfill w n a +:+ b = Datetime.zfill w n (a +:+ b).
Proof.
  revert n a. induction w as [|w IH]; intros n a; [done|].
  simpl. by rewrite IH.
Qed.

Lemma take_digits_add (a b : nat) (s : string) (acc : N) :
  Datetime.take_digits (a + b) s acc =
  match Datetime.take_digits a s acc with
  | Some (v, s') => Datetime.take_digits b s' v
  | None => None
  end.
Proof.
  revert s acc. induction a as [|a IH]; intros s acc; [done|].
  simpl. destruct s as [|c s]; [done|].
  destruct (Datetime.digit_value c); [apply IH|done].
Qed.

Lemma take_zfill (w : nat) (n acc : N) (rest : string) :
  Datetime.take_digits w (Datetime.zfill w n rest) acc
  = Some ((acc * 10 ^ N.of_nat w + n mod 10 ^ N.of_nat w)%N, rest).
Proof.
  revert n acc rest. induction w as [|w IH]; intros n acc rest.
  - simpl. f_equal. f_equal. rewrite N.mod_1_r. lia.
  - replace (S w) with (w + 1)%nat at 1 by lia.
    cbn [Datetime.zfill]. rewrite take_digits_add, IH.
    cbn [Datetime.take_digits].
    rewrite digit_value_char by (apply N.mod_lt; lia).
    f_equal. f_equal.
    rewrite Nat2N.inj_succ, N.pow_succ_r'.
    rewrite (N.Div0.mod_mul_r n 10 (10 ^ N.of_nat w)). lia.
Qed.

Lemma take_zfill_small (w : nat) (n : N) (rest : string) :
  (n < 10 ^ N.of_nat w)%N →
  Datetime.take_digits w (Datetime.zfill w n rest) 0 = Some (n, rest).
Proof. intros Hn. rewrite take_zfill, N.mod_small by done. f_equal. Qed.

Lemma days_in_month_le (y m : N) : (Datetime.days_in_month y m <= 31)%N.
Proof.
  unfold Datetime.days_in_month.
  repeat match goal with |- context [if ?b then _ else _] => destruct b end; lia.
Qed.

Lemma valid_bounds (d : Datetime.t) :
  Datetime.valid d = true →
  (Datetime.year d < 10 ^ 4 ∧ Datetime.month d < 10 ^ 2 ∧ Datetime.day d < 10 ^ 2 ∧
   Datetime.hour d < 10 ^ 2 ∧ Datetime.minute d < 10 ^ 2 ∧
   Datetime.second d < 10 ^ 2 ∧ Datetime.microsecond d < 10 ^ 6)%N.
Proof.
  unfold Datetime.valid. rewrite !andb_true_iff.
  rewrite !N.leb_le, !N.ltb_lt.
  pose proof (days_in_month_le (Datetime.year d) (Datetime.month d)).
  change (10 ^ 4)%N with 10000%N. change (10 ^ 2)%N with 100%N.
  change (10 ^ 6)%N with 1000000%N. lia.
Qed.

(** A datetime survives its ISO-8601 string form. *)
Lemma fromisoformat_isoformat (d : Datetime.t) :
  Datetime.valid d = true →
  Datetime.fromisoformat (Datetime.isoformat d) = Some d.
Proof.
  intros Hv. destruct (valid_bounds d Hv) as (Hy & Hmo & Hd & Hh & Hmi & Hs & Hu).
  unfold Datetime.isoformat, Datetime.fromisoformat.
  rewrite !zfill_app. cbv [String.append].
  rewrite (take_zfill_small 4) by done.
  cbn [mbind option_bind Datetime.expect Ascii.eqb Bool.eqb].
  do 4 (rewrite (take_zfill_small 2) by done;
        cbn [mbind option_bind Datetime.expect Ascii.eqb Bool.eqb]).
  rewrite (take_zfill_small 2) by done. cbn [mbind option_bind].
  destruct (Datetime.microsecond d =? 0)%N eqn:E.
  - apply N.eqb_eq in E. cbn [Str.truthy mbind option_bind].
    destruct d; simpl in *. subst. by rewrite Hv.
  - cbv [String.append]; cbn [Str.truthy mbind option_bind Datetime.expect
         Ascii.eqb Bool.eqb].
    rewrite ?zfill_app. cbv [String.append].
    rewrite (take_zfill_small 6) by done. cbn [Str.truthy mbind option_bind].
    destruct d; simpl in *. by rewrite Hv.
Qed.

Lemma student_roundtrip (s : Student.t) :
  Student.from_dict (Student.to_dict s) = Return s.
Proof. destruct s. reflexivity. Qed.

Lemma course_roundtrip (c : Course.t) :
  Course.from_dict (Course.to_dict c) = Return c.
Proof. destruct c. reflexivity. Qed.

Lemma enrollment_roundtrip (e : Enrollment.t) (c : Clock.t) :
  Datetime.valid (Enrollment.enrollment_date e) = true →
  Enrollment.from_dict (Enrollment.to_dict e) c = (Return e, c).
Proof.
  intros Hv. unfold Enrollment.to_dict.
  match goal with |- context [JObj ?m] => set (fields := m) end.
  assert (H1 : fields !! "enrollment_date"
               = Some (JStr (Datetime.isoformat (Enrollment.enrollment_date e))))
    by reflexivity.
  assert (H2 : fields !! "student_id" = Some (JStr (Enrollment.student_id e)))
    by reflexivity.
  assert (H3 : fields !! "course_code" = Some (JStr (Enrollment.course_code e)))
    by reflexivity.
  assert (H4 : fields !! "grade"
               = Some (match Enrollment.grade e with
                       | Some g => JNum g
                       | None => JNull
                       end))
    by reflexivity.
  clearbody fields.
  unfold Enrollment.from_dict, getitem, dict_get, Enrollment.init.
  rewrite H1, H2, H3, H4, (fromisoformat_isoformat _ Hv).
  destruct e as [sid code [g|] d]; reflexivity.
Qed.

Lemma for_each_roundtrip {S A} (f : json → Eff S A) (g : A → json)
    (l : list A) (s : S) :
  (∀ x, x ∈ l → f (g x) s = (Return x, s)) →
  for_each f (g <$> l) s = (Return l, s).
Proof.
  induction l as [|x l IH]; intros H; [done|].
  rewrite fmap_cons. cbn [for_each]. eff_unfold.
  rewrite (H x) by apply list_elem_of_here.
  rewrite IH; [done|]. intros y Hy. apply H. by apply list_elem_of_further.
Qed.

Lemma load_persisted {A} (file_name key : string) (f : json → M A)
    (g : A → json) (l : list A) (w : world) :
  (∀ x w', x ∈ l → f (g x) w' = (Return x, w')) →
  FileHandler.load file_name key f (persisted file_name key (g <$> l) w)
  = (Return l, persisted file_name key (g <$> l) w).
Proof.
  intros H. unfold FileHandler.load. eff_unfold.
  set (w1 := persisted file_name key (g <$> l) w).
  assert (Hd : disk w1 !! file_name
               = Some (Json (JObj {[ key := JArr (g <$> l);
                                     "metadata" := FileHandler.metadata
                                                     (current_time w)
                                                     (length (g <$> l)) ]}))).
  { unfold w1, persisted. cbn [disk]. apply lookup_insert_eq. }
  rewrite Hd. unfold FileHandler.get_list.
  rewrite lookup_insert_eq.
  rewrite for_each_roundtrip; [done|]. intros x Hx. by apply H.
Qed.



(** ** The matcher decides the language of a pattern *)

Lemma append_nil_l (s : string) : "" +:+ s = s.
Proof. reflexivity. Qed.

Lemma append_cons (c : ascii) (a b : string) :
  String c a +:+ b = String c (a +:+ b).
Proof. reflexivity. Qed.

Lemma append_nil_r (s : string) : s +:+ "" = s.
Proof. induction s as [|c s IH]; [done|]. by rewrite append_cons, IH. Qed.

Lemma append_eq_nil (a b : string) : a +:+ b = "" → a = "" ∧ b = "".
Proof. destruct a; [done|]. rewrite append_cons. discriminate. Qed.

Lemma append_eq_cons (a b : string) (c : ascii) (s : string) :
  a +:+ b = String c s →
  (a = "" ∧ b = String c s) ∨ (∃ a', a = String c a' ∧ s = a' +:+ b).
Proof.
  destruct a as [|x a]; [by left|].
  rewrite append_cons. intros [= -> <-]. right. by exists a.
Qed.

Lemma nullable_lang (r : Re.regex) : Re.nullable r = true ↔ Re.lang r "".
Proof.
  induction r as [| |p|r1 IH1 r2 IH2|r1 IH1 r2 IH2|r IH]; simpl.
  - split; [done|]. inversion 1.
  - split; [constructor|done].
  - split; [done|]. inversion 1.
  - rewrite andb_true_iff, IH1, IH2. split.
    + intros [H1 H2]. by apply (Re.lang_seq _ _ "" "").
    + inversion 1 as [| |? ? s1 s2 H1 H2 E1 E2| | | |]; subst.
      by apply append_eq_nil in E2 as [-> ->].
  - rewrite orb_true_iff, IH1, IH2. split.
    + intros [H|H]; [by apply Re.lang_alt_l|by apply Re.lang_alt_r].
    + inversion 1; subst; [by left|by right].
  - split; [constructor|done].
Qed.

Lemma star_cons_inv (r : Re.regex) (c : ascii) (s : string) :
  Re.lang (Re.Star r) (String c s) →
  ∃ s1 s2, s = s1 +:+ s2 ∧ Re.lang r (String c s1) ∧ Re.lang (Re.Star r) s2.
Proof.
  intros H. remember (Re.Star r) as r' eqn:Er. remember (String c s) as t eqn:Et.
  revert s Et. induction H as [| | | | | |r0 s1 s2 H1 _ H2 IH2]; intros u Et;
    try discriminate.
  injection Er as ->.
  apply append_eq_cons in Et as [[-> ->]|(a' & -> & ->)].
  - by apply IH2.
  - by exists a', s2.
Qed.

Lemma deriv_lang (c : ascii) (r : Re.regex) (s : string) :
  Re.lang (Re.deriv c r) s ↔ Re.lang r (String c s).
Proof.
  revert s. induction r as [| |p|r1 IH1 r2 IH2|r1 IH1 r2 IH2|r IH]; intros s; simpl.
  - split; inversion 1.
  - split; inversion 1.
  - destruct (p c) eqn:Ep; split.
    + inversion 1; subst. by constructor.
    + inversion 1; subst. constructor.
    + inversion 1.
    + inversion 1; subst. congruence.
  - assert (Hseq : Re.lang (Re.Seq (Re.deriv c r1) r2) s →
                   Re.lang (Re.Seq r1 r2) (String c s)).
    { inversion 1 as [| |? ? s1 s2 H1 H2| | | |]; subst.
      rewrite <- append_cons. constructor; [by apply IH1|done]. }
    destruct (Re.nullable r1) eqn:En; split.
    + inversion 1 as [| | |? ? ? Hl|? ? ? Hr| |]; subst; [by apply Hseq|].
      rewrite <- (append_nil_l (String c s)).
      constructor; [by apply nullable_lang|by apply IH2].
    + inversion 1 as [| |? ? s1 s2 H1 H2 E1 E2| | | |]; subst.
      apply append_eq_cons in E2 as [[-> ->]|(a' & -> & ->)].
      * apply Re.lang_alt_r. by apply IH2.
      * apply Re.lang_alt_l. constructor; [by apply IH1|done].
    + apply Hseq.
    + inversion 1 as [| |? ? s1 s2 H1 H2 E1 E2| | | |]; subst.
      apply append_eq_cons in E2 as [[-> ->]|(a' & -> & ->)].
      * apply nullable_lang in H1. congruence.
      * constructor; [by apply IH1|done].
  - split.
    + inversion 1; subst; [apply Re.lang_alt_l|apply Re.lang_alt_r];
        [by apply IH1|by apply IH2].
    + inversion 1; subst; [apply Re.lang_alt_l|apply Re.lang_alt_r];
        [by apply IH1|by apply IH2].
  - split.
    + inversion 1 as [| |? ? s1 s2 H1 H2| | | |]; subst.
      rewrite <- append_cons. constructor; [by apply IH|done].
    + intros (s1 & s2 & -> & H1 & H2)%star_cons_inv.
      constructor; [by apply IH|done].
Qed.

Lemma fullmatch_lang (r : Re.regex) (s : string) :
  Re.fullmatch r s = true ↔ Re.lang r s.
Proof.
  revert r. induction s as [|c s IH]; intros r; simpl.
  - apply nullable_lang.
  - rewrite IH. apply deriv_lang.
Qed.

(** What [$] lets through: the pattern, then nothing or one final newline. *)
Lemma match_anchored_spec (r : Re.regex) (s : string) :
  Re.match_anchored r s = true ↔
  Re.fullmatch r s = true ∨
  ∃ t, s = t +:+ String Re.newline "" ∧ Re.fullmatch r t = true.
Proof.
  unfold Re.match_anchored. rewrite !fullmatch_lang. split.
  - inversion 1 as [| |? ? s1 s2 H1 H2| | | |]; subst.
    inversion H2 as [| | |? ? ? Hl|? ? ? Hr| |]; subst.
    + inversion Hl; subst. rewrite append_nil_r. by left.
    + inversion Hr as [|p c Hp| | | | |]; subst.
      apply Ascii.eqb_eq in Hp as ->.
      right. exists s1. by rewrite fullmatch_lang.
  - intros [H|(t & -> & H)].
    + rewrite <- (append_nil_r s). constructor; [done|].
      apply Re.lang_alt_l. constructor.
    + constructor; [by apply fullmatch_lang|].
      apply Re.lang_alt_r. constructor. by apply Ascii.eqb_eq.
Qed.

(** ** Validation *)

Lemma lstrip_all_space (s : string) :
  Str.all_space (Str.lstrip s) = Str.all_space s.
Proof.
  induction s as [|c s IH]; [done|].
  simpl. destruct (Str.isspace c) eqn:E; [done|]. simpl. by rewrite E.
Qed.

Lemma rstrip_truthy (s : string) :
  Str.truthy (Str.rstrip s) = negb (Str.all_space s).
Proof.
  induction s as [|c s IH]; [done|].
  simpl. rewrite IH. destruct (Str.isspace c), (Str.all_space s); done.
Qed.

(** The test [not s or not s.strip()] holds exactly of the strings made of
    white space only. *)
Lemma missing_blank (s : string) : missing s = blank s.
Proof.
  unfold missing, blank, Str.strip.
  rewrite rstrip_truthy, lstrip_all_space, negb_involutive.
  destruct s; [done|]. simpl. done.
Qed.

Lemma all_space_app (a b : string) :
  Str.all_space (a +:+ b) = Str.all_space a && Str.all_space b.
Proof.
  induction a as [|c a IH]; [done|].
  rewrite append_cons. simpl. rewrite IH. by rewrite andb_assoc.
Qed.

Lemma class_not_blank (p : ascii → bool) (n : nat) (r : Re.regex) (s : string) :
  (∀ c, p c = true → Str.isspace c = false) →
  Re.lang (Re.Seq (Re.Class p) r) s → blank s = false.
Proof.
  intros Hp. inversion 1 as [| |? ? s1 s2 H1 H2| | | |]; subst.
  inversion H1; subst. rewrite append_cons. unfold blank. simpl.
  by rewrite Hp.
Qed.

Lemma upper_not_space (c : ascii) :
  Str.isupper_ascii c = true → Str.isspace c = false.
Proof.
  unfold Str.isupper_ascii, Str.isspace, Str.in_range.
  rewrite andb_true_iff, !N.leb_le. intros [H1 H2].
  repeat match goal with
         | |- context [(?a <=? ?b)%N] => destruct (N.leb_spec a b)
         | |- context [(?a =? ?b)%N] => destruct (N.eqb_spec a b)
         end; simpl; try done; lia.
Qed.

Lemma local_not_space (c : ascii) :
  Student.local_char c = true → Str.isspace c = false.
Proof.
  destruct c as [[] [] [] [] [] [] [] []]; vm_compute; congruence.
Qed.

Lemma code_not_blank (s : string) :
  Re.fullmatch Course.code_pattern s = true → blank s = false.
Proof.
  intros H%fullmatch_lang. unfold Course.code_pattern in H. simpl in H.
  inversion H as [| |? ? s1 s2 H1 H2| | | |]; subst.
  inversion H1 as [| |? ? s3 s4 H3 H4| | | |]; subst.
  inversion H3; subst. rewrite !append_cons. unfold blank. simpl.
  by rewrite upper_not_space.
Qed.

Lemma email_not_blank (s : string) :
  Re.fullmatch Student.email_pattern s = true → blank s = false.
Proof.
  intros H%fullmatch_lang. unfold Student.email_pattern, Re.plus, Re.at_least in H.
  simpl in H.
  inversion H as [| |? ? s1 s2 H1 H2| | | |]; subst.
  inversion H1 as [| |? ? s3 s4 H3 H4| | | |]; subst.
  inversion H3 as [| |? ? s5 s6 H5 H6| | | |]; subst.
  inversion H5; subst. rewrite !append_cons. unfold blank. simpl.
  by rewrite local_not_space.
Qed.

Lemma anchored_of_fullmatch (r : Re.regex) (s : string) :
  Re.fullmatch r s = true → Re.match_anchored r s = true.
Proof. intros H. apply match_anchored_spec. by left. Qed.

(** An entity that satisfies the per-field rules validates without error. *)
Lemma rules_validate_clean :
  (∀ s, person_rules s → Student.validate s = []) ∧
  (∀ c, offering_rules c → Course.validate c = []) ∧
  (∀ e, link_rules e → Enrollment.validate e = []).
Proof.
  split; [|split].
  - intros s (H1 & H2 & H3 & H4). unfold Student.validate, Student._is_valid_email.
    rewrite !missing_blank, H1, H2, H4, (email_not_blank _ H3),
      (anchored_of_fullmatch _ _ H3). done.
  - intros c (H1 & H2 & H3 & H4). unfold Course.validate, Course._is_valid_course_code.
    rewrite !missing_blank, H2, H4, (code_not_blank _ H1),
      (anchored_of_fullmatch _ _ H1).
    replace (1 <=? Course.credits c)%Z with true by (symmetry; apply Z.leb_le; lia).
    replace (Course.credits c <=? 6)%Z with true by (symmetry; apply Z.leb_le; lia).
    done.
  - intros e (H1 & H2 & H3). unfold Enrollment.validate.
    rewrite !missing_blank, H1, H2.
    destruct (Enrollment.grade e) as [g|]; [|done].
    destruct (H3 g eq_refl) as [Hlo Hhi].
    by rewrite (Qle_bool_true _ _ Hlo), (Qle_bool_true _ _ Hhi).
Qed.

Ltac errors_cases :=
  simpl;
  repeat match goal with
         | |- context [if ?b then _ else _] => destruct b; simpl
         | |- context [match ?o with Some _ => _ | None => _ end] =>
             destruct o; simpl
         end;
  repeat first [apply list_elem_of_here | apply list_elem_of_further].

(** Each test of [validate] that fails puts its own message in the result. *)
Lemma offering_errors_named (c : Course.t) :
  (blank (Course.course_code c) = true →
   "Course code is required and cannot be empty" ∈ Course.validate c) ∧
  (blank (Course.course_code c) = false →
   Course._is_valid_course_code (Course.course_code c) = false →
   "Course code must be in format XXX1234 (three uppercase letters followed by four digits)"
     ∈ Course.validate c) ∧
  (blank (Course.name c) = true →
   "Course name is required and cannot be empty" ∈ Course.validate c) ∧
  (¬ (1 ≤ Course.credits c ≤ 6)%Z →
   "Credits must be between 1 and 6" ∈ Course.validate c) ∧
  (blank (Course.instructor c) = true →
   "Instructor name is required and cannot be empty" ∈ Course.validate c).
Proof.
  unfold Course.validate. rewrite !missing_blank. cbv zeta.
  repeat split.
  - intros ->. errors_cases.
  - intros -> ->. errors_cases.
  - intros ->. errors_cases.
  - intros Hc.
    assert (E : ((1 <=? Course.credits c)%Z && (Course.credits c <=? 6)%Z) = false).
    { apply andb_false_iff. rewrite !Z.leb_gt. lia. }
    rewrite E. errors_cases.
  - intros ->. errors_cases.
Qed.

Lemma person_errors_named (s : Student.t) :
  (blank (Student.student_id s) = true →
   "Student ID is required and cannot be empty" ∈ Student.validate s) ∧
  (blank (Student.name s) = true →
   "Name is required and cannot be empty" ∈ Student.validate s) ∧
  (blank (Student.email s) = true →
   "Email is required and cannot be empty" ∈ Student.validate s) ∧
  (blank (Student.email s) = false →
   Student._is_valid_email (Student.email s) = false →
   "Email format is invalid" ∈ Student.validate s) ∧
  (blank (Student.program s) = true →
   "Program is required and cannot be empty" ∈ Student.validate s).
Proof.
  unfold Student.validate. rewrite !missing_blank. cbv zeta.
  repeat split.
  - intros ->. errors_cases.
  - intros ->. errors_cases.
  - intros ->. errors_cases.
  - intros -> ->. errors_cases.
  - intros ->. errors_cases.
Qed.

Lemma link_errors_named (e : Enrollment.t) :
  (blank (Enrollment.student_id e) = true →
   "Student ID is required and cannot be empty" ∈ Enrollment.validate e) ∧
  (blank (Enrollment.course_code e) = true →
   "Course code is required and cannot be empty" ∈ Enrollment.validate e) ∧
  (∀ g, Enrollment.grade e = Some g → (g < 0)%Q ∨ (100 < g)%Q →
        "Grade must be between 0 and 100" ∈ Enrollment.validate e).
Proof.
  unfold Enrollment.validate. rewrite !missing_blank. cbv zeta.
  repeat split.
  - intros ->. errors_cases.
  - intros ->. errors_cases.
  - intros g -> Hg.
    assert (E : Qle_bool 0 g && Qle_bool g 100 = false).
    { apply andb_false_iff.
      destruct Hg; [left|right]; by apply Qle_bool_false. }
    unfold Enrollment.isinstance_number. rewrite E. errors_cases.
Qed.

Ltac lang_inv :=
  repeat match goal with
         | H : Re.lang (Re.Seq _ _) _ |- _ => inversion H; subst; clear H
         | H : Re.lang (Re.Class _) _ |- _ => inversion H; subst; clear H
         | H : Re.lang Re.Eps _ |- _ => inversion H; subst; clear H
         end.

(** The language of the course-code pattern: seven characters, three capital
    letters and then four digits. *)
Lemma code_pattern_exact (s : string) :
  Re.fullmatch Course.code_pattern s = true ↔
  ∃ a b c d e f g,
    s = String a (String b (String c (String d (String e (String f (String g ""))))))
    ∧ Str.isupper_ascii a = true ∧ Str.isupper_ascii b = true
    ∧ Str.isupper_ascii c = true ∧ Str.isdigit d = true ∧ Str.isdigit e = true
    ∧ Str.isdigit f = true ∧ Str.isdigit g = true.
Proof.
  split.
  - intros H%fullmatch_lang. unfold Course.code_pattern in H. simpl in H.
    lang_inv. cbv [String.append].
    repeat eexists; eauto.
  - intros (a & b & c & d & e & f & g & -> & Ha & Hb & Hc & Hd & He & Hf & Hg).
    unfold Course.code_pattern. simpl.
    rewrite Ha. simpl. rewrite Hb. simpl. rewrite Hc. simpl.
    rewrite Hd. simpl. rewrite He. simpl. rewrite Hf. simpl. by rewrite Hg.
Qed.

(** What [_is_valid_course_code] accepts: a code of the exact format, or one
    followed by a newline. *)
Lemma course_code_accepted (s : string) :
  Course._is_valid_course_code s = true ↔
  Re.fullmatch Course.code_pattern s = true ∨
  ∃ t, s = t +:+ String Re.newline "" ∧ Re.fullmatch Course.code_pattern t = true.
Proof. apply match_anchored_spec. Qed.

(** C6. [validate] lets a course code through that is not three capital
    letters followed by four digits: "ABC1234" followed by a newline has eight
    characters and is outside the pattern, yet an offering with that code
    validates without error and is created and stored; likewise an email
    address followed by a newline.  The lower-case code "ab1234" is reported,
    as is every code that [_is_valid_course_code] rejects. *)
Theorem validate_accepts_trailing_newline :
  String.length code_with_newline = 8%nat ∧
  Re.fullmatch Course.code_pattern code_with_newline = false ∧
  Course.validate (Course.mk code_with_newline "Intro" 3 "Dr. X") = [] ∧
  fst (CourseService.create_course code_with_newline "Intro" 3 "Dr. X"
         (set_courses [] campus))
  = Return (Course.mk code_with_newline "Intro" 3 "Dr. X") ∧
  Re.fullmatch Student.email_pattern email_with_newline = false ∧
  Student.validate (Student.mk "P1" "Jane" email_with_newline "CS") = [] ∧
  Course.validate (Course.mk "ab1234" "Intro" 3 "Dr. X")
  = ["Course code must be in format XXX1234 (three uppercase letters followed by four digits)"].
Proof. repeat split; vm_compute; reflexivity. Qed.

(** * Further properties of the code *)

(** ** Restart, failure and success of the mutating operations *)

Lemma init_persisted_students (w : world) :
  StudentService.init (persisted_students w) = (Return (), persisted_students w).
Proof.
  unfold StudentService.init, FileHandler.load_students, persisted_students.
  unfold mbind, Eff_bind, eff_bind.
  rewrite (load_persisted "students.json" "students" _ Student.to_dict).
  - reflexivity.
  - intros s w' _. unfold lift. by rewrite student_roundtrip.
Qed.

Lemma init_persisted_courses (w : world) :
  CourseService.init (persisted_courses w) = (Return (), persisted_courses w).
Proof.
  unfold CourseService.init, FileHandler.load_courses, persisted_courses.
  unfold mbind, Eff_bind, eff_bind.
  rewrite (load_persisted "courses.json" "courses" _ Course.to_dict).
  - reflexivity.
  - intros s w' _. unfold lift. by rewrite course_roundtrip.
Qed.

Lemma init_persisted_enrollments (w : world) :
  Forall (λ e, Datetime.valid (Enrollment.enrollment_date e) = true) (enrollments w) →
  EnrollmentService.init (persisted_enrollments w)
  = (Return (), persisted_enrollments w).
Proof.
  intros Hv.
  unfold EnrollmentService.init, FileHandler.load_enrollments, persisted_enrollments.
  unfold mbind, Eff_bind, eff_bind.
  rewrite (load_persisted "enrollments.json" "enrollments" _ Enrollment.to_dict).
  - reflexivity.
  - intros e w' He. rewrite Forall_forall in Hv.
    unfold with_clock. rewrite (enrollment_roundtrip e _ (Hv e He)).
    by destruct w'.
Qed.

(** X1. After every successful create, update or delete of the person store
    or of the offering store, constructing the service again from the data
    directory gives the same state: the document on disk holds exactly the
    collection in memory. *)
Theorem restart_reproduces_stores :
  ∀ (w : world),
    (∀ sid name email program s w',
       StudentService.create_student sid name email program w = (Return s, w') →
       StudentService.init w' = (Return (), w')) ∧
    (∀ sid name email program s w',
       StudentService.update_student sid name email program w = (Return s, w') →
       StudentService.init w' = (Return (), w')) ∧
    (∀ sid w',
       StudentService.delete_student sid w = (Return true, w') →
       StudentService.init w' = (Return (), w')) ∧
    (∀ code name credits instructor c w',
       CourseService.create_course code name credits instructor w = (Return c, w') →
       CourseService.init w' = (Return (), w')) ∧
    (∀ code name credits instructor c w',
       CourseService.update_course code name credits instructor w = (Return c, w') →
       CourseService.init w' = (Return (), w')) ∧
    (∀ code w',
       CourseService.delete_course code w = (Return true, w') →
       CourseService.init w' = (Return (), w')).
Proof.
  intros w. repeat split.
  - intros sid name email program s w'. rewrite create_student_run.
    destruct (list_find _ _) as [[i x]|]; [done|]. cbv zeta.
    destruct (nonempty _); [done|]. intros [= _ <-].
    apply init_persisted_students.
  - intros sid name email program s w'. rewrite update_student_run.
    destruct (list_find _ _) as [[i x]|]; [|done]. cbv zeta.
    destruct (nonempty _); [done|]. intros [= _ <-].
    apply init_persisted_students.
  - intros sid w'. rewrite delete_student_run.
    destruct (list_find _ _) as [[i x]|]; [|done]. intros [= <-].
    apply init_persisted_students.
  - intros code name credits instructor c w'. rewrite create_course_run.
    destruct (list_find _ _) as [[i x]|]; [done|]. cbv zeta.
    destruct (nonempty _); [done|]. intros [= _ <-].
    apply init_persisted_courses.
  - intros code name credits instructor c w'. rewrite update_course_run.
    destruct (list_find _ _) as [[i x]|]; [|done]. cbv zeta.
    destruct (nonempty _); [done|]. intros [= _ <-].
    apply init_persisted_courses.
  - intros code w'. rewrite delete_course_run.
    destruct (list_find _ _) as [[i x]|]; [|done]. intros [= <-].
    apply init_persisted_courses.
Qed.

Lemma restart_reproduces_stores_witness :
  StudentService.init
    (snd (StudentService.update_student "P1" (Some "Janet") None None campus))
  = (Return (),
     snd (StudentService.update_student "P1" (Some "Janet") None None campus)).
Proof.
  apply (proj1 (proj2 (restart_reproduces_stores campus))
           "P1" (Some "Janet") None None
           (Student.mk "P1" "Janet" "jane@x.com" "CS")).
  reflexivity.
Defined.

(** ** The link store *)

Lemma unenroll_student_run (w : world) (sid code : string) :
  EnrollmentService.unenroll_student sid code w =
  match list_find (λ e, Enrollment.student_id e = sid
                        ∧ Enrollment.course_code e = code) (enrollments w) with
  | Some (i, _) =>
      (Return true,
       persisted_enrollments (set_enrollments (delete i (enrollments w)) w))
  | None => (Return false, w)
  end.
Proof.
  unfold EnrollmentService.unenroll_student, EnrollmentService._get_enrollment,
    EnrollmentService._save.
  eff_unfold. by destruct (list_find _ (enrollments w)) as [[i e]|].
Qed.

Lemma Forall_delete_at {A} (P : A → Prop) (l : list A) (i : nat) :
  Forall P l → Forall P (delete i l).
Proof.
  intros H. revert i. induction H as [|x l Hx Hl IH]; intros i; [done|].
  destruct i as [|i]; simpl; [done|]. constructor; [done|apply IH].
Qed.

(** X2. With well-formed timestamps (those stored and those the clock gives),
    after every successful enroll, assign-grade or unenroll, constructing the
    link service again from the data directory gives the same state. *)
Theorem restart_reproduces_links :
  ∀ (w : world),
    dates_valid w →
    (∀ sid code e w',
       EnrollmentService.enroll_student sid code w = (Return e, w') →
       EnrollmentService.init w' = (Return (), w')) ∧
    (∀ sid code g e w',
       EnrollmentService.assign_grade sid code g w = (Return e, w') →
       EnrollmentService.init w' = (Return (), w')) ∧
    (∀ sid code w',
       EnrollmentService.unenroll_student sid code w = (Return true, w') →
       EnrollmentService.init w' = (Return (), w')).
Proof.
  intros w [Hl Hc]. repeat split.
  - intros sid code e w'. rewrite enroll_student_run.
    destruct (list_find _ (students w)) as [[i x]|]; [|done].
    destruct (list_find _ (courses w)) as [[j y]|]; [|done].
    destruct (list_find _ (enrollments w)) as [[k z]|]; [done|].
    cbv zeta. destruct (nonempty _); [done|]. intros [= _ <-].
    apply init_persisted_enrollments. cbn.
    apply Forall_app. split; [done|]. apply Forall_singleton. apply Hc.
  - intros sid code g e w'. rewrite assign_grade_run.
    destruct (list_find _ _) as [[i x]|] eqn:Hf; [|done].
    apply list_find_Some in Hf as (Hi & _ & _).
    cbv zeta. destruct (nonempty _); [done|]. intros [= _ <-].
    apply init_persisted_enrollments. cbn.
    apply Forall_insert; [done|]. cbn.
    rewrite Forall_forall in Hl. apply Hl. by eapply list_elem_of_lookup_2.
  - intros sid code w'. rewrite unenroll_student_run.
    destruct (list_find _ _) as [[i x]|]; [|done]. intros [= <-].
    apply init_persisted_enrollments. cbn. by apply Forall_delete_at.
Qed.

Lemma sample_dates_valid : dates_valid campus.
Proof.
  split; [repeat constructor|]. intros n. reflexivity.
Qed.

Lemma restart_reproduces_links_witness :
  EnrollmentService.init
    (snd (EnrollmentService.assign_grade "P1" "ABC1234" 85 campus))
  = (Return (), snd (EnrollmentService.assign_grade "P1" "ABC1234" 85 campus)).
Proof.
  apply (proj1 (proj2 (restart_reproduces_links campus sample_dates_valid))
           "P1" "ABC1234" 85%Q
           (Enrollment.mk "P1" "ABC1234" (Some 85%Q) sample_date)).
  reflexivity.
Defined.

Lemma link_pairs_insert (l : list Enrollment.t) (i : nat) (e : Enrollment.t)
    (g : option Q) :
  l !! i = Some e →
  (λ x, (Enrollment.student_id x, Enrollment.course_code x))
    <$> <[i := Enrollment.set_grade e g]> l
  = (λ x, (Enrollment.student_id x, Enrollment.course_code x)) <$> l.
Proof.
  intros Hi. rewrite list_fmap_insert. apply list_insert_id.
  by rewrite list_lookup_fmap, Hi.
Qed.

Lemma perform_link_pairs (w : world) (op : link_op) :
  NoDup (link_pairs w) → NoDup (link_pairs (perform_link w op)).
Proof.
  intros Hnd. destruct op; cbn [perform_link]; try done.
  - rewrite enroll_student_run.
    destruct (list_find _ (students w)) as [[i s]|]; [|done].
    destruct (list_find _ (courses w)) as [[j c]|]; [|done].
    destruct (list_find _ (enrollments w)) as [[k e]|] eqn:Hf; [done|].
    cbv zeta. destruct (nonempty _); [done|].
    unfold link_pairs in *. cbn. rewrite fmap_app. apply NoDup_app.
    split; [done|]. split; [|apply NoDup_singleton].
    intros p Hp ->%list_elem_of_singleton.
    apply list_elem_of_fmap in Hp as (e & [= E1 E2] & He).
    apply list_find_None in Hf. rewrite Forall_forall in Hf.
    by apply (Hf e He).
  - rewrite assign_grade_run.
    destruct (list_find _ _) as [[i e]|] eqn:Hf; [|done].
    apply list_find_Some in Hf as (Hi & _ & _).
    cbv zeta. destruct (nonempty _); [done|].
    unfold link_pairs in *. cbn. by rewrite link_pairs_insert.
  - rewrite unenroll_student_run.
    destruct (list_find _ _) as [[i e]|]; [|done].
    unfold link_pairs in *. cbn. rewrite list_fmap_delete.
    eapply sublist_NoDup; eauto using sublist_delete.
Qed.

Lemma perform_link_frame (w : world) (op : link_op) :
  students (perform_link w op) = students w ∧
  courses (perform_link w op) = courses w.
Proof.
  destruct op; cbn [perform_link]; try done.
  - rewrite enroll_student_run.
    destruct (list_find _ (students w)) as [[i s]|]; [|done].
    destruct (list_find _ (courses w)) as [[j c]|]; [|done].
    destruct (list_find _ (enrollments w)) as [[k e]|]; [done|].
    cbv zeta. by destruct (nonempty _).
  - rewrite assign_grade_run.
    destruct (list_find _ _) as [[i e]|]; [|done].
    cbv zeta. by destruct (nonempty _).
  - rewrite unenroll_student_run. by destruct (list_find _ _) as [[i e]|].
Qed.

(** X9. The link pairs stay pairwise distinct: from a link store without a
    repeated (person, offering) pair, every sequence of enroll, assign-grade,
    unenroll, listing and average operations ends in a link store without a
    repeated pair, and none of these operations changes the person and
    offering collections. *)
Theorem link_pairs_stay_distinct :
  ∀ (w : world),
    NoDup (link_pairs w) →
    ∀ ops : list link_op,
      NoDup (link_pairs (fold_left perform_link ops w)) ∧
      students (fold_left perform_link ops w) = students w ∧
      courses (fold_left perform_link ops w) = courses w.
Proof.
  intros w Hnd ops. revert w Hnd.
  induction ops as [|op ops IH]; intros w Hnd; [done|].
  simpl. destruct (perform_link_frame w op) as [Es Ec].
  destruct (IH (perform_link w op) (perform_link_pairs w op Hnd)) as (H1 & H2 & H3).
  by rewrite H2, H3.
Qed.

Lemma link_pairs_stay_distinct_witness :
  NoDup (link_pairs
           (fold_left perform_link
              [ Enroll "P1" "ABC1234"; Unenroll "P1" "ABC1234";
                Enroll "P1" "ABC1234"; AssignGrade "P1" "ABC1234" 85 ]
              campus)).
Proof.
  apply (link_pairs_stay_distinct campus (NoDup_singleton ("P1", "ABC1234"))).
Defined.

(** X10. For a link record that exists (its two references not blank),
    assigning a score succeeds exactly when the score lies in 0..100, both
    bounds included: then the record at its position carries the score, its
    other fields and every other record are unchanged and the collection is
    written; a score below 0 or above 100 raises the validation error. *)
Theorem assign_grade_accepts_0_to_100 :
  ∀ (w : world) (sid code : string) (g : Q) (i : nat) (e : Enrollment.t),
    list_find (λ e, Enrollment.student_id e = sid
                    ∧ Enrollment.course_code e = code) (enrollments w)
    = Some (i, e) →
    missing sid = false → missing code = false →
    ((0 <= g)%Q ∧ (g <= 100)%Q →
     let e' := Enrollment.mk sid code (Some g) (Enrollment.enrollment_date e) in
     let w' := snd (EnrollmentService.assign_grade sid code g w) in
     fst (EnrollmentService.assign_grade sid code g w) = Return e' ∧
     enrollments w' = <[i := e']> (enrollments w) ∧
     writes w' = writes w ++ ["enrollments.json"]) ∧
    ((g < 0)%Q ∨ (100 < g)%Q →
     EnrollmentService.assign_grade sid code g w
     = (Raise (ValueError "Invalid grade: Grade must be between 0 and 100"), w)).
Proof.
  intros w sid code g i e Hf Hs Hc.
  rewrite assign_grade_run, Hf. cbv zeta.
  apply list_find_Some in Hf as (Hi & [<- <-] & _).
  unfold Enrollment.validate. cbn [Enrollment.set_grade Enrollment.student_id
    Enrollment.course_code Enrollment.grade]. rewrite Hs, Hc.
  unfold Enrollment.isinstance_number. cbn [negb].
  split.
  - intros [Hlo Hhi]. rewrite (Qle_bool_true _ _ Hlo), (Qle_bool_true _ _ Hhi).
    done.
  - intros Hout.
    assert (E : Qle_bool 0 g && Qle_bool g 100 = false).
    { apply andb_false_iff. destruct Hout; [left|right]; by apply Qle_bool_false. }
    rewrite E. done.
Qed.

Lemma assign_grade_accepts_0_to_100_witness :
  EnrollmentService.assign_grade "P1" "ABC1234" (201 # 2) campus
  = (Raise (ValueError "Invalid grade: Grade must be between 0 and 100"), campus) ∧
  fst (EnrollmentService.assign_grade "P1" "ABC1234" 100 campus)
  = Return (Enrollment.mk "P1" "ABC1234" (Some 100%Q) sample_date).
Proof.
  pose proof (assign_grade_accepts_0_to_100 campus "P1" "ABC1234" (201 # 2) 0%nat
                (Enrollment.mk "P1" "ABC1234" None sample_date)
                eq_refl eq_refl eq_refl) as [_ H1].
  pose proof (assign_grade_accepts_0_to_100 campus "P1" "ABC1234" 100 0%nat
                (Enrollment.mk "P1" "ABC1234" None sample_date)
                eq_refl eq_refl eq_refl) as [H2 _].
  split.
  - apply H1. right. reflexivity.
  - apply H2. split; apply Qle_bool_iff; reflexivity.
Defined.

(** X11. A link that has just been made cannot be made again: after a
    successful enroll, the pair is in the link store and the same enroll
    fails with the duplicate error, changing nothing. *)
Theorem enroll_twice_is_rejected :
  ∀ (w : world) (sid code : string) (e : Enrollment.t) (w' : world),
    EnrollmentService.enroll_student sid code w = (Return e, w') →
    (sid, code) ∈ link_pairs w' ∧
    EnrollmentService.enroll_student sid code w'
    = (Raise (ValueError ("Student " +:+ sid +:+ " is already enrolled in "
                          +:+ code +:+ ".")), w').
Proof.
  intros w sid code e w'. rewrite enroll_student_run.
  destruct (list_find _ (students w)) as [[i s]|] eqn:Hs; [|done].
  destruct (list_find _ (courses w)) as [[j c]|] eqn:Hc; [|done].
  destruct (list_find _ (enrollments w)) as [[k x]|] eqn:Hl; [done|].
  cbv zeta. destruct (nonempty _); [done|]. intros [= <- <-].
  assert (Hin : (sid, code)
                ∈ link_pairs
                    (persisted_enrollments
                       (set_enrollments
                          (enrollments w
                           ++ [Enrollment.mk sid code None (current_time w)])
                          (ticked w)))).
  { unfold link_pairs. cbn. rewrite fmap_app. apply elem_of_app. right.
    apply list_elem_of_here. }
  split; [done|].
  rewrite enroll_student_run.
  cbn [students courses enrollments persisted_enrollments persisted
       set_enrollments ticked set_clock].
  rewrite Hs, Hc.
  destruct (find_link_present _ _ _ Hin) as [[k x] Hx].
  cbn [enrollments persisted_enrollments persisted set_enrollments] in Hx.
  by rewrite Hx.
Qed.

Lemma enroll_twice_is_rejected_witness :
  EnrollmentService.enroll_student "P1" "ABC1234"
    (snd (EnrollmentService.enroll_student "P1" "ABC1234" (set_enrollments [] campus)))
  = (Raise (ValueError "Student P1 is already enrolled in ABC1234."),
     snd (EnrollmentService.enroll_student "P1" "ABC1234" (set_enrollments [] campus))).
Proof.
  apply (enroll_twice_is_rejected (set_enrollments [] campus) "P1" "ABC1234"
           (Enrollment.mk "P1" "ABC1234" None sample_date)).
  reflexivity.
Defined.

(** X12. Unenrolling a pair that has no link record returns false and changes
    nothing; unenrolling a pair that has one returns true, removes one record
    of that pair and writes the collection; with pairwise-distinct pairs the
    pair is then gone, so the two can be linked again (if both still exist and
    neither key is blank). *)
Theorem unenroll_removes_the_link :
  ∀ (w : world) (sid code : string),
    ((sid, code) ∉ link_pairs w →
     EnrollmentService.unenroll_student sid code w = (Return false, w)) ∧
    ((sid, code) ∈ link_pairs w →
     let w' := snd (EnrollmentService.unenroll_student sid code w) in
     fst (EnrollmentService.unenroll_student sid code w) = Return true ∧
     (∃ i e, enrollments w !! i = Some e ∧ Enrollment.student_id e = sid ∧
             Enrollment.course_code e = code ∧
             enrollments w' = delete i (enrollments w)) ∧
     writes w' = writes w ++ ["enrollments.json"] ∧
     (NoDup (link_pairs w) →
      ((sid, code) ∉ link_pairs w') ∧
      (sid ∈ student_keys w → code ∈ course_keys w →
       missing sid = false → missing code = false →
       ∃ e, fst (EnrollmentService.enroll_student sid code w') = Return e))).
Proof.
  intros w sid code. split.
  - intros Hn. by rewrite unenroll_student_run, (find_link_absent _ _ _ Hn).
  - intros [[i e] Hf]%find_link_present. cbv zeta.
    rewrite unenroll_student_run, Hf. cbn [fst snd].
    apply list_find_Some in Hf as (Hi & [E1 E2] & _).
    split; [done|]. split; [by exists i, e|]. split; [done|].
    intros Hnd.
    assert (Hgone : (sid, code)
                    ∉ link_pairs
                        (persisted_enrollments
                           (set_enrollments (delete i (enrollments w)) w))).
    { unfold link_pairs in *. cbn. rewrite list_fmap_delete.
      intros Hin. apply list_elem_of_lookup in Hin as [j Hj].
      assert (Hi' : ((λ x, (Enrollment.student_id x, Enrollment.course_code x))
                       <$> enrollments w) !! i = Some (sid, code)).
      { rewrite list_lookup_fmap, Hi. simpl. by rewrite E1, E2. }
      destruct (decide (j < i)) as [Hlt|Hge].
      - rewrite list_lookup_delete_lt in Hj by done.
        pose proof (NoDup_lookup _ _ _ _ Hnd Hj Hi'). lia.
      - rewrite list_lookup_delete_ge in Hj by lia.
        pose proof (NoDup_lookup _ _ _ _ Hnd Hj Hi'). lia. }
    split; [done|]. intros Hs Hc Hms Hmc.
    destruct (find_student_present _ _ Hs) as [[a x] Hx].
    destruct (find_course_present _ _ Hc) as [[b y] Hy].
    rewrite enroll_student_run.
    rewrite (find_link_absent _ _ _ Hgone).
    cbn [students courses persisted_enrollments persisted set_enrollments].
    rewrite Hx, Hy. cbv zeta.
    rewrite (proj2 (link_validate sid code _) (conj Hms Hmc)).
    cbn [nonempty fst]. by eexists.
Qed.

Lemma unenroll_removes_the_link_witness :
  EnrollmentService.unenroll_student "P2" "ABC1234" campus = (Return false, campus) ∧
  fst (EnrollmentService.unenroll_student "P1" "ABC1234" campus) = Return true.
Proof.
  split.
  - apply (proj1 (unenroll_removes_the_link campus "P2" "ABC1234")).
    vm_compute. intros H. apply list_elem_of_singleton in H. discriminate.
  - apply (proj1 (proj2 (unenroll_removes_the_link campus "P1" "ABC1234")
                    (list_elem_of_here _ _))).
Defined.

(** ** What the operations leave alone *)

Lemma persisted_disk_other (file_name key : string) (dicts : list json)
    (w : world) (name : string) :
  name ≠ file_name → disk (persisted file_name key dicts w) !! name = disk w !! name.
Proof. intros H. unfold persisted. cbn [disk]. by rewrite lookup_insert_ne. Qed.

Ltac frame_goal :=
  lazymatch goal with
  | |- ?x = ?x => reflexivity
  | |- disk _ !! _ = disk _ !! _ =>
      unfold persisted_students, persisted_courses;
      rewrite persisted_disk_other by assumption; reflexivity
  | |- writes ?w = writes ?w ∨ _ => left; reflexivity
  | |- _ ∨ _ => right; reflexivity
  | H : @eq string _ _ |- _ => first [discriminate H | reflexivity]
  | |- _ => reflexivity
  end.

Ltac frame_case := cbn [fst snd]; repeat split; intros; frame_goal.

(** X3. An operation of the person store or of the offering store never
    touches the link store, nor the collection of the other store, nor any
    document but its own; and it records at most one write, to its own
    document. *)
Theorem store_operations_frame :
  ∀ (w : world) (op : store_op),
    enrollments (perform w op) = enrollments w ∧
    (∀ name, name ≠ own_file op → disk (perform w op) !! name = disk w !! name) ∧
    (writes (perform w op) = writes w ∨
     writes (perform w op) = writes w ++ [own_file op]) ∧
    (own_file op = "students.json" → courses (perform w op) = courses w) ∧
    (own_file op = "courses.json" → students (perform w op) = students w).
Proof.
  intros w op. destruct op; cbn [perform own_file].
  - rewrite create_student_run.
    destruct (list_find _ _) as [[i s]|]; [frame_case|].
    cbv zeta. destruct (nonempty _); frame_case.
  - unfold StudentService.get_student, StudentService.list_students,
      CourseService.get_course, CourseService.list_courses.
    eff_unfold. frame_case.
  - unfold StudentService.get_student, StudentService.list_students,
      CourseService.get_course, CourseService.list_courses.
    eff_unfold. frame_case.
  - rewrite update_student_run.
    destruct (list_find _ _) as [[i s]|]; [|frame_case].
    cbv zeta. destruct (nonempty _); frame_case.
  - rewrite delete_student_run.
    destruct (list_find _ _) as [[i s]|]; frame_case.
  - rewrite search_students_run. frame_case.
  - rewrite create_course_run.
    destruct (list_find _ _) as [[i s]|]; [frame_case|].
    cbv zeta. destruct (nonempty _); frame_case.
  - unfold StudentService.get_student, StudentService.list_students,
      CourseService.get_course, CourseService.list_courses.
    eff_unfold. frame_case.
  - unfold StudentService.get_student, StudentService.list_students,
      CourseService.get_course, CourseService.list_courses.
    eff_unfold. frame_case.
  - rewrite update_course_run.
    destruct (list_find _ _) as [[i s]|]; [|frame_case].
    cbv zeta. destruct (nonempty _); frame_case.
  - rewrite delete_course_run.
    destruct (list_find _ _) as [[i s]|]; frame_case.
  - rewrite search_courses_run. frame_case.
Qed.

(** X4. A create that fails (duplicate key or invalid data) leaves the whole
    state as it was; an enroll that fails leaves the three collections, the
    data directory and the write log as they were; and delete and unenroll
    never raise. *)
Theorem failed_operations_write_nothing :
  ∀ (w : world),
    (∀ sid name email program x w',
       StudentService.create_student sid name email program w = (Raise x, w') →
       w' = w) ∧
    (∀ code name credits instructor x w',
       CourseService.create_course code name credits instructor w = (Raise x, w') →
       w' = w) ∧
    (∀ sid code x w',
       EnrollmentService.enroll_student sid code w = (Raise x, w') →
       students w' = students w ∧ courses w' = courses w ∧
       enrollments w' = enrollments w ∧ disk w' = disk w ∧ writes w' = writes w) ∧
    (∀ sid, ∃ b w', StudentService.delete_student sid w = (Return b, w')) ∧
    (∀ code, ∃ b w', CourseService.delete_course code w = (Return b, w')) ∧
    (∀ sid code, ∃ b w',
       EnrollmentService.unenroll_student sid code w = (Return b, w')).
Proof.
  intros w. repeat split.
  - intros sid name email program x w'. rewrite create_student_run.
    destruct (list_find _ _) as [[i s]|]; [by intros [= _ <-]|].
    cbv zeta. destruct (nonempty _); [by intros [= _ <-]|done].
  - intros code name credits instructor x w'. rewrite create_course_run.
    destruct (list_find _ _) as [[i s]|]; [by intros [= _ <-]|].
    cbv zeta. destruct (nonempty _); [by intros [= _ <-]|done].
  - revert H. rewrite enroll_student_run.
    destruct (list_find _ (students w)) as [[i s]|]; [|by intros [= _ <-]].
    destruct (list_find _ (courses w)) as [[j c]|]; [|by intros [= _ <-]].
    destruct (list_find _ (enrollments w)) as [[k e]|]; [by intros [= _ <-]|].
    cbv zeta. destruct (nonempty _); [by intros [= _ <-]|done].
  - revert H. rewrite enroll_student_run.
    destruct (list_find _ (students w)) as [[i s]|]; [|by intros [= _ <-]].
    destruct (list_find _ (courses w)) as [[j c]|]; [|by intros [= _ <-]].
    destruct (list_find _ (enrollments w)) as [[k e]|]; [by intros [= _ <-]|].
    cbv zeta. destruct (nonempty _); [by intros [= _ <-]|done].
  - revert H. rewrite enroll_student_run.
    destruct (list_find _ (students w)) as [[i s]|]; [|by intros [= _ <-]].
    destruct (list_find _ (courses w)) as [[j c]|]; [|by intros [= _ <-]].
    destruct (list_find _ (enrollments w)) as [[k e]|]; [by intros [= _ <-]|].
    cbv zeta. destruct (nonempty _); [by intros [= _ <-]|done].
  - revert H. rewrite enroll_student_run.
    destruct (list_find _ (students w)) as [[i s]|]; [|by intros [= _ <-]].
    destruct (list_find _ (courses w)) as [[j c]|]; [|by intros [= _ <-]].
    destruct (list_find _ (enrollments w)) as [[k e]|]; [by intros [= _ <-]|].
    cbv zeta. destruct (nonempty _); [by intros [= _ <-]|done].
  - revert H. rewrite enroll_student_run.
    destruct (list_find _ (students w)) as [[i s]|]; [|by intros [= _ <-]].
    destruct (list_find _ (courses w)) as [[j c]|]; [|by intros [= _ <-]].
    destruct (list_find _ (enrollments w)) as [[k e]|]; [by intros [= _ <-]|].
    cbv zeta. destruct (nonempty _); [by intros [= _ <-]|done].
  - intros sid. rewrite delete_student_run.
    destruct (list_find _ _) as [[i s]|]; eauto.
  - intros code. rewrite delete_course_run.
    destruct (list_find _ _) as [[i s]|]; eauto.
  - intros sid code. rewrite unenroll_student_run.
    destruct (list_find _ _) as [[i s]|]; eauto.
Qed.

Lemma failed_operations_write_nothing_witness :
  snd (StudentService.create_student "P9" "" "nobody" "" campus) = campus.
Proof.
  apply (proj1 (failed_operations_write_nothing campus) "P9" "" "nobody" ""
           (ValueError "Invalid student data: Name is required and cannot be empty; Email format is invalid; Program is required and cannot be empty")).
  reflexivity.
Defined.

(** ** Create, delete and update when they succeed *)

Lemma list_find_snoc_fresh {A} (P : A → Prop) `{∀ x, Decision (P x)}
    (l : list A) (x : A) :
  list_find P l = None → P x → list_find P (l ++ [x]) = Some (length l, x).
Proof.
  intros Hn Hx. rewrite (list_find_app_r _ _ _ Hn). simpl.
  by rewrite decide_True.
Qed.

(** X5. Creating an entity whose key is not in the store and whose fields
    validate returns it, appends it at the end of the collection, writes the
    whole collection to the store's document, and makes it the entity [get]
    finds for that key. *)
Theorem create_appends_and_persists :
  ∀ (w : world),
    (∀ sid name email program,
       sid ∉ student_keys w →
       Student.validate (Student.mk sid name email program) = [] →
       let s := Student.mk sid name email program in
       let w' := snd (StudentService.create_student sid name email program w) in
       fst (StudentService.create_student sid name email program w) = Return s ∧
       students w' = students w ++ [s] ∧
       disk w' !! "students.json"
       = Some (Json (envelope "students" (Student.to_dict <$> (students w ++ [s]))
                       (current_time w))) ∧
       writes w' = writes w ++ ["students.json"] ∧
       fst (StudentService.get_student sid w') = Return (Some (length (students w), s))) ∧
    (∀ code name credits instructor,
       code ∉ course_keys w →
       Course.validate (Course.mk code name credits instructor) = [] →
       let c := Course.mk code name credits instructor in
       let w' := snd (CourseService.create_course code name credits instructor w) in
       fst (CourseService.create_course code name credits instructor w) = Return c ∧
       courses w' = courses w ++ [c] ∧
       disk w' !! "courses.json"
       = Some (Json (envelope "courses" (Course.to_dict <$> (courses w ++ [c]))
                       (current_time w))) ∧
       writes w' = writes w ++ ["courses.json"] ∧
       fst (CourseService.get_course code w') = Return (Some (length (courses w), c))).
Proof.
  intros w. split.
  - intros sid name email program Hk Hv. cbv zeta.
    rewrite create_student_run, (find_student_missing _ _ Hk). cbv zeta.
    rewrite Hv. cbn [nonempty fst snd].
    repeat split.
    + unfold persisted_students, persisted. cbn [disk].
      by rewrite lookup_insert_eq.
    + unfold StudentService.get_student. eff_unfold. cbn [fst]. f_equal.
      cbn [students persisted_students persisted set_students].
      apply list_find_snoc_fresh; [|done].
      by apply find_student_missing.
  - intros code name credits instructor Hk Hv. cbv zeta.
    rewrite create_course_run, (find_course_missing _ _ Hk). cbv zeta.
    rewrite Hv. cbn [nonempty fst snd].
    repeat split.
    + unfold persisted_courses, persisted. cbn [disk].
      by rewrite lookup_insert_eq.
    + unfold CourseService.get_course. eff_unfold. cbn [fst]. f_equal.
      cbn [courses persisted_courses persisted set_courses].
      apply list_find_snoc_fresh; [|done].
      by apply find_course_missing.
Qed.

Lemma create_appends_and_persists_witness :
  students (snd (StudentService.create_student "P2" "John" "john@x.com" "EE" campus))
  = students campus ++ [ Student.mk "P2" "John" "john@x.com" "EE" ].
Proof.
  apply (proj1 (create_appends_and_persists campus) "P2" "John" "john@x.com" "EE").
  - vm_compute. intros H. apply list_elem_of_singleton in H. discriminate.
  - reflexivity.
Defined.

Lemma filter_keeps_all {A} (p : A → bool) (l : list A) :
  (∀ x, x ∈ l → p x = true) → List.filter p l = l.
Proof.
  induction l as [|x l IH]; intros H; [done|].
  simpl. rewrite (H x) by apply list_elem_of_here.
  f_equal. apply IH. intros y Hy. apply H. by apply list_elem_of_further.
Qed.

(** With pairwise-distinct keys, removing the entity at a position is
    removing every entity with its key. *)
Lemma delete_is_filter {A} (key : A → string) (l : list A) (i : nat) (x : A) :
  NoDup (key <$> l) → l !! i = Some x →
  delete i l = List.filter (λ y, negb (bool_decide (key y = key x))) l.
Proof.
  revert i. induction l as [|y l IH]; intros i Hnd Hi; [done|].
  rewrite fmap_cons in Hnd. apply NoDup_cons in Hnd as [Hy Hnd].
  destruct i as [|i]; simpl in Hi.
  - injection Hi as ->. simpl. rewrite bool_decide_eq_true_2 by done. simpl.
    symmetry. apply filter_keeps_all. intros z Hz.
    apply negb_true_iff, bool_decide_eq_false. intros E.
    apply Hy. rewrite <- E. apply list_elem_of_fmap. by exists z.
  - simpl. rewrite bool_decide_eq_false_2; simpl.
    + f_equal. by apply IH.
    + intros E. apply Hy. rewrite E. apply list_elem_of_fmap. exists x.
      split; [done|]. by eapply list_elem_of_lookup_2.
Qed.

Lemma filter_key_absent {A} (key : A → string) (l : list A) (k : string) :
  k ∉ key <$> List.filter (λ y, negb (bool_decide (key y = k))) l.
Proof.
  intros (y & -> & Hy)%list_elem_of_fmap.
  apply list_elem_of_In, filter_In in Hy as [_ Hy].
  apply negb_true_iff, bool_decide_eq_false in Hy. done.
Qed.

Lemma delete_removes_the_key_aux (w : world) (sid : string) :
  sid ∈ student_keys w →
  fst (StudentService.delete_student sid w) = Return true ∧
  (NoDup (student_keys w) →
   sid ∉ student_keys (snd (StudentService.delete_student sid w))) ∧
  (NoDup (student_keys w) →
   students (snd (StudentService.delete_student sid w))
   = List.filter (λ s, negb (bool_decide (Student.student_id s = sid))) (students w)).
Proof.
  intros [[i s] Hf]%find_student_present.
  rewrite delete_student_run, Hf. cbn [fst snd].
  apply list_find_Some in Hf as (Hi & <- & _).
  assert (E : NoDup (student_keys w) →
              students (persisted_students (set_students (delete i (students w)) w))
              = List.filter
                  (λ y, negb (bool_decide (Student.student_id y = Student.student_id s)))
                  (students w)).
  { intros Hnd. cbn. by apply delete_is_filter. }
  split; [done|]. split; [|done].
  intros Hnd. unfold student_keys. rewrite (E Hnd). apply filter_key_absent.
Qed.

(** X6. Deleting a key that is not in the store returns false and changes
    nothing (no write); deleting a key that is there returns true and writes
    the collection; and when the keys of the store are pairwise distinct, what
    is left is the collection without the entities of that key, in the same
    order, so the key is gone. *)
Theorem delete_removes_the_key :
  ∀ (w : world),
    (∀ sid, sid ∉ student_keys w →
            StudentService.delete_student sid w = (Return false, w)) ∧
    (∀ sid, sid ∈ student_keys w →
            let w' := snd (StudentService.delete_student sid w) in
            fst (StudentService.delete_student sid w) = Return true ∧
            writes w' = writes w ++ ["students.json"] ∧
            (NoDup (student_keys w) →
             students w' = List.filter
                             (λ s, negb (bool_decide (Student.student_id s = sid)))
                             (students w) ∧
             sid ∉ student_keys w')) ∧
    (∀ code, code ∉ course_keys w →
             CourseService.delete_course code w = (Return false, w)) ∧
    (∀ code, code ∈ course_keys w →
             let w' := snd (CourseService.delete_course code w) in
             fst (CourseService.delete_course code w) = Return true ∧
             writes w' = writes w ++ ["courses.json"] ∧
             (NoDup (course_keys w) →
              courses w' = List.filter
                             (λ c, negb (bool_decide (Course.course_code c = code)))
                             (courses w) ∧
              code ∉ course_keys w')).
Proof.
  intros w. split; [|split; [|split]].
  - intros sid Hk. by rewrite delete_student_run, (find_student_missing _ _ Hk).
  - intros sid [[i s] Hf]%find_student_present. cbv zeta.
    rewrite delete_student_run, Hf. cbn [fst snd].
    apply list_find_Some in Hf as (Hi & <- & _).
    split; [done|]. split; [done|]. intros Hnd.
    assert (E : students
                  (persisted_students (set_students (delete i (students w)) w))
                = List.filter
                    (λ y, negb (bool_decide (Student.student_id y = Student.student_id s)))
                    (students w)).
    { cbn. by apply delete_is_filter. }
    split; [done|]. unfold student_keys. rewrite E. apply filter_key_absent.
  - intros code Hk. by rewrite delete_course_run, (find_course_missing _ _ Hk).
  - intros code [[i c] Hf]%find_course_present. cbv zeta.
    rewrite delete_course_run, Hf. cbn [fst snd].
    apply list_find_Some in Hf as (Hi & <- & _).
    split; [done|]. split; [done|]. intros Hnd.
    assert (E : courses
                  (persisted_courses (set_courses (delete i (courses w)) w))
                = List.filter
                    (λ y, negb (bool_decide (Course.course_code y = Course.course_code c)))
                    (courses w)).
    { cbn. by apply delete_is_filter. }
    split; [done|]. unfold course_keys. rewrite E. apply filter_key_absent.
Qed.

Lemma delete_removes_the_key_witness :
  students (snd (StudentService.delete_student "P1" campus)) = [].
Proof.
  apply (proj2 (proj2 (proj1 (proj2 (delete_removes_the_key campus)) "P1"
                         (list_elem_of_here _ _)))
           (NoDup_singleton "P1")).
Defined.

(** X7. An update whose staged entity validates returns the staged entity
    (the supplied fields replaced, the others kept, the key untouched), puts
    it at the position of the old one, leaves every other entity where it
    was, and writes the collection; this also happens when no field at all is
    supplied. *)
Theorem update_replaces_in_place :
  ∀ (w : world),
    (∀ sid name email program i s,
       list_find (λ s, Student.student_id s = sid) (students w) = Some (i, s) →
       Student.validate (staged_student s name email program) = [] →
       let s' := staged_student s name email program in
       let w' := snd (StudentService.update_student sid name email program w) in
       fst (StudentService.update_student sid name email program w) = Return s' ∧
       students w' = <[i := s']> (students w) ∧
       students w' !! i = Some s' ∧
       (∀ j, j ≠ i → students w' !! j = students w !! j) ∧
       length (students w') = length (students w) ∧
       Student.student_id s' = sid ∧
       writes w' = writes w ++ ["students.json"]) ∧
    (∀ code name credits instructor i c,
       list_find (λ c, Course.course_code c = code) (courses w) = Some (i, c) →
       Course.validate (staged_course c name credits instructor) = [] →
       let c' := staged_course c name credits instructor in
       let w' := snd (CourseService.update_course code name credits instructor w) in
       fst (CourseService.update_course code name credits instructor w) = Return c' ∧
       courses w' = <[i := c']> (courses w) ∧
       courses w' !! i = Some c' ∧
       (∀ j, j ≠ i → courses w' !! j = courses w !! j) ∧
       length (courses w') = length (courses w) ∧
       Course.course_code c' = code ∧
       writes w' = writes w ++ ["courses.json"]).
Proof.
  intros w. split.
  - intros sid name email program i s Hf Hv. cbv zeta.
    rewrite update_student_run, Hf. cbv zeta. rewrite Hv. cbn [nonempty fst snd].
    apply list_find_Some in Hf as (Hi & Hk & _).
    cbn [students persisted_students persisted set_students writes].
    repeat split; try done.
    + apply list_lookup_insert_eq. by eapply lookup_lt_Some.
    + intros j Hj. by apply list_lookup_insert_ne.
    + apply length_insert.
  - intros code name credits instructor i c Hf Hv. cbv zeta.
    rewrite update_course_run, Hf. cbv zeta. rewrite Hv. cbn [nonempty fst snd].
    apply list_find_Some in Hf as (Hi & Hk & _).
    cbn [courses persisted_courses persisted set_courses writes].
    repeat split; try done.
    + apply list_lookup_insert_eq. by eapply lookup_lt_Some.
    + intros j Hj. by apply list_lookup_insert_ne.
    + apply length_insert.
Qed.

Lemma update_replaces_in_place_witness :
  fst (StudentService.update_student "P1" None None None campus)
  = Return (Student.mk "P1" "Jane" "jane@x.com" "CS") ∧
  writes (snd (StudentService.update_student "P1" None None None campus))
  = ["students.json"].
Proof.
  pose proof (proj1 (update_replaces_in_place campus) "P1" None None None 0%nat
                (Student.mk "P1" "Jane" "jane@x.com" "CS") eq_refl eq_refl) as H.
  split; apply H.
Defined.

(** X8. Deleting a person or an offering does not cascade: the link store
    keeps every record, so the records of the deleted person and their average
    are what they were and a score can still be assigned to them, while a new
    link to a deleted person (the keys being pairwise distinct) fails with
    not-found. *)
Theorem delete_does_not_cascade :
  ∀ (w : world) (key : string),
    (let w' := snd (StudentService.delete_student key w) in
     enrollments w' = enrollments w ∧
     links_of_person key w' = links_of_person key w ∧
     fst (EnrollmentService.get_student_gpa key w')
     = fst (EnrollmentService.get_student_gpa key w) ∧
     (∀ code g, fst (EnrollmentService.assign_grade key code g w')
                = fst (EnrollmentService.assign_grade key code g w)) ∧
     (NoDup (student_keys w) →
      ∀ code, fst (EnrollmentService.enroll_student key code w')
              = Raise (ValueError ("Student with ID " +:+ key +:+ " not found.")))) ∧
    (let w' := snd (CourseService.delete_course key w) in
     enrollments w' = enrollments w ∧
     links_of_offering key w' = links_of_offering key w ∧
     fst (EnrollmentService.get_course_average key w')
     = fst (EnrollmentService.get_course_average key w) ∧
     (∀ sid g, fst (EnrollmentService.assign_grade sid key g w')
               = fst (EnrollmentService.assign_grade sid key g w))).
Proof.
  intros w key. split.
  - cbv zeta.
    assert (He : enrollments (snd (StudentService.delete_student key w))
                 = enrollments w).
    { rewrite delete_student_run. by destruct (list_find _ _) as [[i s]|]. }
    split; [done|]. split; [unfold links_of_person; by rewrite He|].
    split; [|split].
    + unfold EnrollmentService.get_student_gpa,
        EnrollmentService.get_student_enrollments.
      eff_unfold. cbn [fst]. by rewrite He.
    + intros code g. rewrite !assign_grade_run, He.
      destruct (list_find _ (enrollments w)) as [[i e]|]; [|done].
      cbv zeta. by destruct (nonempty _).
    + intros Hnd code.
      destruct (decide (key ∈ student_keys w)) as [Hin|Hout].
      * pose proof (proj1 (proj2 (delete_removes_the_key_aux w key Hin)) Hnd) as Hgone.
        rewrite enroll_student_run, (find_student_missing _ _ Hgone). done.
      * rewrite delete_student_run, (find_student_missing _ _ Hout). cbn [snd].
        rewrite enroll_student_run, (find_student_missing _ _ Hout). done.
  - cbv zeta.
    assert (He : enrollments (snd (CourseService.delete_course key w))
                 = enrollments w).
    { rewrite delete_course_run. by destruct (list_find _ _) as [[i s]|]. }
    split; [done|]. split; [unfold links_of_offering; by rewrite He|].
    split.
    + unfold EnrollmentService.get_course_average,
        EnrollmentService.get_course_enrollments.
      eff_unfold. cbn [fst]. by rewrite He.
    + intros sid g. rewrite !assign_grade_run, He.
      destruct (list_find _ (enrollments w)) as [[i e]|]; [|done].
      cbv zeta. by destruct (nonempty _).
Qed.

(** ** More on validation *)

Lemma append_assoc (a b c : string) : (a +:+ b) +:+ c = a +:+ b +:+ c.
Proof. induction a as [|x a IH]; [done|]. by rewrite !append_cons, IH. Qed.

Lemma lang_seq_iff (r1 r2 : Re.regex) (s : string) :
  Re.lang (Re.Seq r1 r2) s ↔ ∃ s1 s2, s = s1 +:+ s2 ∧ Re.lang r1 s1 ∧ Re.lang r2 s2.
Proof.
  split.
  - inversion 1; subst. eauto.
  - intros (s1 & s2 & -> & H1 & H2). by constructor.
Qed.

Lemma lang_class_iff (p : ascii → bool) (s : string) :
  Re.lang (Re.Class p) s ↔ ∃ c, s = String c "" ∧ p c = true.
Proof.
  split.
  - inversion 1; subst. eauto.
  - intros (c & -> & H). by constructor.
Qed.

Lemma lang_lit_iff (c : ascii) (s : string) :
  Re.lang (Re.lit c) s ↔ s = String c "".
Proof.
  unfold Re.lit. rewrite lang_class_iff. split.
  - intros (x & -> & ->%Ascii.eqb_eq). done.
  - intros ->. exists c. split; [done|]. apply Ascii.eqb_refl.
Qed.

Lemma lang_eps_iff (s : string) : Re.lang Re.Eps s ↔ s = "".
Proof. split; [by inversion 1|intros ->; constructor]. Qed.

Lemma lang_star_class (p : ascii → bool) (s : string) :
  Re.lang (Re.Star (Re.Class p)) s ↔ all_chars p s = true.
Proof.
  split.
  - intros H. remember (Re.Star (Re.Class p)) as r eqn:Er.
    induction H as [| | | | | |r0 s1 s2 H1 _ H2 IH2]; try discriminate; [done|].
    injection Er as ->. inversion H1; subst.
    rewrite append_cons, append_nil_l. simpl.
    apply andb_true_iff. split; [done|]. by apply IH2.
  - induction s as [|c s IH]; [constructor|].
    simpl. intros [Hc Hs]%andb_true_iff.
    change (String c s) with (String c "" +:+ s).
    constructor; [by constructor|by apply IH].
Qed.

Lemma lang_plus_class (p : ascii → bool) (s : string) :
  Re.lang (Re.plus (Re.Class p)) s ↔ s ≠ "" ∧ all_chars p s = true.
Proof.
  unfold Re.plus, Re.at_least. simpl. rewrite lang_seq_iff. split.
  - intros (s1 & s2 & -> & H1 & H2%lang_star_class).
    apply lang_seq_iff in H1 as (a & b & -> & (c & -> & Hc)%lang_class_iff
                                  & ->%lang_eps_iff).
    cbv [String.append]. split; [done|].
    cbn [all_chars]. by rewrite Hc, H2.
  - intros [Hne Hs]. destruct s as [|c s]; [done|].
    simpl in Hs. apply andb_true_iff in Hs as [Hc Hs].
    exists (String c ""), s. split; [done|]. split.
    + apply lang_seq_iff. exists (String c ""), "". split; [done|].
      split; [by constructor|constructor].
    + by apply lang_star_class.
Qed.

Lemma lang_two_or_more_class (p : ascii → bool) (s : string) :
  Re.lang (Re.at_least 2 (Re.Class p)) s ↔
  (2 ≤ String.length s)%nat ∧ all_chars p s = true.
Proof.
  unfold Re.at_least. simpl. rewrite lang_seq_iff. split.
  - intros (s1 & s2 & -> & H1 & H2%lang_star_class).
    apply lang_seq_iff in H1 as (a & b & -> & (c & -> & Hc)%lang_class_iff & H1).
    apply lang_seq_iff in H1 as (a' & b' & -> & (d & -> & Hd)%lang_class_iff
                                   & ->%lang_eps_iff).
    cbv [String.append]. split; [simpl; lia|].
    cbn [all_chars]. by rewrite Hc, Hd, H2.
  - intros [Hlen Hs]. destruct s as [|c [|d s]]; simpl in Hlen; try lia.
    simpl in Hs. apply andb_true_iff in Hs as [Hc Hs].
    apply andb_true_iff in Hs as [Hd Hs].
    exists (String c (String d "")), s. split; [done|]. split.
    + apply lang_seq_iff. exists (String c ""), (String d ""). split; [done|].
      split; [by constructor|].
      apply lang_seq_iff. exists (String d ""), "". split; [done|].
      split; [by constructor|constructor].
    + by apply lang_star_class.
Qed.

(** The language of the email pattern is the shape local@domain.tld. *)
Lemma email_pattern_shape (s : string) :
  Re.fullmatch Student.email_pattern s = true ↔ email_shape s.
Proof.
  rewrite fullmatch_lang. unfold Student.email_pattern, email_shape.
  rewrite lang_seq_iff. split.
  - intros (loc & r1 & -> & [Hl1 Hl2]%lang_plus_class & H).
    apply lang_seq_iff in H as (x & r2 & -> & ->%lang_lit_iff & H).
    apply lang_seq_iff in H as (dom & r3 & -> & [Hd1 Hd2]%lang_plus_class & H).
    apply lang_seq_iff in H as (y & tld & -> & ->%lang_lit_iff
                                  & [Ht1 Ht2]%lang_two_or_more_class).
    by exists loc, dom, tld.
  - intros (loc & dom & tld & -> & Hl1 & Hl2 & Hd1 & Hd2 & Ht1 & Ht2).
    exists loc, ("@" +:+ dom +:+ "." +:+ tld). split; [done|].
    split; [by apply lang_plus_class|].
    apply lang_seq_iff. exists "@", (dom +:+ "." +:+ tld). split; [done|].
    split; [by apply lang_lit_iff|].
    apply lang_seq_iff. exists dom, ("." +:+ tld). split; [done|].
    split; [by apply lang_plus_class|].
    apply lang_seq_iff. exists ".", tld. split; [done|].
    split; [by apply lang_lit_iff|by apply lang_two_or_more_class].
Qed.

Lemma seven_char_code_iff (s : string) :
  Re.fullmatch Course.code_pattern s = true ↔ seven_char_code s.
Proof. apply code_pattern_exact. Qed.

Lemma accepted_code_not_blank (s : string) :
  Course._is_valid_course_code s = true → blank s = false.
Proof.
  intros [H|(t & -> & H)]%course_code_accepted.
  - by apply code_not_blank.
  - unfold blank. rewrite all_space_app.
    apply code_not_blank in H. unfold blank in H. by rewrite H.
Qed.

Lemma accepted_email_not_blank (s : string) :
  Student._is_valid_email s = true → blank s = false.
Proof.
  unfold Student._is_valid_email.
  intros [H|(t & -> & H)]%match_anchored_spec.
  - by apply email_not_blank.
  - unfold blank. rewrite all_space_app.
    apply email_not_blank in H. unfold blank in H. by rewrite H.
Qed.

(** X13. [_is_valid_course_code] accepts every code made of three capital
    letters and four of the digits 0 to 9, and that code followed by one
    newline; whatever it accepts has seven characters, or eight of which the
    last is a newline, and begins with three capital letters A to Z.  (The
    four other characters are those [\d] matches: among the characters of
    this embedding the digits 0 to 9, in Python the decimal digits of other
    scripts as well, which is why the converse says nothing of them.)
    [_is_valid_email] accepts exactly the addresses of the shape
    local@domain.tld (local part of letters, digits and [._%+-]; domain of
    letters, digits, dots and hyphens; last label of at least two letters) and
    those addresses followed by one newline. *)
Theorem accepted_codes_and_emails :
  (∀ s, seven_char_code s →
        Course._is_valid_course_code s = true ∧
        Course._is_valid_course_code (s +:+ String Re.newline "") = true) ∧
  (∀ s, Course._is_valid_course_code s = true →
        three_capitals_then_four s ∨
        ∃ t, s = t +:+ String Re.newline "" ∧ three_capitals_then_four t) ∧
  (∀ s, Student._is_valid_email s = true ↔
        email_shape s ∨
        ∃ t, s = t +:+ String Re.newline "" ∧ email_shape t).
Proof.
  assert (Hweak : ∀ t, seven_char_code t → three_capitals_then_four t).
  { intros t (a & b & c & d & e & f & g & -> & Ha & Hb & Hc & _).
    by exists a, b, c, d, e, f, g. }
  split; [|split]; intros s.
  - intros Hs. split; apply course_code_accepted.
    + left. by apply seven_char_code_iff.
    + right. exists s. split; [done|]. by apply seven_char_code_iff.
  - intros [H|(t & -> & H)]%course_code_accepted.
    + left. by apply Hweak, seven_char_code_iff.
    + right. exists t. split; [done|]. by apply Hweak, seven_char_code_iff.
  - unfold Student._is_valid_email.
    rewrite match_anchored_spec, email_pattern_shape.
    by setoid_rewrite email_pattern_shape.
Qed.

(** X14. [validate] returns the empty list exactly when every test of the
    entity passes: for an offering, an accepted code, a title and an
    instructor that are not blank and credits in 1..6; for a person, an
    identifier, a name and a program that are not blank and an accepted
    email; for a link record, two references that are not blank and a score
    that is absent or in 0..100. *)
Theorem validate_clean_iff :
  (∀ c, Course.validate c = [] ↔
        Course._is_valid_course_code (Course.course_code c) = true ∧
        blank (Course.name c) = false ∧
        (1 ≤ Course.credits c ≤ 6)%Z ∧
        blank (Course.instructor c) = false) ∧
  (∀ s, Student.validate s = [] ↔
        blank (Student.student_id s) = false ∧
        blank (Student.name s) = false ∧
        Student._is_valid_email (Student.email s) = true ∧
        blank (Student.program s) = false) ∧
  (∀ e, Enrollment.validate e = [] ↔
        blank (Enrollment.student_id e) = false ∧
        blank (Enrollment.course_code e) = false ∧
        (∀ g, Enrollment.grade e = Some g → (0 <= g)%Q ∧ (g <= 100)%Q)).
Proof.
  split; [|split].
  - intros c. unfold Course.validate, Course.isinstance_int.
    rewrite !missing_blank. cbv zeta. cbn [negb].
    pose proof (accepted_code_not_blank (Course.course_code c)) as Hnb.
    assert (Hcr : (1 ≤ Course.credits c ≤ 6)%Z ↔
                  ((1 <=? Course.credits c)%Z && (Course.credits c <=? 6)%Z) = true).
    { rewrite andb_true_iff, !Z.leb_le. done. }
    rewrite Hcr. clear Hcr.
    destruct (Course._is_valid_course_code (Course.course_code c));
      [rewrite (Hnb eq_refl)|destruct (blank (Course.course_code c))];
      destruct (blank (Course.name c)),
        ((1 <=? Course.credits c)%Z && (Course.credits c <=? 6)%Z),
        (blank (Course.instructor c)); simpl; intuition congruence.
  - intros s. unfold Student.validate. rewrite !missing_blank. cbv zeta.
    pose proof (accepted_email_not_blank (Student.email s)) as Hnb.
    destruct (Student._is_valid_email (Student.email s));
      [rewrite (Hnb eq_refl)|destruct (blank (Student.email s))];
      destruct (blank (Student.student_id s)), (blank (Student.name s)),
        (blank (Student.program s)); simpl; intuition congruence.
  - intros e. unfold Enrollment.validate, Enrollment.isinstance_number.
    rewrite !missing_blank. cbv zeta. cbn [negb].
    destruct (Enrollment.grade e) as [g|].
    + assert (Hg : (∀ g', Some g = Some g' → (0 <= g')%Q ∧ (g' <= 100)%Q) ↔
                   Qle_bool 0 g && Qle_bool g 100 = true).
      { rewrite andb_true_iff, !Qle_bool_iff. split.
        - intros H. by apply H.
        - intros H g' [= <-]. done. }
      rewrite Hg. clear Hg.
      destruct (Qle_bool 0 g && Qle_bool g 100),
        (blank (Enrollment.student_id e)), (blank (Enrollment.course_code e));
        simpl; intuition congruence.
    + destruct (blank (Enrollment.student_id e)),
        (blank (Enrollment.course_code e)); simpl; intuition congruence.
Qed.

Ltac nodup_strings :=
  repeat (apply NoDup_cons; split;
          [rewrite ?elem_of_cons, elem_of_nil; intuition discriminate|]);
  apply NoDup_nil_2.

(** X15. [validate] reports every field that fails, once: the number of
    messages is the number of failing fields (a code that is blank or not
    accepted counts once, as does an email), so at most four for a person or
    an offering and three for a link record, and no message is repeated. *)
Theorem validate_reports_each_field_once :
  (∀ c, length (Course.validate c)
        = (Nat.b2n (blank (Course.course_code c)
                    || negb (Course._is_valid_course_code (Course.course_code c)))
           + Nat.b2n (blank (Course.name c))
           + Nat.b2n (negb ((1 <=? Course.credits c)%Z && (Course.credits c <=? 6)%Z))
           + Nat.b2n (blank (Course.instructor c)))%nat
        ∧ NoDup (Course.validate c)) ∧
  (∀ s, length (Student.validate s)
        = (Nat.b2n (blank (Student.student_id s))
           + Nat.b2n (blank (Student.name s))
           + Nat.b2n (blank (Student.email s)
                      || negb (Student._is_valid_email (Student.email s)))
           + Nat.b2n (blank (Student.program s)))%nat
        ∧ NoDup (Student.validate s)) ∧
  (∀ e, length (Enrollment.validate e)
        = (Nat.b2n (blank (Enrollment.student_id e))
           + Nat.b2n (blank (Enrollment.course_code e))
           + Nat.b2n (match Enrollment.grade e with
                      | Some g => negb (Qle_bool 0 g && Qle_bool g 100)
                      | None => false
                      end))%nat
        ∧ NoDup (Enrollment.validate e)).
Proof.
  split; [|split].
  - intros c. unfold Course.validate, Course.isinstance_int.
    rewrite !missing_blank. cbv zeta. cbn [negb].
    destruct (blank (Course.course_code c)),
      (Course._is_valid_course_code (Course.course_code c)),
      (blank (Course.name c)),
      ((1 <=? Course.credits c)%Z && (Course.credits c <=? 6)%Z),
      (blank (Course.instructor c)); simpl;
      (split; [reflexivity|]); nodup_strings.
  - intros s. unfold Student.validate. rewrite !missing_blank. cbv zeta.
    destruct (blank (Student.student_id s)), (blank (Student.name s)),
      (blank (Student.email s)), (Student._is_valid_email (Student.email s)),
      (blank (Student.program s)); simpl;
      (split; [reflexivity|]); nodup_strings.
  - intros e. unfold Enrollment.validate, Enrollment.isinstance_number.
    rewrite !missing_blank. cbv zeta. cbn [negb].
    destruct (Enrollment.grade e) as [g|];
      [destruct (Qle_bool 0 g && Qle_bool g 100)|];
      destruct (blank (Enrollment.student_id e)),
        (blank (Enrollment.course_code e)); simpl;
      (split; [reflexivity|]); nodup_strings.
Qed.

(** ** Dictionaries and documents *)

(** X16. [from_dict] reads exactly its four fields: it raises [KeyError] for
    the first of them (in the order of the constructor's arguments) that the
    dictionary lacks, and otherwise builds the entity from their values
    whatever else the dictionary holds; in particular it inverts [to_dict].
    For a link record, a missing grade is an absent score and a grade that
    is a number is the score; a missing date is the current time (the clock
    is read), and a date in the form [isoformat] writes is read back without
    touching the clock. *)
Theorem from_dict_reads_its_fields :
  (∀ m : gmap string json,
     (m !! "student_id" = None →
      Student.from_dict (JObj m) = Raise (KeyError "student_id")) ∧
     (is_Some (m !! "student_id") → m !! "name" = None →
      Student.from_dict (JObj m) = Raise (KeyError "name")) ∧
     (is_Some (m !! "student_id") → is_Some (m !! "name") → m !! "email" = None →
      Student.from_dict (JObj m) = Raise (KeyError "email")) ∧
     (is_Some (m !! "student_id") → is_Some (m !! "name") →
      is_Some (m !! "email") → m !! "program" = None →
      Student.from_dict (JObj m) = Raise (KeyError "program")) ∧
     (∀ a b c d,
        m !! "student_id" = Some (JStr a) → m !! "name" = Some (JStr b) →
        m !! "email" = Some (JStr c) → m !! "program" = Some (JStr d) →
        Student.from_dict (JObj m) = Return (Student.mk a b c d))) ∧
  (∀ m : gmap string json,
     (m !! "course_code" = None →
      Course.from_dict (JObj m) = Raise (KeyError "course_code")) ∧
     (is_Some (m !! "course_code") → m !! "name" = None →
      Course.from_dict (JObj m) = Raise (KeyError "name")) ∧
     (is_Some (m !! "course_code") → is_Some (m !! "name") →
      m !! "credits" = None →
      Course.from_dict (JObj m) = Raise (KeyError "credits")) ∧
     (is_Some (m !! "course_code") → is_Some (m !! "name") →
      is_Some (m !! "credits") → m !! "instructor" = None →
      Course.from_dict (JObj m) = Raise (KeyError "instructor")) ∧
     (∀ a b c d,
        m !! "course_code" = Some (JStr a) → m !! "name" = Some (JStr b) →
        m !! "credits" = Some (JInt c) → m !! "instructor" = Some (JStr d) →
        Course.from_dict (JObj m) = Return (Course.mk a b c d))) ∧
  (∀ s, Student.from_dict (Student.to_dict s) = Return s) ∧
  (∀ c, Course.from_dict (Course.to_dict c) = Return c) ∧
  (∀ (m : gmap string json) (k : Clock.t) a b,
     m !! "student_id" = Some (JStr a) → m !! "course_code" = Some (JStr b) →
     m !! "grade" = None →
     (m !! "enrollment_date" = None →
      Enrollment.from_dict (JObj m) k
      = (Return (Enrollment.mk a b None (Clock.readings k (Clock.ticks k))),
         Clock.mk (Clock.readings k) (S (Clock.ticks k)))) ∧
     (∀ d, m !! "enrollment_date" = Some (JStr (Datetime.isoformat d)) →
           Datetime.valid d = true →
           Enrollment.from_dict (JObj m) k = (Return (Enrollment.mk a b None d), k))) ∧
  (∀ (m : gmap string json) (k : Clock.t) a b g d,
     m !! "student_id" = Some (JStr a) → m !! "course_code" = Some (JStr b) →
     m !! "grade" = Some (JNum g) →
     m !! "enrollment_date" = Some (JStr (Datetime.isoformat d)) →
     Datetime.valid d = true →
     Enrollment.from_dict (JObj m) k = (Return (Enrollment.mk a b (Some g) d), k)).
Proof.
  split; [|split; [|split; [|split; [|split]]]].
  - intros m. unfold Student.from_dict, getitem. repeat split.
    + by intros ->.
    + by intros [? ->] ->.
    + by intros [? ->] [? ->] ->.
    + by intros [? ->] [? ->] [? ->] ->.
    + by intros a b c d -> -> -> ->.
  - intros m. unfold Course.from_dict, getitem. repeat split.
    + by intros ->.
    + by intros [? ->] ->.
    + by intros [? ->] [? ->] ->.
    + by intros [? ->] [? ->] [? ->] ->.
    + by intros a b c d -> -> -> ->.
  - apply student_roundtrip.
  - apply course_roundtrip.
  - intros m k a b H1 H2 H3. unfold Enrollment.from_dict, getitem, dict_get.
    rewrite H1, H2, H3. split.
    + by intros ->.
    + intros d -> Hd. by rewrite (fromisoformat_isoformat d Hd).
  - intros m k a b g d H1 H2 H3 H4 Hd.
    unfold Enrollment.from_dict, getitem, dict_get.
    by rewrite H1, H2, H3, H4, (fromisoformat_isoformat d Hd).
Qed.

Lemma from_dict_reads_its_fields_witness :
  Student.from_dict
    (JObj {[ "student_id" := JStr "P1"; "name" := JStr "Jane";
             "email" := JStr "jane@x.com"; "program" := JStr "CS";
             "nickname" := JStr "JJ" ]})
  = Return (Student.mk "P1" "Jane" "jane@x.com" "CS") ∧
  Student.from_dict (JObj {[ "student_id" := JStr "P1" ]}) = Raise (KeyError "name").
Proof.
  split.
  - apply (proj1 from_dict_reads_its_fields); reflexivity.
  - apply (proj1 from_dict_reads_its_fields); [by eexists|reflexivity].
Defined.






(** X18. Saving a collection always succeeds, overwrites the collection's
    document as a whole with the envelope (the array of dictionaries and the
    metadata: version "1.0", the time of the write, the number of entities),
    records one write, and touches neither another document nor any
    collection in memory; the last save wins: after two saves, loading gives
    the second collection. *)
Theorem save_overwrites_whole_document :
  ∀ (w : world) (l1 l2 : list Student.t),
    let w1 := snd (FileHandler.save_students l1 w) in
    let w2 := snd (FileHandler.save_students l2 w1) in
    fst (FileHandler.save_students l1 w) = Return () ∧
    disk w1 !! "students.json"
    = Some (Json (envelope "students" (Student.to_dict <$> l1) (current_time w))) ∧
    (∀ name, name ≠ "students.json" → disk w1 !! name = disk w !! name) ∧
    writes w1 = writes w ++ ["students.json"] ∧
    students w1 = students w ∧ courses w1 = courses w ∧
    enrollments w1 = enrollments w ∧
    FileHandler.load_students w2 = (Return l2, w2).
Proof.
  intros w l1 l2.
  change (FileHandler.save_students l1 w)
    with (Return (), persisted "students.json" "students" (Student.to_dict <$> l1) w).
  cbn [fst snd]. cbv zeta.
  change (FileHandler.save_students l2
            (persisted "students.json" "students" (Student.to_dict <$> l1) w))
    with (Return (),
          persisted "students.json" "students" (Student.to_dict <$> l2)
            (persisted "students.json" "students" (Student.to_dict <$> l1) w)).
  cbn [fst snd].
  repeat split.
  - unfold persisted. cbn [disk]. by rewrite lookup_insert_eq.
  - intros name Hn. by apply persisted_disk_other.
  - apply (load_persisted "students.json" "students" _ Student.to_dict).
    intros s w' _. unfold lift. by rewrite student_roundtrip.
Qed.

Lemma file_map_cases (file_type source : string) :
  FileHandler.file_map !! file_type = Some source →
  (file_type = "students" ∧ source = "students.json") ∨
  (file_type = "courses" ∧ source = "courses.json") ∨
  (file_type = "enrollments" ∧ source = "enrollments.json").
Proof.
  unfold FileHandler.file_map.
  rewrite !lookup_insert_Some, lookup_singleton_Some. intuition congruence.
Qed.

Lemma create_backup_run (w : world) (file_type : string) :
  FileHandler.create_backup file_type w =
  match FileHandler.file_map !! file_type with
  | None => (Raise (ValueError ("Invalid file type: " +:+ file_type)), w)
  | Some source =>
      match disk w !! source with
      | None => (Return None, w)
      | Some content =>
          let name := file_type +:+ "_"
                      +:+ FileHandler.strftime_stamp (current_time w) +:+ ".bak" in
          (Return (Some (FileHandler.file_path (data_dir w) name)),
           mkWorld (data_dir w)
             (Clock.mk (Clock.readings (clock w)) (S (Clock.ticks (clock w))))
             (<[name := content]> (disk w)) (writes w ++ [name])
             (students w) (courses w) (enrollments w))
      end
  end.
Proof.
  unfold FileHandler.create_backup.
  destruct (FileHandler.file_map !! file_type) as [source|]; [|done].
  eff_unfold. by destruct (disk w !! source).
Qed.

Lemma stamp_from_1000 (d : Datetime.t) :
  (1000 <= Datetime.year d)%N →
  FileHandler.strftime_stamp d
  = Datetime.zfill 4 (Datetime.year d) "" +:+ Datetime.zfill 2 (Datetime.month d) ""
    +:+ Datetime.zfill 2 (Datetime.day d) "" +:+ "_"
    +:+ Datetime.zfill 2 (Datetime.hour d) "" +:+ Datetime.zfill 2 (Datetime.minute d) ""
    +:+ Datetime.zfill 2 (Datetime.second d) "".
Proof.
  intros H. unfold FileHandler.strftime_stamp, FileHandler.year_digits.
  assert (E : ∀ k, (k <= 1000)%N → (Datetime.year d <? k)%N = false)
    by (intros k Hk; apply N.ltb_ge; lia).
  by rewrite (E 10%N), (E 100%N), (E 1000%N) by lia.
Qed.

(** X19. [create_backup] raises [ValueError] for a file type other than
    "students", "courses" and "enrollments" and returns [None] when the
    document does not exist yet, changing nothing in both cases; otherwise,
    in a year from 1000 on, it returns the path in the data directory of the
    file [<type>_<YYYYMMDD_HHMMSS>.bak], which then holds the content of the
    document, while every other file (so the three documents, the source
    among them) and the collections in memory are as before. *)
Theorem create_backup_copies_the_document :
  ∀ (w : world) (file_type : string),
    (file_type ∉ ["students"; "courses"; "enrollments"] →
     FileHandler.create_backup file_type w
     = (Raise (ValueError ("Invalid file type: " +:+ file_type)), w)) ∧
    (∀ source,
       FileHandler.file_map !! file_type = Some source →
       disk w !! source = None →
       FileHandler.create_backup file_type w = (Return None, w)) ∧
    (∀ source content,
       FileHandler.file_map !! file_type = Some source →
       disk w !! source = Some content →
       (1000 <= Datetime.year (current_time w))%N →
       let now := current_time w in
       let name := file_type +:+ "_"
                   +:+ Datetime.zfill 4 (Datetime.year now) ""
                   +:+ Datetime.zfill 2 (Datetime.month now) ""
                   +:+ Datetime.zfill 2 (Datetime.day now) "" +:+ "_"
                   +:+ Datetime.zfill 2 (Datetime.hour now) ""
                   +:+ Datetime.zfill 2 (Datetime.minute now) ""
                   +:+ Datetime.zfill 2 (Datetime.second now) "" +:+ ".bak" in
       let w' := snd (FileHandler.create_backup file_type w) in
       fst (FileHandler.create_backup file_type w)
       = Return (Some (FileHandler.file_path (data_dir w) name)) ∧
       disk w' !! name = Some content ∧
       (∀ other, other ≠ name → disk w' !! other = disk w !! other) ∧
       (name ∉ ["students.json"; "courses.json"; "enrollments.json"]) ∧
       disk w' !! source = Some content ∧
       data_dir w' = data_dir w ∧
       students w' = students w ∧ courses w' = courses w ∧
       enrollments w' = enrollments w).
Proof.
  intros w file_type. rewrite create_backup_run. split; [|split].
  - intros Hn.
    assert (E : FileHandler.file_map !! file_type = None).
    { destruct (FileHandler.file_map !! file_type) as [source|] eqn:E; [|done].
      exfalso. apply Hn.
      destruct (file_map_cases _ _ E) as [[-> _]|[[-> _]|[-> _]]];
        repeat first [apply list_elem_of_here | apply list_elem_of_further]. }
    by rewrite E.
  - by intros source -> ->.
  - intros source content Hm Hs Hy. cbv zeta. rewrite Hm, Hs.
    rewrite (stamp_from_1000 _ Hy).
    cbn [fst snd disk data_dir students courses enrollments].
    set (name := file_type +:+ "_" +:+ _).
    assert (Hname : name ∉ ["students.json"; "courses.json"; "enrollments.json"]).
    { unfold name.
      destruct (file_map_cases _ _ Hm) as [[-> _]|[[-> _]|[-> _]]];
        cbv [String.append];
        rewrite !elem_of_cons, elem_of_nil; intros [H|[H|[H|[]]]];
        discriminate H. }
    split; [done|]. split; [by rewrite lookup_insert_eq|].
    split; [intros other Ho; by rewrite lookup_insert_ne|].
    split; [done|]. split; [|done].
    rewrite lookup_insert_ne; [done|]. intros ->. apply Hname.
    destruct (file_map_cases _ _ Hm) as [[_ ->]|[[_ ->]|[_ ->]]];
      repeat first [apply list_elem_of_here | apply list_elem_of_further].
Qed.

Lemma create_backup_copies_the_document_witness :
  fst (FileHandler.create_backup "students" (persisted_students campus))
  = Return (Some "data/students_20240115_103000.bak") ∧
  FileHandler.create_backup "students" campus = (Return None, campus) ∧
  FileHandler.create_backup "grades" campus
  = (Raise (ValueError "Invalid file type: grades"), campus).
Proof.
  split; [|split].
  - apply (proj2 (proj2 (create_backup_copies_the_document
                           (persisted_students campus) "students"))
             "students.json"
             (Json (envelope "students" (Student.to_dict <$> students campus)
                      sample_date)));
      [reflexivity|reflexivity|vm_compute; discriminate].
  - apply (proj1 (proj2 (create_backup_copies_the_document campus "students"))
             "students.json"); reflexivity.
  - apply (proj1 (create_backup_copies_the_document campus "grades")).
    rewrite !elem_of_cons, elem_of_nil. intros [H|[H|[H|[]]]]; discriminate H.
Defined.

(** ** More on grades and averages *)








Lemma Qle_bool_cases (k g : Q) :
  (Qle_bool k g = true ∧ (k <= g)%Q) ∨ (Qle_bool k g = false ∧ (g < k)%Q).
Proof.
  destruct (Qle_bool k g) eqn:E.
  - left. split; [done|]. by apply Qle_bool_iff.
  - right. split; [done|]. apply Qnot_le_lt. intros H.
    apply Qle_bool_iff in H. congruence.
Qed.

Ltac band_split g :=
  repeat match goal with
         | |- context [Qle_bool ?k g] =>
             let H := fresh "Hb" in
             destruct (Qle_bool_cases k g) as [[-> H]|[-> H]]
         end.

(** X21. The letter grade is monotone in the score: of two scored records,
    the one with the higher (or equal) score never gets the lower letter, the
    letters being ranked F < D < D+ < C < C+ < B < B+ < A < A+. *)
Theorem letter_grade_is_monotone :
  ∀ (e1 e2 : Enrollment.t) (g1 g2 : Q),
    Enrollment.grade e1 = Some g1 → Enrollment.grade e2 = Some g2 →
    (g1 <= g2)%Q →
    (letter_rank (Enrollment.calculate_letter_grade e1)
     ≤ letter_rank (Enrollment.calculate_letter_grade e2))%nat.
Proof.
  intros e1 e2 g1 g2 H1 H2 Hle.
  unfold Enrollment.calculate_letter_grade. rewrite H1, H2.
  band_split g1; band_split g2;
    first [ exfalso; lra | vm_compute; lia ].
Qed.

Lemma letter_grade_is_monotone_witness :
  (letter_rank (Enrollment.calculate_letter_grade
                  (Enrollment.mk "S001" "CSC1234" (Some 70%Q) sample_date))
   ≤ letter_rank (Enrollment.calculate_letter_grade
                    (Enrollment.mk "S002" "CSC1234" (Some 90%Q) sample_date)))%nat.
Proof.
  apply (letter_grade_is_monotone _ _ 70%Q 90%Q); [reflexivity|reflexivity|].
  apply Qle_bool_iff. reflexivity.
Defined.

(** ** More on search *)

Lemma lower_truthy (s : string) : Str.truthy (Str.lower s) = Str.truthy s.
Proof. by destruct s. Qed.

Lemma lower_char_idem (c : ascii) :
  Str.lower_char (Str.lower_char c) = Str.lower_char c.
Proof. destruct c as [[] [] [] [] [] [] [] []]; vm_compute; reflexivity. Qed.

Lemma lower_idem (s : string) : Str.lower (Str.lower s) = Str.lower s.
Proof.
  induction s as [|c s IH]; [done|]. simpl. by rewrite lower_char_idem, IH.
Qed.

Lemma lower_eq_truthy (a b : string) :
  Str.lower a = Str.lower b → Str.truthy a = Str.truthy b.
Proof. intros H. by rewrite <- (lower_truthy a), <- (lower_truthy b), H. Qed.

Lemma narrow_same_lower (a b : string) (field : Course.t → string)
    (l : list Course.t) :
  Str.lower a = Str.lower b →
  CourseService.narrow (Some a) field l = CourseService.narrow (Some b) field l.
Proof.
  intros H. unfold CourseService.narrow.
  by rewrite (lower_eq_truthy a b H), H.
Qed.

Lemma filter_and_sublist {A} (p q : A → bool) (l : list A) :
  List.filter (λ x, p x && q x) l `sublist_of` List.filter p l.
Proof.
  induction l as [|x l IH]; [constructor|].
  simpl. destruct (p x); simpl; [|done].
  destruct (q x); by constructor.
Qed.

(** X22. The search ignores the case of the text typed for a substring
    criterion: two texts with the same lower-case form (a text and its
    lower-case form, for one) give the same result; adding the program
    criterion to a search by name only narrows the result, in the same order;
    and a search without criteria returns the whole collection. *)
Theorem search_ignores_case_and_narrows :
  ∀ (w : world),
    (∀ a b program,
       Str.lower a = Str.lower b →
       StudentService.search_students (Some a) program w
       = StudentService.search_students (Some b) program w) ∧
    (∀ a program,
       StudentService.search_students (Some (Str.lower a)) program w
       = StudentService.search_students (Some a) program w) ∧
    (∀ a b name instructor,
       Str.lower a = Str.lower b →
       CourseService.search_courses (Some a) name instructor w
       = CourseService.search_courses (Some b) name instructor w) ∧
    (∀ a b code instructor,
       Str.lower a = Str.lower b →
       CourseService.search_courses code (Some a) instructor w
       = CourseService.search_courses code (Some b) instructor w) ∧
    (∀ a b code name,
       Str.lower a = Str.lower b →
       CourseService.search_courses code name (Some a) w
       = CourseService.search_courses code name (Some b) w) ∧
    (∀ name program r r0,
       fst (StudentService.search_students name program w) = Return r →
       fst (StudentService.search_students name None w) = Return r0 →
       r `sublist_of` r0) ∧
    StudentService.search_students None None w = (Return (students w), w) ∧
    CourseService.search_courses None None None w = (Return (courses w), w).
Proof.
  intros w.
  assert (Hs : ∀ a b program,
            Str.lower a = Str.lower b →
            StudentService.search_students (Some a) program w
            = StudentService.search_students (Some b) program w).
  { intros a b program H. unfold StudentService.search_students. eff_unfold.
    by rewrite (lower_eq_truthy a b H), H. }
  split; [exact Hs|]. split.
  { intros a program. apply Hs. apply lower_idem. }
  split.
  { intros a b name instructor H. unfold CourseService.search_courses. eff_unfold.
    by rewrite (narrow_same_lower a b _ _ H). }
  split.
  { intros a b code instructor H. unfold CourseService.search_courses. eff_unfold.
    by rewrite (narrow_same_lower a b _ _ H). }
  split.
  { intros a b code name H. unfold CourseService.search_courses. eff_unfold.
    by rewrite (narrow_same_lower a b _ _ H). }
  split; [|by split].
  intros name program r r0. rewrite !search_students_run. cbn [fst].
  intros [= <-] [= <-].
  assert (E : List.filter (student_matches (applied name) (applied None)) (students w)
              = List.filter
                  (λ s, if applied name is Some text
                        then ci_contains text (Student.name s) else true)
                  (students w)).
  { apply filter_ext_bool. intros s. unfold student_matches. cbn.
    by rewrite andb_true_r. }
  change (applied None) with (@None string) in E.
  rewrite E. apply filter_and_sublist.
Qed.

Lemma search_ignores_case_and_narrows_witness :
  StudentService.search_students (Some "JANE") None campus
  = StudentService.search_students (Some "jane") None campus.
Proof.
  apply (proj1 (search_ignores_case_and_narrows campus) "JANE" "jane" None).
  reflexivity.
Defined.

(** ** The command-line handlers *)

Lemma rstrip_last_not_space (s t : string) (c : ascii) :
  Str.rstrip s = t +:+ String c "" → Str.isspace c = false.
Proof.
  revert t. induction s as [|a s IH]; intros t; simpl.
  - destruct t; cbv [String.append]; discriminate.
  - destruct (Str.isspace a && negb (Str.truthy (Str.rstrip s))) eqn:E.
    + destruct t; cbv [String.append]; discriminate.
    + destruct t as [|b t]; cbv [String.append]; fold String.append.
      * intros [= -> Hr]. rewrite Hr in E. simpl in E.
        by rewrite andb_true_r in E.
      * intros [= _ Hr]. by apply (IH t).
Qed.

Lemma strip_last_not_space (s t : string) (c : ascii) :
  Str.strip s = t +:+ String c "" → Str.isspace c = false.
Proof. apply rstrip_last_not_space. Qed.

(** On trimmed text the anchored match is the exact match: the text cannot
    end in a newline. *)
Lemma anchored_on_stripped (r : Re.regex) (s : string) :
  Re.match_anchored r (Str.strip s) = true → Re.fullmatch r (Str.strip s) = true.
Proof.
  intros [H|(t & Ht & _)]%match_anchored_spec; [done|].
  by apply strip_last_not_space in Ht.
Qed.

Lemma student_clean_fields (s : Student.t) :
  Student.validate s = [] →
  blank (Student.student_id s) = false ∧ blank (Student.name s) = false ∧
  Student._is_valid_email (Student.email s) = true ∧
  blank (Student.program s) = false.
Proof.
  unfold Student.validate. rewrite !missing_blank.
  destruct (blank (Student.student_id s)), (blank (Student.name s)),
    (blank (Student.email s)), (Student._is_valid_email (Student.email s)),
    (blank (Student.program s)); simpl; intros H; try discriminate H; done.
Qed.

Lemma printed_app (a b : list CLI.io_event) : printed (a ++ b) = printed a ++ printed b.
Proof. apply omap_app. Qed.

Lemma printed_lines (lines : list string) : printed (CLI.Printed <$> lines) = lines.
Proof.
  induction lines as [|l lines IH]; [done|].
  change (l :: printed (CLI.Printed <$> lines) = l :: lines). by rewrite IH.
Qed.

Lemma print_each_run (lines : list string) (st : CLI.state) :
  CLI.print_each lines st
  = (Return (), CLI.mk (CLI.sys st) (CLI.screen st ++ (CLI.Printed <$> lines))).
Proof.
  revert st. induction lines as [|l lines IH]; intros st.
  - simpl. rewrite app_nil_r. by destruct st.
  - cbn [CLI.print_each]. unfold CLI.print. eff_unfold. rewrite IH.
    cbn [CLI.sys CLI.screen fmap list_fmap]. by rewrite <- app_assoc.
Qed.

Ltac cli_unfold :=
  unfold CLI.try_except_ValueError, CLI.call, CLI.input, CLI.print;
  eff_unfold; cbn [CLI.sys CLI.screen].

Lemma printed_snoc_printed (l : list CLI.io_event) (line : string) :
  printed (l ++ [CLI.Printed line]) = printed l ++ [line].
Proof. by rewrite printed_app. Qed.

Lemma printed_snoc_prompted (l : list CLI.io_event) (prompt : string) :
  printed (l ++ [CLI.Prompted prompt]) = printed l.
Proof. rewrite printed_app. apply app_nil_r. Qed.

Ltac screen_simpl :=
  cbn [fst snd CLI.sys CLI.screen];
  repeat first [ rewrite printed_snoc_printed | rewrite printed_snoc_prompted
               | rewrite printed_app, printed_lines ];
  rewrite <- ?app_assoc; cbn [app].

(** X23. The add-student dialogue never lets an error escape: it trims the
    four typed texts, and either the trimmed texts satisfy the rules for a
    person (as the specification words them, the exact email shape included)
    and the trimmed identifier is new, and then the person made of the trimmed
    texts is appended and the success line is printed; or the stores, the
    files and the clock are as before and a line that starts with "Error: " is
    printed. *)
Theorem add_student_dialogue (st : CLI.state) (t1 t2 t3 t4 : string) :
  let s := Student.mk (Str.strip t1) (Str.strip t2) (Str.strip t3) (Str.strip t4) in
  let r := CLI._add_student t1 t2 t3 t4 st in
  let header := CLI.nl "Adding New Student" in
  fst r = Return () ∧
  (((Str.strip t1 ∉ student_keys (CLI.sys st)) ∧ person_rules s ∧
    CLI.sys (snd r)
    = persisted_students (set_students (students (CLI.sys st) ++ [s]) (CLI.sys st)) ∧
    printed (CLI.screen (snd r))
    = printed (CLI.screen st) ++ [header; "Student added successfully!"])
   ∨
   (¬ ((Str.strip t1 ∉ student_keys (CLI.sys st)) ∧ person_rules s) ∧
    ∃ msg, CLI.sys (snd r) = CLI.sys st ∧
           printed (CLI.screen (snd r))
           = printed (CLI.screen st) ++ [header; "Error: " +:+ msg])).
Proof.
  intros s r header. subst r. unfold CLI._add_student. cli_unfold.
  rewrite create_student_run.
  destruct (list_find _ _) as [[i x]|] eqn:Hf.
  - split; [done|]. right. split.
    + intros [Hn _]. apply find_student_missing in Hn. congruence.
    + eexists. split; [done|]. screen_simpl. reflexivity.
  - apply find_student_absent in Hf. cbv zeta. fold s.
    destruct (Student.validate s) as [|m errs] eqn:Hv; cbn [nonempty].
    + split; [done|]. left.
      assert (Hr : person_rules s).
      { destruct (student_clean_fields s Hv) as (H1 & H2 & H3 & H4).
        repeat split; try done. by apply anchored_on_stripped. }
      split; [done|]. split; [done|]. split; [reflexivity|]. by screen_simpl.
    + split; [done|]. right. split.
      * intros [_ Hr]. apply rules_validate_clean in Hr. congruence.
      * eexists. split; [done|]. by screen_simpl.
Qed.

(** X24. The list and search dialogues change nothing in the stores and
    print, after their heading, one line per person in the order of the
    collection: every person for the list; for the search, the persons that
    match the trimmed criteria, a criterion left empty or typed as white space
    being no criterion; and the "none found" line when there is no one. *)
Theorem list_and_search_dialogues (st : CLI.state) :
  (let r := CLI._list_students st in
   fst r = Return () ∧ CLI.sys (snd r) = CLI.sys st ∧
   printed (CLI.screen (snd r))
   = printed (CLI.screen st) ++ CLI.nl "List of Students:" ::
       (if nonempty (students (CLI.sys st))
        then Student.__str__ <$> students (CLI.sys st)
        else ["No students found."])) ∧
  (∀ t1 t2,
     let found := List.filter
                    (student_matches (CLI.or_None (Str.strip t1))
                                     (CLI.or_None (Str.strip t2)))
                    (students (CLI.sys st)) in
     let r := CLI._search_students t1 t2 st in
     fst r = Return () ∧ CLI.sys (snd r) = CLI.sys st ∧
     printed (CLI.screen (snd r))
     = printed (CLI.screen st) ++ CLI.nl "Search Students" ::
         (if nonempty found then Student.__str__ <$> found
          else ["No matching students found."])) ∧
  (∀ t1 t2,
     blank t1 = true → blank t2 = true →
     List.filter (student_matches (CLI.or_None (Str.strip t1))
                                  (CLI.or_None (Str.strip t2)))
       (students (CLI.sys st))
     = students (CLI.sys st)).
Proof.
  assert (Happ : ∀ x, applied (CLI.or_None x) = CLI.or_None x).
  { intros [|c x]; reflexivity. }
  split; [|split].
  - unfold CLI._list_students, StudentService.list_students. cli_unfold.
    destruct (students (CLI.sys st)) as [|x l]; cbn [nonempty negb].
    + split; [done|]. split; [done|]. by screen_simpl.
    + rewrite print_each_run. split; [done|]. split; [done|]. by screen_simpl.
  - intros t1 t2 found r. subst r. unfold CLI._search_students. cli_unfold.
    rewrite search_students_run, !Happ. fold found.
    destruct found as [|x l]; cbn [nonempty negb].
    + split; [done|]. split; [done|]. by screen_simpl.
    + rewrite print_each_run. split; [done|]. split; [done|]. by screen_simpl.
  - intros t1 t2 H1 H2.
    assert (Hb : ∀ t, blank t = true → CLI.or_None (Str.strip t) = None).
    { intros t Ht. rewrite <- missing_blank in Ht. unfold missing in Ht.
      unfold CLI.or_None. destruct t as [|c t]; [done|].
      destruct (Str.truthy (Str.strip (String c t))); [|done].
      simpl in Ht. discriminate Ht. }
    rewrite (Hb t1 H1), (Hb t2 H2). apply filter_keeps_all. by intros s _.
Qed.

(** X25. The enroll dialogue never lets an error escape: either the trimmed
    identifier and code name a person and an offering that are not linked yet,
    and then one link between them, without a score, is appended and the
    success line is printed; or the links and the files are as before and a
    line that starts with "Error: " is printed.  Persons and offerings are
    untouched either way. *)
Theorem enroll_dialogue (st : CLI.state) (t1 t2 : string) :
  let sid := Str.strip t1 in
  let code := Str.strip t2 in
  let r := CLI._enroll_student t1 t2 st in
  let header := CLI.nl "Enroll Student" in
  fst r = Return () ∧
  students (CLI.sys (snd r)) = students (CLI.sys st) ∧
  courses (CLI.sys (snd r)) = courses (CLI.sys st) ∧
  ((sid ∈ student_keys (CLI.sys st) ∧ code ∈ course_keys (CLI.sys st) ∧
    ((sid, code) ∉ link_pairs (CLI.sys st)) ∧
    (∃ e, enrollments (CLI.sys (snd r)) = enrollments (CLI.sys st) ++ [e] ∧
          Enrollment.student_id e = sid ∧ Enrollment.course_code e = code ∧
          Enrollment.grade e = None) ∧
    printed (CLI.screen (snd r))
    = printed (CLI.screen st) ++ [header; "Student enrolled successfully!"])
   ∨
   (∃ msg, enrollments (CLI.sys (snd r)) = enrollments (CLI.sys st) ∧
           disk (CLI.sys (snd r)) = disk (CLI.sys st) ∧
           writes (CLI.sys (snd r)) = writes (CLI.sys st) ∧
           printed (CLI.screen (snd r))
           = printed (CLI.screen st) ++ [header; "Error: " +:+ msg])).
Proof.
  intros sid code r header. subst r. unfold CLI._enroll_student. cli_unfold.
  fold sid code. rewrite enroll_student_run.
  destruct (list_find _ (students _)) as [[i x]|] eqn:Hs.
  2:{ repeat split; try done. right. eexists. repeat split; try done.
      by screen_simpl. }
  destruct (list_find _ (courses _)) as [[j y]|] eqn:Hc.
  2:{ repeat split; try done. right. eexists. repeat split; try done.
      by screen_simpl. }
  destruct (list_find _ (enrollments _)) as [[k z]|] eqn:He.
  { repeat split; try done. right. eexists. repeat split; try done.
    by screen_simpl. }
  cbv zeta. destruct (nonempty _) eqn:Hv.
  { repeat split; try done. right. eexists. repeat split; try done.
    by screen_simpl. }
  repeat split; try done. left.
  apply list_find_Some in Hs as (Hi & Hx & _).
  apply list_find_Some in Hc as (Hj & Hy & _).
  split; [|split; [|split; [|split]]].
  - unfold student_keys. apply list_elem_of_fmap. exists x. split; [done|].
    by eapply list_elem_of_lookup_2.
  - unfold course_keys. apply list_elem_of_fmap. exists y. split; [done|].
    by eapply list_elem_of_lookup_2.
  - intros Hin. apply find_link_present in Hin. rewrite He in Hin.
    by destruct Hin.
  - by eexists.
  - by screen_simpl.
Qed.
